(** * mini-online-judge: the grading engine of [grader.py]

    A shallow embedding of the static vettor ([_ensure_safe]), the table of
    allowed built-ins ([SAFE_BUILTINS]), the runner executed in the child
    process ([_execute]) and the supervisor ([run_in_subprocess]).

    The Python interpreter itself (parsing, [exec], calling the submitted
    function, [==]) is the environment of the grader: it is a record of
    operations, [Interp], over which every definition is parametrised.  The
    grader's own control flow is written out in a small state-and-exception
    monad whose state holds the interpreter state, the event log of the child
    and the contents of the result channel.

    What the model takes for granted: the statements of the grader itself
    run to completion (only the parser, [setrlimit], [exec], the call of the
    submitted function, [==] and the printing of a caught exception can
    raise, and only [exec], the call and [==] can kill the process or hang);
    [out_q.put] does not raise; the parent can start, signal and wait for
    the child.  What is put on the channel is pickled by the feeder thread
    of the queue and written to a pipe before the child exits: the
    interpreter says what the objects of a report contain by then, whether
    they can be pickled, and whether the pipe takes the item whole.
    Wall-clock time is counted in rational seconds.

    The problem bank of [problems.py] (module [Problems]) and the views of
    [app.py] (module [App]) come after the grader: the bank as an
    insertion-ordered dict, the views as functions of the state of one
    client. *)

From Stdlib Require Import QArith Qround Qminmax OrdersEx.
From stdpp Require Import base gmap strings list sorting pretty.
From Equations Require Import Equations.

Set Warnings "-register-all".

Local Open Scope string_scope.
Local Open Scope list_scope.

(** ** Values

    Test data are JSON-representable ([problems.py]); a submitted function
    may return any Python object, so values that are none of the JSON shapes
    are kept as opaque references. *)

Inductive value : Type :=
| VNone
| VBool (b : bool)
| VInt (z : Z)
| VStr (s : string)
| VList (items : list value)
| VDict (entries : list (string * value))
| VOther (ref : nat).

(** [isinstance(expected, list)] *)
Definition isinstance_list (v : value) : option (list value) :=
  match v with
  | VList items => Some items
  | _ => None
  end.

(** ** Syntax trees

    [_ensure_safe] only tells apart the node classes [ast.Import],
    [ast.ImportFrom], [ast.Attribute] (with its [attr]) and [ast.Name] (with
    its [id]); every other class is [KOther].  The children of a node are
    what [ast.iter_child_nodes] yields, in order. *)

Inductive node_kind : Type :=
| KImport
| KImportFrom
| KAttribute (attr : string)
| KName (id : string)
| KOther (cls : string).

Inductive ast : Type :=
| Node (kind : node_kind) (kids : list ast).

Definition node_class (t : ast) : node_kind :=
  match t with Node k _ => k end.

Definition iter_child_nodes (t : ast) : list ast :=
  match t with Node _ kids => kids end.

Fixpoint ast_size (t : ast) : nat :=
  match t with
  | Node _ kids => S (list_sum (map ast_size kids))
  end.

Definition forest_size (ts : list ast) : nat := list_sum (map ast_size ts).

(** [ast.walk]: a FIFO queue seeded with the root; each popped node is
    yielded after its children have been appended to the queue. *)
Equations? walk_queue (todo : list ast) : list ast by wf (forest_size todo) lt :=
  walk_queue [] := [];
  walk_queue (node :: rest) := node :: walk_queue (rest ++ iter_child_nodes node).
Proof.
  unfold forest_size. rewrite map_app, list_sum_app.
  destruct node as [k kids]. simpl. lia.
Qed.

Definition walk (tree : ast) : list ast := walk_queue [tree].

(** ** Exceptions

    An exception of the interpreter, as the grader reads it: the name of its
    class ([type(e).__name__]) and its text ([str(e)]).  Making the text
    runs code of its own (the [repr] of the arguments of the exception) and
    can raise in turn: the exception is then [Unprintable], with the
    exception that [str(e)] raises. *)
Inductive pyexc : Type :=
| Exc (kind msg : string)
| Unprintable (kind : string) (cause : pyexc).

Definition printable (e : pyexc) : bool :=
  match e with
  | Exc _ _ => true
  | Unprintable _ _ => false
  end.

(** What the grader catches: its own [SecurityError], or any other exception
    derived from [Exception]. *)
Inductive exn : Type :=
| SecurityError (msg : string)
| PyException (e : pyexc).

(** What [ast.parse(code, mode="exec")] does: a tree, a [SyntaxError] with its
    [msg] and [lineno], or some other exception (for instance a
    [RecursionError] on deeply nested source). *)
Inductive parse_result : Type :=
| ParseOk (tree : ast)
| ParseSyntaxError (msg : string) (lineno : nat)
| ParseFault (e : pyexc).

Definition denied_names : list string := ["__import__"; "eval"; "exec"; "open"].

Definition msg_import : string := "Import statements are not allowed".
Definition msg_dunder : string := "Access to dunder attributes is not allowed".
Definition msg_name (id : string) : string := "Usage of '" ++ id ++ "' is not allowed".
Definition msg_syntax (msg : string) (lineno : nat) : string :=
  "SyntaxError: " ++ msg ++ " (line " ++ pretty lineno ++ ")".

(** The body of the [for node in ast.walk(tree)] loop: [Some reason] when the
    node makes the loop raise [SecurityError(reason)]. *)
Definition check_node (node : ast) : option string :=
  match node_class node with
  | KImport | KImportFrom => Some msg_import
  | KAttribute attr =>
      if String.prefix "__" attr then Some msg_dunder else None
  | KName id =>
      if bool_decide (id ∈ denied_names) then Some (msg_name id) else None
  | KOther _ => None
  end.

Fixpoint check_nodes (nodes : list ast) : option string :=
  match nodes with
  | [] => None
  | node :: rest =>
      match check_node node with
      | Some reason => Some reason
      | None => check_nodes rest
      end
  end.

(** ** The table of allowed built-ins *)

(** Objects a name can be bound to in the execution namespace: a built-in of
    the host interpreter, the dictionary [SAFE_BUILTINS] itself, or an object
    created by the submission. *)
Inductive pyobj : Type :=
| HostBuiltin (name : string)
| BuiltinsDict
| UserObj (ref : nat).

Definition host (name : string) : string * pyobj := (name, HostBuiltin name).

Definition SAFE_BUILTINS_items : list (string * pyobj) :=
  [ host "abs"; host "all"; host "any"; host "bool"; host "bytes";
    host "callable"; host "chr"; host "complex"; host "dict"; host "divmod";
    host "enumerate"; host "filter"; host "float"; host "format";
    host "frozenset"; host "getattr"; host "hasattr"; host "hash"; host "hex";
    host "int"; host "isinstance"; host "issubclass"; host "iter"; host "len";
    host "list"; host "map"; host "max"; host "min"; host "next";
    host "object"; host "oct"; host "ord"; host "pow"; host "print";
    host "range"; host "repr"; host "reversed"; host "round"; host "set";
    host "slice"; host "sorted"; host "str"; host "sum"; host "tuple";
    host "zip" ].

Definition SAFE_BUILTINS : gmap string pyobj := list_to_map SAFE_BUILTINS_items.

(** [ns = {"__builtins__": SAFE_BUILTINS}] *)
Definition initial_ns : gmap string pyobj := {[ "__builtins__" := BuiltinsDict ]}.

(** What makes a built-in of Python unfit for untrusted code. *)
Inductive capability : Type :=
| ImportsModules
| RunsSourceText
| ReadsInput
| OpensFiles
| WritesOutput
| ResolvesAttributes
| ReachesInternals.

(** The built-in names of Python 3 that import modules, run source text, do
    input or output, resolve attributes by name, or hand out the internals
    of the interpreter. *)
Definition capable_builtins : list (string * capability) :=
  [ ("__import__", ImportsModules);
    ("eval", RunsSourceText); ("exec", RunsSourceText); ("compile", RunsSourceText);
    ("open", OpensFiles); ("input", ReadsInput); ("print", WritesOutput);
    ("getattr", ResolvesAttributes); ("hasattr", ResolvesAttributes);
    ("setattr", ResolvesAttributes); ("delattr", ResolvesAttributes);
    ("globals", ReachesInternals); ("locals", ReachesInternals);
    ("vars", ReachesInternals); ("dir", ReachesInternals);
    ("type", ReachesInternals); ("super", ReachesInternals);
    ("memoryview", ReachesInternals); ("breakpoint", ReachesInternals);
    ("help", ReachesInternals); ("__build_class__", ReachesInternals) ].

(** No name with such a capability is bound in the table. *)
Definition excludes_capable_names (table : gmap string pyobj) : Prop :=
  forall name cap, (name, cap) ∈ capable_builtins -> table !! name = None.

(** ** Records of the grader

    In the child an outcome holds objects, not copies: the objects handed to
    the call as arguments, the expected value of the test case, the object
    returned.  The fields [o_args], [o_kwargs], [o_expected] and [o_got] of
    an outcome built by the child name these objects by the value each had
    when the grader got hold of it; what they contain once the report is
    pickled for the channel is for the interpreter to say ([py_pickle]
    below).  The index, the verdict and the error text are numbers, truth
    values and strings of the grader's own making. *)

Record TestCase : Type := mkTestCase {
  tc_args : option (list value);
  tc_kwargs : option (list (string * value));
  tc_expected : option value
}.

Record Problem : Type := mkProblem {
  function_name : string;
  tests : list TestCase
}.

Record TestOutcome : Type := mkTestOutcome {
  o_index : nat;
  o_args : list value;
  o_kwargs : list (string * value);
  o_expected : value;
  o_ok : bool;
  o_got : value;
  o_error : option string
}.

Record Summary : Type := mkSummary {
  total : nat;
  passed : nat
}.

(** The dictionary handed to the caller; an absent key is [None]. *)
Record GradeResult : Type := mkGradeResult {
  g_status : string;
  g_tests : option (list TestOutcome);
  g_elapsed : option Q;
  g_summary : option Summary;
  g_error : option string
}.

Definition result_ok (outcomes : list TestOutcome) (elapsed : Q) : GradeResult :=
  {| g_status := "ok";
     g_tests := Some outcomes;
     g_elapsed := Some elapsed;
     g_summary := Some {| total := length outcomes;
                          passed := length (filter (fun t => o_ok t = true) outcomes) |};
     g_error := None |}.

Definition result_error (msg : string) : GradeResult :=
  {| g_status := "error"; g_tests := None; g_elapsed := None;
     g_summary := None; g_error := Some msg |}.

Definition result_tle : GradeResult :=
  {| g_status := "tle"; g_tests := None; g_elapsed := None;
     g_summary := None; g_error := Some "Time Limit Exceeded" |}.

Definition result_no_result : GradeResult := result_error "No result returned".

(** What pickling an outcome reads of the objects it holds. *)
Record contents : Type := mkContents {
  k_args : list value;
  k_kwargs : list (string * value);
  k_expected : value;
  k_got : value
}.

(** ** The interpreter

    How a Python operation ends: it returns, it raises an exception derived
    from [Exception], it ends the process past every [except Exception]
    (an exception outside that class, or a kill by the operating system,
    for instance on reaching the hard CPU limit), or it never returns. *)
Inductive py_outcome (A : Type) : Type :=
| Returns (a : A)
| Raises (e : pyexc)
| Aborts
| Diverges.
Arguments Returns {A} a.
Arguments Raises {A} e.
Arguments Aborts {A}.
Arguments Diverges {A}.

Inductive rlimit : Type := RLIMIT_CPU | RLIMIT_AS.

Record Interp : Type := mkInterp {
  (** state of the child process: heap, resource limits, clock *)
  pstate : Type;
  (** [ast.parse(code, mode="exec")] *)
  py_parse : string -> parse_result;
  (** [resource.setrlimit(res, (soft, hard))], a system call: it returns
      ([None]) or raises *)
  py_setrlimit : pstate -> rlimit -> Z -> Z -> option pyexc * pstate;
  (** [exec(code, ns, ns)], given what [ns["__builtins__"]] holds; returns
      [ns] as the module body left it *)
  py_exec : pstate -> gmap string pyobj -> gmap string pyobj -> string ->
            py_outcome (gmap string pyobj) * pstate;
  (** [fn( *args, **kwargs)] *)
  py_call : pstate -> pyobj -> list value -> list (string * value) ->
            py_outcome value * pstate;
  (** the truth value of [a == b] *)
  py_eq : value -> value -> py_outcome bool;
  (** the state in which a freshly started child begins *)
  py_start : pstate;
  (** [time.time()] *)
  py_time : pstate -> Q;
  (** wall-clock seconds from [proc.start()] to the exit of a child that
      ends in this state *)
  py_wall : pstate -> Q;
  (** pickling, in this state, the objects an outcome holds: what they
      contain by then, or [None] when one of them cannot be pickled *)
  py_pickle : pstate -> TestOutcome -> option contents;
  (** whether the pipe of the channel takes the pickled item whole while
      nobody reads from it *)
  py_fits : GradeResult -> bool
}.

(** ** The monad of the child process *)

Inductive event : Type :=
| EvSetrlimit (res : rlimit) (soft hard : Z)
| EvParse (code : string)
| EvExec (code : string) (builtins globals : gmap string pyobj)
| EvCall (fn : pyobj) (args : list value) (kwargs : list (string * value))
| EvPut (r : GradeResult).

Inductive outcome (A : Type) : Type :=
| Done (a : A)
| Raise (e : exn)
| Abort
| Diverge.
Arguments Done {A} a.
Arguments Raise {A} e.
Arguments Abort {A}.
Arguments Diverge {A}.

Definition error_text (kind msg : string) : string :=
  "ERROR: " ++ kind ++ ": " ++ msg.

(** [f"ERROR: {type(e).__name__}: {e}"]: the text, or the exception raised
    while [e] is turned into a string. *)
Definition format_error (e : exn) : string + pyexc :=
  match e with
  | SecurityError msg => inl (error_text "SecurityError" msg)
  | PyException (Exc kind msg) => inl (error_text kind msg)
  | PyException (Unprintable _ cause) => inr cause
  end.

Section Grader.

Context (py : Interp).

(** The state threaded through the child: the interpreter state, the log of
    what the child did, and the items it has put on the result channel. *)
Record cstate : Type := mkCstate {
  c_py : pstate py;
  c_log : list event;
  c_queue : list GradeResult
}.

Definition M (A : Type) : Type := cstate -> outcome A * cstate.

Definition ret {A} (a : A) : M A := fun s => (Done a, s).

Definition bind {A B} (m : M A) (k : A -> M B) : M B :=
  fun s =>
    match m s with
    | (Done a, s') => k a s'
    | (Raise e, s') => (Raise e, s')
    | (Abort, s') => (Abort, s')
    | (Diverge, s') => (Diverge, s')
    end.

Definition raise {A} (e : exn) : M A := fun s => (Raise e, s).

(** [try: body  except Exception as e: handler(e)]; both exception classes of
    the grader derive from [Exception]. *)
Definition try_except {A} (body : M A) (handler : exn -> M A) : M A :=
  fun s =>
    match body s with
    | (Raise e, s') => handler e s'
    | r => r
    end.

Notation "x <- m ;; k" := (bind m (fun x => k))
  (at level 100, m at next level, right associativity).
Notation "m ;;; k" := (bind m (fun _ => k))
  (at level 100, right associativity).

Definition emit (ev : event) : M unit :=
  fun s => (Done tt, {| c_py := c_py s; c_log := c_log s ++ [ev]; c_queue := c_queue s |}).

(** Run an interpreter operation on the interpreter state. *)
Definition lift {A} (op : pstate py -> py_outcome A * pstate py) : M A :=
  fun s =>
    let '(r, p) := op (c_py s) in
    let s' := {| c_py := p; c_log := c_log s; c_queue := c_queue s |} in
    match r with
    | Returns a => (Done a, s')
    | Raises e => (Raise (PyException e), s')
    | Aborts => (Abort, s')
    | Diverges => (Diverge, s')
    end.

(** An f-string that formats an exception, where it stands in the code: the
    exception it may raise goes to the handlers around it. *)
Definition formatted (e : exn) : M string :=
  match format_error e with
  | inl text => ret text
  | inr cause => raise (PyException cause)
  end.

Definition time : M Q := fun s => (Done (py_time py (c_py s)), s).

(** [out_q.put(r)] *)
Definition put (r : GradeResult) : M unit :=
  fun s => (Done tt, {| c_py := c_py s; c_log := c_log s ++ [EvPut r];
                        c_queue := c_queue s ++ [r] |}).

(** *** [_ensure_safe] *)
Definition _ensure_safe (code : string) : M unit :=
  emit (EvParse code) ;;;
  match py_parse py code with
  | ParseSyntaxError msg lineno => raise (SecurityError (msg_syntax msg lineno))
  | ParseFault e => raise (PyException e)
  | ParseOk tree =>
      match check_nodes (walk tree) with
      | Some reason => raise (SecurityError reason)
      | None => ret tt
      end
  end.

(** *** [_limit_resources] *)
Definition setrlimit (res : rlimit) (soft hard : Z) : M unit :=
  emit (EvSetrlimit res soft hard) ;;;
  lift (fun p =>
          let '(r, p') := py_setrlimit py p res soft hard in
          (match r with
           | None => Returns tt
           | Some e => Raises e
           end, p')).

Definition _limit_resources (mem_limit_mb : Z) : M unit :=
  try_except (setrlimit RLIMIT_CPU 3 3) (fun _ => ret tt) ;;;
  try_except
    (let mem_bytes := (mem_limit_mb * 1024 * 1024)%Z in
     setrlimit RLIMIT_AS mem_bytes mem_bytes)
    (fun _ => ret tt).

(** *** Scoring one returned value *)

(** [any(got == e for e in expected)]: stops at the first true comparison,
    and at the first one that does not return. *)
Fixpoint any_eq (got : value) (alternatives : list value) : py_outcome bool :=
  match alternatives with
  | [] => Returns false
  | e :: rest =>
      match py_eq py got e with
      | Returns true => Returns true
      | Returns false => any_eq got rest
      | r => r
      end
  end.

Definition score (got expected : value) : py_outcome bool :=
  match isinstance_list expected with
  | Some alternatives => any_eq got alternatives
  | None => py_eq py got expected
  end.

Definition call (fn : pyobj) (args : list value) (kwargs : list (string * value)) : M value :=
  emit (EvCall fn args kwargs) ;;;
  lift (fun p => py_call py p fn args kwargs).

(** *** The body of the loop over the test cases

    The item keeps the objects themselves: the arguments it hands to the
    call, the expected value, the object returned.  A submission that
    changes one of them in place changes what the report will show; the
    verdict is taken on the spot, from the value as returned, and is a
    truth value of its own. *)
Definition run_test (fn : pyobj) (idx : nat) (t : TestCase) : M TestOutcome :=
  let args := default [] (tc_args t) in
  let kwargs := default [] (tc_kwargs t) in
  let expected := default VNone (tc_expected t) in
  let item ok got error :=
    {| o_index := idx; o_args := args; o_kwargs := kwargs; o_expected := expected;
       o_ok := ok; o_got := got; o_error := error |} in
  try_except
    (got <- call fn args kwargs ;;
     ok <- lift (fun p => (score got expected, p)) ;;
     ret (item ok got None))
    (fun e =>
       text <- formatted e ;;
       ret (item false VNone (Some text))).

(** [for idx, t in enumerate(problem["tests"], 1): ... tests.append(item)] *)
Fixpoint run_tests (fn : pyobj) (idx : nat) (ts : list TestCase)
    (acc : list TestOutcome) : M (list TestOutcome) :=
  match ts with
  | [] => ret acc
  | t :: rest =>
      item <- run_test fn idx t ;;
      run_tests fn (S idx) rest (acc ++ [item])
  end.

(** [round(elapsed, 4)], on the rational read of the clock: to the nearest
    multiple of 1/10000, ties to the even one. *)
Definition round4 (q : Q) : Q :=
  let scaled := (q * 10000)%Q in
  let lo := Qfloor scaled in
  let frac := (scaled - inject_Z lo)%Q in
  let n := match Qcompare frac (1 # 2) with
           | Lt => lo
           | Gt => (lo + 1)%Z
           | Eq => if Z.even lo then lo else (lo + 1)%Z
           end in
  (n # 10000)%Q.

(** *** [_execute] *)

(** The two [except] clauses that close [_execute]. *)
Definition except_clauses (e : exn) : M unit :=
  match e with
  | SecurityError msg => put (result_error msg)
  | PyException _ =>
      text <- formatted e ;;
      put (result_error text)
  end.

Definition _execute (problem : Problem) (code : string) (mem_limit_mb : Z) : M unit :=
  start <- time ;;
  try_except
    (_limit_resources mem_limit_mb ;;;
     _ensure_safe code ;;;
     emit (EvExec code SAFE_BUILTINS initial_ns) ;;;
     ns <- lift (fun p => py_exec py p SAFE_BUILTINS initial_ns code) ;;
     let fname := function_name problem in
     match ns !! fname with
     | None => raise (SecurityError ("Function '" ++ fname ++ "' is not defined"))
     | Some fn =>
         outcomes <- run_tests fn 1 (tests problem) [] ;;
         now <- time ;;
         put (result_ok outcomes (round4 (now - start)))
     end)
    except_clauses.

(** ** The supervisor

    What the parent can observe of the child it started: how [_execute]
    ended and the state it ended in (the result channel included). *)
Record child : Type := mkChild {
  ch_end : outcome unit;
  ch_final : cstate
}.

(** The state of a child when it starts: nothing logged, the channel
    empty. *)
Definition fresh : cstate :=
  {| c_py := py_start py; c_log := []; c_queue := [] |}.

(** [mp.Process(target=_execute, args=(problem, code, mem_limit_mb, q))] *)
Definition Process (problem : Problem) (code : string) (mem_limit_mb : Z) : child :=
  let '(r, s) := _execute problem code mem_limit_mb fresh in
  {| ch_end := r; ch_final := s |}.

Inductive sup_event : Type :=
| SupStart
| SupJoin (timeout : Q)
| SupIsAlive (alive : bool)
| SupTerminate
| SupGetNowait (item : option GradeResult).

Record sup_state : Type := mkSupState {
  sp_waited : Q;        (* seconds spent in [join] since [start] *)
  sp_signalled : bool;  (* [terminate] was sent *)
  sp_log : list sup_event
}.

(** *** The channel

    [out_q.put] hands the item to the feeder thread of the queue, which
    pickles it and writes it to a pipe.  An outcome is pickled with the
    contents its objects have by then; the numbers, truth values and
    strings of the grader go through as they are. *)
Definition pickled (p : pstate py) (o : TestOutcome) : option TestOutcome :=
  match py_pickle py p o with
  | Some k =>
      Some {| o_index := o_index o; o_args := k_args k; o_kwargs := k_kwargs k;
              o_expected := k_expected k; o_ok := o_ok o; o_got := k_got k;
              o_error := o_error o |}
  | None => None
  end.

(** The item as the parent would unpickle it; [None] when an object of the
    item cannot be pickled: the feeder thread drops the item. *)
Definition carried (p : pstate py) (r : GradeResult) : option GradeResult :=
  match g_tests r with
  | Some outs =>
      match mapM (pickled p) outs with
      | Some sent =>
          Some {| g_status := g_status r; g_tests := Some sent;
                  g_elapsed := g_elapsed r; g_summary := g_summary r;
                  g_error := g_error r |}
      | None => None
      end
  | None => Some r
  end.

(** What the feeder thread has to write to the pipe before the child can
    exit. *)
Definition to_send (proc : child) : list GradeResult :=
  omap (carried (c_py (ch_final proc))) (c_queue (ch_final proc)).

(** A child exits once the feeder thread has written everything.  The
    parent does not read before the child is gone, so an item the pipe does
    not take whole keeps the child from exiting. *)
Definition flushed (proc : child) : bool :=
  forallb (py_fits py) (to_send proc).

(** The child has exited when the parent has waited [t] seconds: never if it
    diverges or cannot flush the channel, else once its wall-clock run time
    has passed. *)
Definition exited_by (proc : child) (t : Q) : bool :=
  match ch_end proc with
  | Diverge => false
  | _ => flushed proc && Qle_bool (py_wall py (c_py (ch_final proc))) t
  end.

Definition proc_start (s : sup_state) : sup_state :=
  {| sp_waited := sp_waited s; sp_signalled := sp_signalled s;
     sp_log := sp_log s ++ [SupStart] |}.

(** [proc.join(timeout)]: returns at the exit of the child or after
    [timeout] seconds, whichever comes first; a signalled child is gone. *)
Definition proc_join (proc : child) (timeout : Q) (s : sup_state) : sup_state :=
  let deadline := (sp_waited s + timeout)%Q in
  {| sp_waited := if sp_signalled s then sp_waited s
                  else if exited_by proc deadline
                       then Qmax (sp_waited s) (py_wall py (c_py (ch_final proc)))
                       else deadline;
     sp_signalled := sp_signalled s;
     sp_log := sp_log s ++ [SupJoin timeout] |}.

Definition proc_is_alive (proc : child) (s : sup_state) : bool * sup_state :=
  let alive := negb (sp_signalled s) && negb (exited_by proc (sp_waited s)) in
  (alive, {| sp_waited := sp_waited s; sp_signalled := sp_signalled s;
             sp_log := sp_log s ++ [SupIsAlive alive] |}).

Definition proc_terminate (s : sup_state) : sup_state :=
  {| sp_waited := sp_waited s; sp_signalled := true;
     sp_log := sp_log s ++ [SupTerminate] |}.

(** [q.get_nowait()]: the first item that was written to the pipe, as
    unpickled; [None] for [queue.Empty]. *)
Definition q_get_nowait (proc : child) (s : sup_state) : option GradeResult * sup_state :=
  let item := head (to_send proc) in
  (item, {| sp_waited := sp_waited s; sp_signalled := sp_signalled s;
            sp_log := sp_log s ++ [SupGetNowait item] |}).

(** [run_in_subprocess], with the trace of what the parent did. *)
Definition run_in_subprocess_trace (problem : Problem) (code : string)
    (time_limit : Q) (mem_limit_mb : Z) : GradeResult * list sup_event :=
  let proc := Process problem code mem_limit_mb in
  let s := proc_start {| sp_waited := 0; sp_signalled := false; sp_log := [] |} in
  let s := proc_join proc time_limit s in
  let '(alive, s) := proc_is_alive proc s in
  if alive then
    let s := proc_terminate s in
    let s := proc_join proc (1 # 10) s in
    (result_tle, sp_log s)
  else
    let '(item, s) := q_get_nowait proc s in
    match item with
    | Some result => (result, sp_log s)
    | None => (result_no_result, sp_log s)
    end.

Definition run_in_subprocess (problem : Problem) (code : string)
    (time_limit : Q) (mem_limit_mb : Z) : GradeResult :=
  fst (run_in_subprocess_trace problem code time_limit mem_limit_mb).

End Grader.

(** The default arguments of [run_in_subprocess]. *)
Definition default_time_limit : Q := 2.
Definition default_mem_limit_mb : Z := 128.

Arguments ret {py A} a.
Arguments raise {py A} e.
Arguments c_py {py} c.
Arguments c_log {py} c.
Arguments c_queue {py} c.
Arguments ch_end {py} c.
Arguments ch_final {py} c.

(** ** A reference interpreter for concrete runs

    Enough of Python to run the problems of [problems.py] against a handful
    of submissions: [==] on JSON-like values, and submissions given by their
    source, their syntax tree and what their function does on each call.
    No object is changed in place, everything can be pickled, and the pipe
    takes every item; [MoreSamples.with_channel] gives other channels. *)
Module Samples.

Definition as_number (v : value) : option Z :=
  match v with
  | VBool b => Some (if b then 1 else 0)%Z
  | VInt z => Some z
  | _ => None
  end.

Fixpoint assoc (k : string) (entries : list (string * value)) : option value :=
  match entries with
  | [] => None
  | (k', v) :: rest => if String.eqb k k' then Some v else assoc k rest
  end.

(** [a == b]: numbers (booleans included) by numeric value, strings by
    content, lists item by item, dictionaries key by key, other objects by
    identity. *)
Fixpoint json_eq (a b : value) {struct a} : bool :=
  match a, b with
  | VNone, VNone => true
  | VStr s, VStr t => String.eqb s t
  | VList xs, VList ys =>
      (fix items (xs ys : list value) {struct xs} : bool :=
         match xs, ys with
         | [], [] => true
         | x :: xs', y :: ys' => json_eq x y && items xs' ys'
         | _, _ => false
         end) xs ys
  | VDict d, VDict d' =>
      Nat.eqb (length d) (length d') &&
      (fix entries (d : list (string * value)) {struct d} : bool :=
         match d with
         | [] => true
         | (k, v) :: rest =>
             match assoc k d' with
             | Some v' => json_eq v v' && entries rest
             | None => false
             end
         end) d
  | VOther r, VOther r' => Nat.eqb r r'
  | _, _ =>
      match as_number a, as_number b with
      | Some x, Some y => Z.eqb x y
      | _, _ => false
      end
  end.

(** A submission: its source, what [ast.parse] makes of it, the names its
    module body defines, what a call of its function does (given the number
    of calls made before), and how long the child runs. *)
Record program : Type := mkProgram {
  source : string;
  parsed : parse_result;
  defines : list (string * pyobj);
  behaviour : nat -> list value -> py_outcome value;
  wall : Q
}.

Definition interp (prog : program) : Interp :=
  {| pstate := nat;
     py_parse := fun code =>
       if String.eqb code (source prog) then parsed prog
       else ParseSyntaxError "invalid syntax" 1;
     py_setrlimit := fun p _ _ _ => (None, p);
     py_exec := fun p _ ns _ => (Returns (list_to_map (defines prog) ∪ ns), p);
     py_call := fun p _ args _ => (behaviour prog p args, S p);
     py_eq := fun a b => Returns (json_eq a b);
     py_start := 0%nat;
     py_time := fun _ => 0%Q;
     py_wall := fun _ => wall prog;
     py_pickle := fun _ o =>
       Some {| k_args := o_args o; k_kwargs := o_kwargs o;
               k_expected := o_expected o; k_got := o_got o |};
     py_fits := fun _ => true |}.

(** Tree builders. *)
Definition leaf (cls : string) : ast := Node (KOther cls) [].
Definition Name (id : string) : ast := Node (KName id) [leaf "Load"].
Definition Store (id : string) : ast := Node (KName id) [leaf "Store"].
Definition Attribute (obj : ast) (attr : string) : ast :=
  Node (KAttribute attr) [obj; leaf "Load"].
Definition Constant : ast := leaf "Constant".
Definition Module (body : list ast) : ast := Node (KOther "Module") body.
Definition FunctionDef (params : list string) (body : list ast) : ast :=
  Node (KOther "FunctionDef")
       (Node (KOther "arguments") (map (fun _ => leaf "arg") params) :: body).
Definition Return (e : ast) : ast := Node (KOther "Return") [e].
Definition Call (f : ast) (args : list ast) : ast := Node (KOther "Call") (f :: args).
Definition BinOp (l r : ast) : ast := Node (KOther "BinOp") [l; leaf "op"; r].

(** *** The problems of [problems.py] *)

Local Open Scope Z_scope.

Definition ints (zs : list Z) : value := VList (map VInt zs).

Definition test (args : list value) (expected : value) : TestCase :=
  {| tc_args := Some args; tc_kwargs := Some []; tc_expected := Some expected |}.

Definition two_sum_problem : Problem :=
  {| function_name := "two_sum";
     tests :=
       [ test [ints [2; 7; 11; 15]; VInt 9] (VList [ints [0; 1]; ints [1; 0]]);
         test [ints [3; 2; 4]; VInt 6] (VList [ints [1; 2]; ints [2; 1]]);
         test [ints [3; 3]; VInt 6] (VList [ints [0; 1]; ints [1; 0]]) ] |}.

Definition fib_problem : Problem :=
  {| function_name := "fib";
     tests := [ test [VInt 0] (VInt 0); test [VInt 1] (VInt 1);
                test [VInt 7] (VInt 13); test [VInt 10] (VInt 55) ] |}.

(** *** Submissions *)

(** The template solution of [two_sum]: a map from seen numbers to their
    last index. *)
Fixpoint two_sum_scan (seen : list (Z * Z)) (i : Z) (nums : list Z) (target : Z) : value :=
  match nums with
  | [] => VList []
  | x :: rest =>
      match List.find (fun kv => Z.eqb (fst kv) (target - x)) seen with
      | Some (_, j) => ints [j; i]
      | None => two_sum_scan ((x, i) :: seen) (i + 1) rest target
      end
  end.

Definition as_ints (v : value) : option (list Z) :=
  match v with
  | VList items => mapM (fun x => match x with VInt z => Some z | _ => None end) items
  | _ => None
  end.

Definition two_sum_template : program :=
  {| source := "def two_sum(nums, target):
    seen = {}
    for i, x in enumerate(nums):
        need = target - x
        if need in seen:
            return [seen[need], i]
        seen[x] = i
    return []
";
     parsed := ParseOk (Module [FunctionDef ["nums"; "target"]
       [ Node (KOther "Assign") [Store "seen"; leaf "Dict"];
         Node (KOther "For")
           [ Node (KOther "Tuple") [Store "i"; Store "x"; leaf "Store"];
             Call (Name "enumerate") [Name "nums"];
             Node (KOther "Assign") [Store "need"; BinOp (Name "target") (Name "x")];
             Node (KOther "If")
               [ Node (KOther "Compare") [Name "need"; leaf "In"; Name "seen"];
                 Return (Node (KOther "List")
                           [ Node (KOther "Subscript") [Name "seen"; Name "need"; leaf "Load"];
                             Name "i"; leaf "Load" ]) ];
             Node (KOther "Assign")
               [ Node (KOther "Subscript") [Name "seen"; Name "x"; leaf "Store"]; Name "i" ] ];
         Return (Node (KOther "List") [leaf "Load"]) ]]);
     defines := [("two_sum", UserObj 0%nat)];
     behaviour := fun _ args =>
       match args with
       | [nums; VInt target] =>
           match as_ints nums with
           | Some zs => Returns (two_sum_scan [] 0 zs target)
           | None => Raises (Exc "TypeError" "unsupported operand type(s) for -")
           end
       | _ => Raises (Exc "TypeError" "two_sum() takes 2 positional arguments")
       end;
     wall := (1 # 20)%Q |}.

Fixpoint fib_iter (n : nat) (a b : Z) : Z :=
  match n with
  | O => a
  | S n' => fib_iter n' b (a + b)
  end.

Definition fib_call (args : list value) : py_outcome value :=
  match args with
  | [VInt n] => Returns (VInt (fib_iter (Z.to_nat n) 0 1))
  | [_] => Raises (Exc "TypeError" "'str' object cannot be interpreted as an integer")
  | _ => Raises (Exc "TypeError" "fib() takes 1 positional argument")
  end.

Definition fib_tree (first : list ast) : parse_result :=
  ParseOk (Module [FunctionDef ["n"]
    (first ++
     [ Node (KOther "Assign")
         [Node (KOther "Tuple") [Store "a"; Store "b"; leaf "Store"];
          Node (KOther "Tuple") [Constant; Constant; leaf "Load"]];
       Node (KOther "For")
         [ Store "_"; Call (Name "range") [Name "n"];
           Node (KOther "Assign")
             [Node (KOther "Tuple") [Store "a"; Store "b"; leaf "Store"];
              Node (KOther "Tuple") [Name "b"; BinOp (Name "a") (Name "b"); leaf "Load"]] ];
       Return (Name "a") ])]).

(** The template solution of [fib]. *)
Definition fib_template : program :=
  {| source := "def fib(n):
    a, b = 0, 1
    for _ in range(n):
        a, b = b, a + b
    return a
";
     parsed := fib_tree [];
     defines := [("fib", UserObj 0%nat)];
     behaviour := fun _ args => fib_call args;
     wall := (1 # 20)%Q |}.

(** The same, dividing by zero when [n] is 1. *)
Definition fib_div_zero : program :=
  {| source := "def fib(n):
    if n == 1:
        return 1 // 0
    a, b = 0, 1
    for _ in range(n):
        a, b = b, a + b
    return a
";
     parsed := fib_tree
       [ Node (KOther "If")
           [ Node (KOther "Compare") [Name "n"; leaf "Eq"; Constant];
             Return (BinOp Constant Constant) ] ];
     defines := [("fib", UserObj 0%nat)];
     behaviour := fun _ args =>
       match args with
       | [VInt 1] => Raises (Exc "ZeroDivisionError" "integer division or modulo by zero")
       | _ => fib_call args
       end;
     wall := (1 # 20)%Q |}.

(** A submission that imports a module. *)
Definition import_os : program :=
  {| source := "import os
def fib(n):
    return n
";
     parsed := ParseOk (Module [ Node KImport [leaf "alias"];
                                 FunctionDef ["n"] [Return (Name "n")] ]);
     defines := [("os", UserObj 1%nat); ("fib", UserObj 0%nat)];
     behaviour := fun _ args => match args with [v] => Returns v | _ => Raises (Exc "TypeError" "fib() takes 1 positional argument") end;
     wall := (1 # 20)%Q |}.

(** A submission that reads a reserved attribute. *)
Definition dunder_class : program :=
  {| source := "def fib(n):
    return n.__class__
";
     parsed := ParseOk (Module [FunctionDef ["n"] [Return (Attribute (Name "n") "__class__")]]);
     defines := [("fib", UserObj 0%nat)];
     behaviour := fun _ _ => Returns (VOther 7%nat);
     wall := (1 # 20)%Q |}.

Definition spin_tree : parse_result :=
  ParseOk (Module [FunctionDef ["n"]
    [Node (KOther "While") [Constant; leaf "Pass"]]]).

Definition spin_source : string := "def fib(n):
    while True:
        pass
".

(** A busy loop, where the CPU limit is not enforced: the call never
    returns. *)
Definition spin_forever : program :=
  {| source := spin_source; parsed := spin_tree;
     defines := [("fib", UserObj 0%nat)];
     behaviour := fun _ _ => Diverges;
     wall := 0%Q |}.

(** The same busy loop under [RLIMIT_CPU] = 3 seconds: the operating system
    kills the child once it has used them. *)
Definition spin_killed : program :=
  {| source := spin_source; parsed := spin_tree;
     defines := [("fib", UserObj 0%nat)];
     behaviour := fun _ _ => Aborts;
     wall := (31 # 10)%Q |}.

(** A [fib] that is right on its first call and is killed in its second. *)
Definition fib_then_killed : program :=
  {| source := "def fib(n, seen=[]):
    seen.append(n)
    while len(seen) > 1:
        pass
    return n
";
     parsed := ParseOk (Module [FunctionDef ["n"; "seen"]
       [ Node (KOther "Expr") [Call (Attribute (Name "seen") "append") [Name "n"]];
         Node (KOther "While")
           [Node (KOther "Compare") [Call (Name "len") [Name "seen"]; leaf "Gt"; Constant];
            leaf "Pass"];
         Return (Name "n") ]]);
     defines := [("fib", UserObj 0%nat)];
     behaviour := fun calls args =>
       match calls, args with
       | O, [v] => Returns v
       | _, _ => Aborts
       end;
     wall := (31 # 10)%Q |}.

(** A [fib] that is right for 0 and fails everywhere else on an assertion
    whose message is a list nested too deep to be printed. *)
Definition fib_deep_assert : program :=
  {| source := "def fib(n):
    if n == 0:
        return 0
    x = []
    for _ in range(100000):
        x = [x]
    assert False, x
";
     parsed := ParseOk (Module [FunctionDef ["n"]
       [ Node (KOther "If")
           [ Node (KOther "Compare") [Name "n"; leaf "Eq"; Constant]; Return Constant ];
         Node (KOther "Assign") [Store "x"; Node (KOther "List") [leaf "Load"]];
         Node (KOther "For")
           [ Store "_"; Call (Name "range") [Constant];
             Node (KOther "Assign") [Store "x"; Node (KOther "List") [Name "x"; leaf "Load"]] ];
         Node (KOther "Assert") [Constant; Name "x"] ]]);
     defines := [("fib", UserObj 0%nat)];
     behaviour := fun _ args =>
       match args with
       | [VInt 0] => Returns (VInt 0)
       | _ => Raises (Unprintable "AssertionError"
                        (Exc "RecursionError"
                           "maximum recursion depth exceeded while getting the repr of an object"))
       end;
     wall := (1 # 5)%Q |}.

(** A [two_sum] that returns the whole list of accepted answers. *)
Definition two_sum_whole : program :=
  {| source := "def two_sum(nums, target):
    return [[0, 1], [1, 0]]
";
     parsed := ParseOk (Module [FunctionDef ["nums"; "target"]
       [Return (Node (KOther "List")
          [ Node (KOther "List") [Constant; Constant; leaf "Load"];
            Node (KOther "List") [Constant; Constant; leaf "Load"]; leaf "Load" ])]]);
     defines := [("two_sum", UserObj 0%nat)];
     behaviour := fun _ _ => Returns (VList [ints [0; 1]; ints [1; 0]]);
     wall := (1 # 20)%Q |}.

(** A module that defines nothing called [fib]. *)
Definition no_function : program :=
  {| source := "def fibonacci(n):
    return n
";
     parsed := ParseOk (Module [FunctionDef ["n"] [Return (Name "n")]]);
     defines := [("fibonacci", UserObj 0%nat)];
     behaviour := fun _ args => match args with [v] => Returns v | _ => Raises (Exc "TypeError" "fibonacci() takes 1 positional argument") end;
     wall := (1 # 20)%Q |}.

End Samples.

(** ** Vocabulary of the properties *)

(** [x] occurs in the tree [t]: it is [t] or occurs in one of its children. *)
Inductive subnode (x : ast) : ast -> Prop :=
| sub_here : subnode x x
| sub_kid (t c : ast) : c ∈ iter_child_nodes t -> subnode x c -> subnode x t.

Definition is_import (n : ast) : Prop :=
  node_class n = KImport \/ node_class n = KImportFrom.

Definition is_dunder_access (n : ast) : Prop :=
  exists attr, node_class n = KAttribute attr /\ String.prefix "__" attr = true.

(** The reasons with which the loop of [_ensure_safe] raises
    [SecurityError]. *)
Definition security_reason (msg : string) : Prop :=
  msg = msg_import \/ msg = msg_dunder \/
  exists id, id ∈ denied_names /\ msg = msg_name id.

(** Events in which code of the submission runs. *)
Definition runs_submitted_code (ev : event) : bool :=
  match ev with
  | EvExec _ _ _ | EvCall _ _ _ => true
  | _ => false
  end.

(** The number of calls of the submitted function in a log. *)
Definition calls_made (log : list event) : nat :=
  length (List.filter (fun ev => match ev with EvCall _ _ _ => true | _ => false end) log).

(** The one way the grader runs a module body: [exec] with
    [{"__builtins__": SAFE_BUILTINS}] for its globals. *)
Definition exec_with_table (ev : event) : Prop :=
  match ev with
  | EvExec _ builtins globals => builtins = SAFE_BUILTINS /\ globals = initial_ns
  | _ => True
  end.

Definition call_args (t : TestCase) : list value := default [] (tc_args t).
Definition call_kwargs (t : TestCase) : list (string * value) := default [] (tc_kwargs t).
Definition call_expected (t : TestCase) : value := default VNone (tc_expected t).

Section Vocabulary.

Context (py : Interp).

(** The interpreter state once [_limit_resources] is through. *)
Definition limited (mem_limit_mb : Z) (p : pstate py) : pstate py :=
  let p1 := snd (py_setrlimit py p RLIMIT_CPU 3 3) in
  snd (py_setrlimit py p1 RLIMIT_AS (mem_limit_mb * 1024 * 1024) (mem_limit_mb * 1024 * 1024)).

(** The call of [fn] on the test case [t] from the state [p]. *)
Definition invoke (fn : pyobj) (p : pstate py) (t : TestCase) : py_outcome value * pstate py :=
  py_call py p fn (call_args t) (call_kwargs t).

(** The interpreter state in which the [i]-th test (from 0) is called, when
    the first is called in [p]. *)
Fixpoint state_before (fn : pyobj) (p : pstate py) (ts : list TestCase) (i : nat) : pstate py :=
  match i, ts with
  | S i', t :: rest => state_before fn (snd (invoke fn p t)) rest i'
  | _, _ => p
  end.

(** The operation returns, or raises an exception that can be printed. *)
Definition ends {A} (r : py_outcome A) : bool :=
  match r with
  | Returns _ => true
  | Raises e => printable e
  | Aborts | Diverges => false
  end.

Definition returns {A} (r : py_outcome A) : bool :=
  match r with
  | Returns _ => true
  | _ => false
  end.

(** Every call of the run returns or raises an exception that can be
    printed, and so does the scoring of every returned value: no test takes
    the child process down, hangs, or leaves the guard around it. *)
Fixpoint tests_terminate (fn : pyobj) (p : pstate py) (ts : list TestCase) : bool :=
  match ts with
  | [] => true
  | t :: rest =>
      let '(r, p') := invoke fn p t in
      match r with
      | Returns got => ends (score py got (call_expected t))
      | _ => ends r
      end && tests_terminate fn p' rest
  end.

(** The value returned by a call can be compared with what is expected of
    it: each [==] involved returns a truth value. *)
Definition comparable (got expected : value) : bool :=
  match isinstance_list expected with
  | Some alternatives => forallb (fun e => returns (py_eq py got e)) alternatives
  | None => returns (py_eq py got expected)
  end.

(** The tests all run without a fault of the grader: every call returns a
    comparable value or raises an exception that can be printed. *)
Fixpoint tests_run (fn : pyobj) (p : pstate py) (ts : list TestCase) : bool :=
  match ts with
  | [] => true
  | t :: rest =>
      let '(r, p') := invoke fn p t in
      match r with
      | Returns got => comparable got (call_expected t)
      | _ => ends r
      end && tests_run fn p' rest
  end.

Definition equals (a b : value) : Prop := py_eq py a b = Returns true.

(** [got] matches [expected]: it equals one of the alternatives when
    [expected] is a list, and [expected] itself otherwise. *)
Definition matches (got expected : value) : Prop :=
  match isinstance_list expected with
  | Some alternatives => exists e, e ∈ alternatives /\ equals got e
  | None => equals got expected
  end.

(** The same, read off the value itself: a list stands for its items. *)
Definition agrees (got expected : value) : Prop :=
  match expected with
  | VList alternatives => exists e, e ∈ alternatives /\ equals got e
  | _ => equals got expected
  end.

(** The outcome of test [t], numbered [idx], whose call returned [got],
    scored [ok]; and the outcome of one that failed with the text [text]. *)
Definition scored_item (idx : nat) (t : TestCase) (ok : bool) (got : value) : TestOutcome :=
  {| o_index := idx; o_args := call_args t; o_kwargs := call_kwargs t;
     o_expected := call_expected t; o_ok := ok; o_got := got; o_error := None |}.

Definition failed_item (idx : nat) (t : TestCase) (text : string) : TestOutcome :=
  {| o_index := idx; o_args := call_args t; o_kwargs := call_kwargs t;
     o_expected := call_expected t; o_ok := false; o_got := VNone;
     o_error := Some text |}.

(** What the handler of the guard makes of an exception: a failed outcome,
    or the exception raised while the first one is printed. *)
Definition guarded (idx : nat) (t : TestCase) (e : pyexc) : outcome TestOutcome :=
  match e with
  | Exc kind msg => Done (failed_item idx t (error_text kind msg))
  | Unprintable _ cause => Raise (PyException cause)
  end.

(** What the loop body makes of the call of test [t], numbered [idx], that
    ended as [r]. *)
Inductive judged (idx : nat) (t : TestCase) : py_outcome value -> TestOutcome -> Prop :=
| judged_scored got ok :
    score py got (call_expected t) = Returns ok ->
    judged idx t (Returns got) (scored_item idx t ok got)
| judged_unscored got kind msg :
    score py got (call_expected t) = Raises (Exc kind msg) ->
    judged idx t (Returns got) (failed_item idx t (error_text kind msg))
| judged_raised kind msg :
    judged idx t (Raises (Exc kind msg)) (failed_item idx t (error_text kind msg)).

(** The submission gets as far as its tests: it passes the vettor, its
    module body runs to the end and defines the function of the problem. *)
Definition reaches_tests (problem : Problem) (code : string) (mem_limit_mb : Z)
    (fn : pyobj) (p : pstate py) : Prop :=
  exists tree ns,
    py_parse py code = ParseOk tree /\
    check_nodes (walk tree) = None /\
    py_exec py (limited mem_limit_mb (py_start py)) SAFE_BUILTINS initial_ns code
      = (Returns ns, p) /\
    ns !! function_name problem = Some fn.

(** What [_limit_resources] logs. *)
Definition limit_events (mem_limit_mb : Z) : list event :=
  [ EvSetrlimit RLIMIT_CPU 3 3;
    EvSetrlimit RLIMIT_AS (mem_limit_mb * 1024 * 1024) (mem_limit_mb * 1024 * 1024) ].

(** The child state after the call of a test case that left the interpreter
    in [p]. *)
Definition called (fn : pyobj) (t : TestCase) (p : pstate py) (s : cstate py) : cstate py :=
  {| c_py := p;
     c_log := c_log s ++ [EvCall fn (call_args t) (call_kwargs t)];
     c_queue := c_queue s |}.

(** The child state with more events logged, and with the interpreter moved
    to another state. *)
Definition logged (evs : list event) (s : cstate py) : cstate py :=
  {| c_py := c_py s; c_log := c_log s ++ evs; c_queue := c_queue s |}.

Definition moved (p : pstate py) (s : cstate py) : cstate py :=
  {| c_py := p; c_log := c_log s; c_queue := c_queue s |}.

Definition undefined_msg (problem : Problem) : string :=
  "Function '" ++ function_name problem ++ "' is not defined".

(** What the child can put on the channel: a full report or a bare error. *)
Definition channel_item (problem : Problem) (r : GradeResult) : Prop :=
  (exists outs elapsed,
      r = result_ok outs elapsed /\ length outs = length (tests problem)) \/
  (exists msg, r = result_error msg).

(** The faults of a run outside the guard around each test call, with the
    text each is reported with: a syntax error, a refusal by the vettor, any
    other exception of the parser, an exception raised by the module body, a
    module that does not define the function of the problem, and, once the
    tests before it have been judged, a test whose exception cannot be
    printed: the handler of the guard raises in turn. *)
Inductive top_level_fault (problem : Problem) (code : string) (mem_limit_mb : Z)
  : string -> Prop :=
| fault_syntax msg lineno :
    py_parse py code = ParseSyntaxError msg lineno ->
    top_level_fault problem code mem_limit_mb (msg_syntax msg lineno)
| fault_vetting tree reason :
    py_parse py code = ParseOk tree ->
    check_nodes (walk tree) = Some reason ->
    top_level_fault problem code mem_limit_mb reason
| fault_parser kind msg :
    py_parse py code = ParseFault (Exc kind msg) ->
    top_level_fault problem code mem_limit_mb (error_text kind msg)
| fault_module tree kind msg p :
    py_parse py code = ParseOk tree ->
    check_nodes (walk tree) = None ->
    py_exec py (limited mem_limit_mb (py_start py)) SAFE_BUILTINS initial_ns code
      = (Raises (Exc kind msg), p) ->
    top_level_fault problem code mem_limit_mb (error_text kind msg)
| fault_undefined tree ns p :
    py_parse py code = ParseOk tree ->
    check_nodes (walk tree) = None ->
    py_exec py (limited mem_limit_mb (py_start py)) SAFE_BUILTINS initial_ns code
      = (Returns ns, p) ->
    ns !! function_name problem = None ->
    top_level_fault problem code mem_limit_mb (undefined_msg problem)
| fault_handler fn p k tk raised kind msg :
    reaches_tests problem code mem_limit_mb fn p ->
    tests problem !! k = Some tk ->
    tests_terminate fn p (take k (tests problem)) = true ->
    fst (invoke fn (state_before fn p (tests problem) k) tk)
      = Raises (Unprintable raised (Exc kind msg)) ->
    top_level_fault problem code mem_limit_mb (error_text kind msg).

(** The result holds a status and an error text, and nothing else. *)
Definition bare_error (r : GradeResult) : Prop :=
  g_status r = "error" /\ is_Some (g_error r) /\
  g_tests r = None /\ g_elapsed r = None /\ g_summary r = None.

(** The submission is turned down before any of its code runs: the child
    returns having put the one error [reason] on the channel, its log has no
    [exec] and no call, and a parent that sees it exit hands that error to
    the caller. *)
Definition rejected_before_running (problem : Problem) (code : string)
    (mem_limit_mb : Z) (reason : string) : Prop :=
  let proc := Process py problem code mem_limit_mb in
  ch_end proc = Done tt /\
  c_queue (ch_final proc) = [result_error reason] /\
  Forall (fun ev => runs_submitted_code ev = false) (c_log (ch_final proc)) /\
  forall time_limit,
    exited_by py proc time_limit = true ->
    run_in_subprocess py problem code time_limit mem_limit_mb = result_error reason.

End Vocabulary.

Arguments called {py} fn t p s.
Arguments logged {py} evs s.
Arguments moved {py} p s.

(** ** Further vocabulary: the rest of the grader *)

Definition is_denied_name (n : ast) : Prop :=
  exists id, node_class n = KName id /\ id ∈ denied_names.

(** No node of the tree is one the loop of [_ensure_safe] refuses. *)
Definition clean (tree : ast) : Prop :=
  forall n, subnode n tree ->
    ~ is_import n /\ ~ is_dunder_access n /\ ~ is_denied_name n.

Definition is_call (ev : event) : bool :=
  match ev with
  | EvCall _ _ _ => true
  | _ => false
  end.

(** The nodes of a tree, parents before children, left to right. *)
Fixpoint preorder (t : ast) : list ast :=
  match t with
  | Node _ kids => t :: flat_map preorder kids
  end.

(** More submissions. *)
Module MoreSamples.

Import Samples.

(** A submission that names [eval]. *)
Definition calls_eval : program :=
  {| source := "def fib(n):
    return eval('n')
";
     parsed := ParseOk (Module [FunctionDef ["n"]
                 [Return (Call (Name "eval") [Constant])]]);
     defines := [("fib", UserObj 0%nat)];
     behaviour := fun _ args => match args with [v] => Returns v | _ => Raises (Exc "TypeError" "fib() takes 1 positional argument") end;
     wall := (1 # 20)%Q |}.

(** A submission that reaches a reserved attribute through [getattr] and a
    string, and reads an attribute with one underscore. *)
Definition getattr_by_name : program :=
  {| source := "def fib(n):
    return getattr(n, '__class__')._x
";
     parsed := ParseOk (Module [FunctionDef ["n"]
                 [Return (Attribute (Call (Name "getattr") [Name "n"; Constant]) "_x")]]);
     defines := [("fib", UserObj 0%nat)];
     behaviour := fun _ _ => Raises (Exc "AttributeError" "type object 'int' has no attribute '_x'");
     wall := (1 # 20)%Q |}.

(** A problem without test cases, and one whose test cases lack every
    key. *)
Definition no_tests_problem : Problem :=
  {| function_name := "fib"; tests := [] |}.

Definition bare_tests_problem : Problem :=
  {| function_name := "fib";
     tests := [ {| tc_args := None; tc_kwargs := None; tc_expected := None |} ] |}.

(** A function of no argument that returns nothing. *)
Definition returns_none : program :=
  {| source := "def fib():
    pass
";
     parsed := ParseOk (Module [FunctionDef [] [leaf "Pass"]]);
     defines := [("fib", UserObj 0%nat)];
     behaviour := fun _ args => match args with [] => Returns VNone | _ => Raises (Exc "TypeError" "fib() takes 0 positional arguments") end;
     wall := (1 # 20)%Q |}.

(** A problem whose one test case expects the empty list. *)
Definition expects_empty_list : Problem :=
  {| function_name := "two_sum";
     tests := [ test [ints [1; 2]%Z; VInt 9] (VList []) ] |}.

(** What the grader hands back for the template of [two_sum]. *)
Definition two_sum_report : GradeResult :=
  Eval vm_compute in
    run_in_subprocess (interp two_sum_template) two_sum_problem (source two_sum_template) 2 128.

(** What the grader hands back for [fib_div_zero]. *)
Definition fib_div_zero_report : GradeResult :=
  Eval vm_compute in
    run_in_subprocess (interp fib_div_zero) fib_problem (source fib_div_zero) 2 128.

(** *** The channel, when it matters

    The interpreter [py] with another pickler and another pipe. *)
Definition with_channel (py : Interp)
    (pickle : pstate py -> TestOutcome -> option contents)
    (fits : GradeResult -> bool) : Interp :=
  {| pstate := pstate py;
     py_parse := py_parse py;
     py_setrlimit := py_setrlimit py;
     py_exec := py_exec py;
     py_call := py_call py;
     py_eq := py_eq py;
     py_start := py_start py;
     py_time := py_time py;
     py_wall := py_wall py;
     py_pickle := pickle;
     py_fits := fits |}.

Definition as_they_are (o : TestOutcome) : contents :=
  {| k_args := o_args o; k_kwargs := o_kwargs o;
     k_expected := o_expected o; k_got := o_got o |}.

(** A [fib] that returns a generator, which cannot be pickled. *)
Definition returns_generator : program :=
  {| source := "def fib(n):
    return (i for i in range(n))
";
     parsed := ParseOk (Module [FunctionDef ["n"]
                 [Return (Node (KOther "GeneratorExp")
                            [Name "i";
                             Node (KOther "comprehension")
                               [Store "i"; Call (Name "range") [Name "n"]]])]]);
     defines := [("fib", UserObj 0%nat)];
     behaviour := fun calls _ => Returns (VOther calls);
     wall := (1 # 20)%Q |}.

Definition no_generators {P : Type} (_ : P) (o : TestOutcome) : option contents :=
  match o_got o with
  | VOther _ => None
  | _ => Some (as_they_are o)
  end.

(** A [fib] that returns a table of 200 rows of 200 zeros, and a pipe that
    holds 64 KiB: some thirty thousand small integers. *)
Definition returns_long_list : program :=
  {| source := "def fib(n):
    return [[0] * 200 for _ in range(200)]
";
     parsed := ParseOk (Module [FunctionDef ["n"]
                 [Return (Node (KOther "ListComp")
                            [BinOp (Node (KOther "List") [Constant; leaf "Load"]) Constant;
                             Node (KOther "comprehension")
                               [Store "_"; Call (Name "range") [Constant]]])]]);
     defines := [("fib", UserObj 0%nat)];
     behaviour := fun _ _ => Returns (VList (repeat (VList (repeat (VInt 0) 200)) 200));
     wall := (1 # 20)%Q |}.

(** The first test case of [fib], alone. *)
Definition fib_of_zero : Problem :=
  {| function_name := "fib"; tests := [test [VInt 0] (VInt 0)] |}.

Fixpoint weight (v : value) : nat :=
  match v with
  | VList items => list_sum (map weight items)
  | _ => 1
  end.

Definition pipe_64k (r : GradeResult) : bool :=
  match g_tests r with
  | Some outs => (list_sum (map (fun o => weight (o_got o)) outs) <? 2 ^ 15)%nat
  | None => true
  end.

(** A [two_sum] that empties the list it is given before it answers. *)
Definition two_sum_clears : program :=
  {| source := "def two_sum(nums, target):
    nums.clear()
    return [0, 1]
";
     parsed := ParseOk (Module [FunctionDef ["nums"; "target"]
       [ Node (KOther "Expr") [Call (Attribute (Name "nums") "clear") []];
         Return (Node (KOther "List") [Constant; Constant; leaf "Load"]) ]]);
     defines := [("two_sum", UserObj 0%nat)];
     behaviour := fun _ _ => Returns (ints [0; 1]%Z);
     wall := (1 # 20)%Q |}.

(** By the time the report is pickled, the list handed to each call is
    empty. *)
Definition first_list_cleared {P : Type} (_ : P) (o : TestOutcome) : option contents :=
  Some {| k_args := match o_args o with
                    | VList _ :: rest => VList [] :: rest
                    | args => args
                    end;
          k_kwargs := o_kwargs o; k_expected := o_expected o; k_got := o_got o |}.

End MoreSamples.

(** ** The problem bank ([problems.py])

    A problem is a dict with the seven keys listed at the top of the
    module; the bank [PROBLEMS] is a dict from ids to problems, filled by
    [_add_problem] when the module is loaded and only read afterwards.  A
    Python dict keeps its keys distinct and in insertion order: the bank is
    an association list, assignment to a key replacing the value in place
    or appending a new entry.  The functions of the module take the bank
    they read or update as an argument. *)
Module Problems.

Record problem_dict : Type := mkProblemDict {
  p_id : string;
  p_title : string;
  p_description : string;
  p_function_name : string;
  p_function_signature : string;
  p_template_code : string;
  p_tests : list TestCase
}.

(** The keys [_execute] reads: [problem["function_name"]] and
    [problem["tests"]]. *)
Definition as_problem (p : problem_dict) : Problem :=
  {| function_name := p_function_name p; tests := p_tests p |}.

Definition bank : Type := list (string * problem_dict).

(** [d[k] = v] *)
Fixpoint dict_set (k : string) (v : problem_dict) (d : bank) : bank :=
  match d with
  | [] => [(k, v)]
  | (k', v') :: rest =>
      if String.eqb k' k then (k', v) :: rest else (k', v') :: dict_set k v rest
  end.

(** [d.get(k)] *)
Fixpoint dict_get (k : string) (d : bank) : option problem_dict :=
  match d with
  | [] => None
  | (k', v) :: rest => if String.eqb k' k then Some v else dict_get k rest
  end.

Definition _add_problem (p : problem_dict) (d : bank) : bank :=
  dict_set (p_id p) p d.

(** What [list_problems] shows of a problem: everything but its tests. *)
Record listing : Type := mkListing {
  l_id : string;
  l_title : string;
  l_description : string;
  l_function_name : string;
  l_function_signature : string;
  l_template_code : string
}.

Definition project (pid : string) (p : problem_dict) : listing :=
  {| l_id := pid;
     l_title := p_title p;
     l_description := p_description p;
     l_function_name := p_function_name p;
     l_function_signature := p_function_signature p;
     l_template_code := p_template_code p |}.

(** [items.sort(key=lambda x: x["id"])]: a stable sort by [<] on the ids.
    Strings are held as their UTF-8 bytes, whose lexicographic order is the
    order of Python on the code points.  An item goes in front of the first
    item of the sorted rest that is not below it, so items of equal ids keep
    their order. *)
Fixpoint insert_by_id (x : listing) (sorted : list listing) : list listing :=
  match sorted with
  | [] => [x]
  | y :: rest =>
      if String.ltb (l_id y) (l_id x) then y :: insert_by_id x rest
      else x :: y :: rest
  end.

Definition sort_by_id (items : list listing) : list listing :=
  foldr insert_by_id [] items.

Definition list_problems (d : bank) : list listing :=
  let items := map (fun '(pid, p) => project pid p) d in
  sort_by_id items.

Definition get_problem (d : bank) (pid : string) : option problem_dict :=
  dict_get pid d.

(** *** The three problems of the module *)

Definition two_sum : problem_dict :=
  {| p_id := "two_sum";
     p_title := "Two Sum (Easy)";
     p_description := "ให้เขียนฟังก์ชันค้นหาคู่ของตัวเลขในลิสต์ที่รวมกันได้เท่ากับ target และคืนค่า index ของทั้งสองตำแหน่ง (ลำดับอาจแตกต่างได้)

ข้อกำหนด:
- ให้คืนค่าเป็นลิสต์ความยาว 2 ของ index เช่น [i, j]
- ห้ามใช้การ import ใดๆ
";
     p_function_name := "two_sum";
     p_function_signature := "def two_sum(nums, target):";
     p_template_code := "def two_sum(nums, target):
    # ใช้ hash map เพื่อลดเวลาเป็น O(n)
    seen = {}
    for i, x in enumerate(nums):
        need = target - x
        if need in seen:
            return [seen[need], i]
        seen[x] = i
    return []
";
     p_tests :=
       [ {| tc_args := Some [VList [VInt 2; VInt 7; VInt 11; VInt 15]; VInt 9]; tc_kwargs := Some [];
            tc_expected := Some (VList [VList [VInt 0; VInt 1]; VList [VInt 1; VInt 0]]) |};
         {| tc_args := Some [VList [VInt 3; VInt 2; VInt 4]; VInt 6]; tc_kwargs := Some [];
            tc_expected := Some (VList [VList [VInt 1; VInt 2]; VList [VInt 2; VInt 1]]) |};
         {| tc_args := Some [VList [VInt 3; VInt 3]; VInt 6]; tc_kwargs := Some [];
            tc_expected := Some (VList [VList [VInt 0; VInt 1]; VList [VInt 1; VInt 0]]) |} ] |}.

Definition fibonacci : problem_dict :=
  {| p_id := "fibonacci";
     p_title := "Fibonacci N (Easy)";
     p_description := "ให้เขียนฟังก์ชันคืนค่าเลขฟีโบนัชชีลำดับที่ n (เริ่ม F0=0, F1=1)

ข้อกำหนด:
- อินพุต n เป็นจำนวนเต็มไม่ลบ
- ห้ามใช้การ import ใดๆ
";
     p_function_name := "fib";
     p_function_signature := "def fib(n):";
     p_template_code := "def fib(n):
    a, b = 0, 1
    for _ in range(n):
        a, b = b, a + b
    return a
";
     p_tests :=
       [ {| tc_args := Some [VInt 0]; tc_kwargs := Some [];
            tc_expected := Some (VInt 0) |};
         {| tc_args := Some [VInt 1]; tc_kwargs := Some [];
            tc_expected := Some (VInt 1) |};
         {| tc_args := Some [VInt 7]; tc_kwargs := Some [];
            tc_expected := Some (VInt 13) |};
         {| tc_args := Some [VInt 10]; tc_kwargs := Some [];
            tc_expected := Some (VInt 55) |} ] |}.

Definition is_palindrome : problem_dict :=
  {| p_id := "is_palindrome";
     p_title := "Is Palindrome (String)";
     p_description := "ให้เขียนฟังก์ชันตรวจว่าข้อความเป็น palindrome หรือไม่ (ไม่สนช่องว่าง/เครื่องหมาย/ตัวพิมพ์)

ข้อกำหนด:
- คืนค่า True/False
";
     p_function_name := "is_palindrome";
     p_function_signature := "def is_palindrome(s):";
     p_template_code := "def is_palindrome(s):
    t = ''.join(ch.lower() for ch in s if ch.isalnum())
    return t == t[::-1]
";
     p_tests :=
       [ {| tc_args := Some [VStr "A man, a plan, a canal: Panama"]; tc_kwargs := Some [];
            tc_expected := Some (VBool true) |};
         {| tc_args := Some [VStr "race a car"]; tc_kwargs := Some [];
            tc_expected := Some (VBool false) |};
         {| tc_args := Some [VStr EmptyString]; tc_kwargs := Some [];
            tc_expected := Some (VBool true) |} ] |}.
(** [PROBLEMS] once the module is loaded. *)
Definition PROBLEMS : bank :=
  _add_problem is_palindrome (_add_problem fibonacci (_add_problem two_sum [])).

End Problems.

(** The banks that calls of [_add_problem] make of the empty dict. *)
Inductive built : Problems.bank -> Prop :=
| built_empty : built []
| built_add (p : Problems.problem_dict) (d : Problems.bank) :
    built d -> built (Problems._add_problem p d).

(** The ids of two listed problems, compared as [sort] compares its keys. *)
Definition id_le (a b : Problems.listing) : Prop :=
  String.leb (Problems.l_id a) (Problems.l_id b) = true.

Definition id_lt (a b : Problems.listing) : Prop :=
  String.ltb (Problems.l_id a) (Problems.l_id b) = true.

(** ** The web application ([app.py])

    The five views of [create_app], each a function of the state of one
    client.  That state is the session of the client (Flask keeps it in a
    signed cookie; only the views change it) and, as a ghost log, the calls
    of [grader.run_in_subprocess] made on its behalf.  A request is what
    Flask hands to the view it has routed to: the query argument, the form
    field or the JSON body the view reads.  A response is the call the view
    returns or ends with: [redirect(url_for(...))], [render_template],
    [jsonify], [abort], or an exception no view catches.

    Taken from the environment: [str.strip], [re.match] (the configured
    pattern is taken to be a well-formed regular expression) and what the
    JSON provider of the application makes of the outcomes of a report: it
    serialises them, or raises ([TypeError] on a set, [ValueError] on a
    list that holds itself or on an integer too long to print, ...). *)
Module App.

Record Web : Type := mkWeb {
  strip : string -> string;
  re_match : string -> string -> bool;
  (** the class of the exception the JSON provider raises on these
      outcomes; [None] when it serialises them *)
  dumps_raises : list TestOutcome -> option string
}.

(** [app.config]: the two keys of the login policy; [None] for a key that
    is absent or holds [None]. *)
Record config : Type := mkConfig {
  ALLOWED_IDS : option (gset string);
  ID_PATTERN : option string
}.

(** The configuration [create_app] sets. *)
Definition create_app_config : config :=
  {| ALLOWED_IDS := Some (list_to_set ["65001"; "65002"; "65003"]);
     ID_PATTERN := Some "^\d{5,10}$" |}.

Record grading : Type := mkGrading {
  gr_problem : Problems.problem_dict;
  gr_code : string;
  gr_time_limit : Q;
  gr_mem_limit_mb : Z
}.

Record state : Type := mkState {
  session : gmap string string;
  graded : list grading
}.

Definition new_client : state := {| session := ∅; graded := [] |}.

Inductive request : Type :=
| GET_login (error : option string)          (* request.args.get("error") *)
| POST_login (student_id : option string)    (* request.form.get("student_id") *)
| GET_logout
| GET_index
| POST_api_run (body : option value).        (* request.get_json(force=True); None when it raises *)

Inductive response : Type :=
| Redirect (endpoint : string) (values : list (string * string))
| RenderLogin (error : option string)
| RenderIndex (problems : list Problems.listing) (student_id : option string)
| Jsonify (result : GradeResult)
| Abort (code : nat) (description : string)
| Unhandled (kind : string).

(** [payload.get(key)] on a JSON object. *)
Fixpoint payload_get (key : string) (entries : list (string * value)) : option value :=
  match entries with
  | [] => None
  | (k, v) :: rest => if String.eqb k key then Some v else payload_get key rest
  end.

Section Views.

Context (py : Interp) (web : Web) (cfg : config) (PROBLEMS : Problems.bank).

Definition view : Type := state -> response * state.

(** [jsonify(result)]: the status, the error text, the elapsed time and
    the summary are strings and numbers of the grader, which serialise; the
    outcomes hold objects of the problem and of the submission. *)
Definition jsonify_raises (r : GradeResult) : option string :=
  match g_tests r with
  | Some outs => dumps_raises web outs
  | None => None
  end.

Definition login_required (path : string) (fn : view) : view :=
  fun st =>
    match session st !! "student_id" with
    | None => (Redirect "login" [("next", path)], st)
    | Some _ => fn st
    end.

Definition login (error : option string) : view :=
  fun st => (RenderLogin error, st).

Definition do_login (form_student_id : option string) : view :=
  fun st =>
    let student_id := strip web (default EmptyString form_student_id) in
    let allowed_ids := default ∅ (ALLOWED_IDS cfg) in
    let pattern := ID_PATTERN cfg in
    let ok :=
      if bool_decide (allowed_ids ≠ ∅) then bool_decide (student_id ∈ allowed_ids)
      else match pattern with
           | Some pat =>
               if bool_decide (pat ≠ EmptyString) then re_match web pat student_id
               else false
           | None => false
           end in
    if negb ok then (Redirect "login" [("error", "Invalid ID")], st)
    else (Redirect "index" [],
          {| session := <["student_id" := student_id]> (session st);
             graded := graded st |}).

Definition logout : view :=
  fun st => (Redirect "login" [], {| session := ∅; graded := graded st |}).

Definition index : view :=
  login_required "/" (fun st =>
    (RenderIndex (Problems.list_problems PROBLEMS) (session st !! "student_id"), st)).

Definition api_run (body : option value) : view :=
  login_required "/api/run" (fun st =>
    match body with
    | None => (Abort 400 "Invalid JSON", st)
    | Some (VDict payload) =>
        match payload_get "problem_id" payload, payload_get "code" payload with
        | Some (VStr problem_id), Some (VStr code) =>
            match Problems.get_problem PROBLEMS problem_id with
            | None => (Abort 404 "Problem not found", st)
            | Some problem =>
                let result :=
                  run_in_subprocess py (Problems.as_problem problem) code 2 128 in
                let st' :=
                  {| session := session st;
                     graded := graded st ++
                       [{| gr_problem := problem; gr_code := code;
                           gr_time_limit := 2; gr_mem_limit_mb := 128 |}] |} in
                match jsonify_raises result with
                | None => (Jsonify result, st')
                | Some kind => (Unhandled kind, st')
                end
            end
        | _, _ => (Abort 400 "Missing or invalid fields", st)
        end
    | Some _ => (Unhandled "AttributeError", st)
    end).

(** The view Flask routes each request to. *)
Definition serve (req : request) : view :=
  match req with
  | GET_login error => login error
  | POST_login student_id => do_login student_id
  | GET_logout => logout
  | GET_index => index
  | POST_api_run body => api_run body
  end.

(** The requests of one client, in order. *)
Fixpoint serve_all (reqs : list request) (st : state) : list response * state :=
  match reqs with
  | [] => ([], st)
  | req :: rest =>
      let '(resp, st1) := serve req st in
      let '(resps, st2) := serve_all rest st1 in
      (resp :: resps, st2)
  end.

End Views.

(** An environment for concrete runs: [strip] on blanks, [re_match] for
    the pattern of [create_app], on ASCII digits, and a JSON provider that
    knows the JSON shapes only. *)
Fixpoint lstrip (s : string) : string :=
  match s with
  | String c rest => if Nat.eqb (Ascii.nat_of_ascii c) 32 then lstrip rest else s
  | EmptyString => s
  end.

Definition is_digit (c : Ascii.ascii) : bool :=
  (48 <=? Ascii.nat_of_ascii c)%nat && (Ascii.nat_of_ascii c <=? 57)%nat.

Definition sample_web : Web :=
  {| strip := fun s => String.rev (lstrip (String.rev (lstrip s)));
     re_match := fun _ s =>
       forallb is_digit (String.list_ascii_of_string s) &&
       (5 <=? String.length s)%nat && (String.length s <=? 10)%nat;
     dumps_raises := fun outs =>
       if forallb (fun o => match o_got o with VOther _ => false | _ => true end) outs
       then None else Some "TypeError" |}.

(** A [fib] that returns a set, and the body that submits a source for the
    problem [fibonacci]. *)
Definition returns_a_set : Samples.program :=
  {| Samples.source := "def fib(n):
    return {n}
";
     Samples.parsed := ParseOk (Samples.Module [Samples.FunctionDef ["n"]
                         [Samples.Return (Node (KOther "Set") [Samples.Name "n"])]]);
     Samples.defines := [("fib", UserObj 0%nat)];
     Samples.behaviour := fun _ _ => Returns (VOther 0);
     Samples.wall := (1 # 20)%Q |}.

Definition submission (code : string) : option value :=
  Some (VDict [("problem_id", VStr "fibonacci"); ("code", VStr code)]).

Definition signed_in (student_id : string) : state :=
  {| session := {["student_id" := student_id]}; graded := [] |}.

End App.

(** The login policy: who [do_login] lets in. *)
Definition admitted (web : App.Web) (cfg : App.config) (student_id : string) : Prop :=
  let allowed_ids := default ∅ (App.ALLOWED_IDS cfg) in
  if bool_decide (allowed_ids ≠ ∅) then student_id ∈ allowed_ids
  else exists pat, App.ID_PATTERN cfg = Some pat /\ pat <> EmptyString /\
                   App.re_match web pat student_id = true.

Definition logged_in (st : App.state) : Prop :=
  is_Some (App.session st !! "student_id").

(** A body that is a JSON object naming, as strings, a problem of the bank
    and a source. *)
Definition well_formed_body (d : Problems.bank) (body : option value)
    (problem : Problems.problem_dict) (code : string) : Prop :=
  exists payload problem_id,
    body = Some (VDict payload) /\
    App.payload_get "problem_id" payload = Some (VStr problem_id) /\
    App.payload_get "code" payload = Some (VStr code) /\
    Problems.get_problem d problem_id = Some problem.

(** * Properties *)

(** ** The static vettor *)

Lemma walk_queue_reaches (todo : list ast) :
  forall x r, r ∈ todo -> subnode x r -> x ∈ walk_queue todo.
Proof.
  funelim (walk_queue todo); intros x r Hr Hsub.
  - inversion Hr.
  - apply elem_of_cons in Hr as [-> | Hr].
    + inversion Hsub as [|t c Hc Hx]; subst.
      * left.
      * right. eapply H; [|exact Hx]. apply elem_of_app. by right.
    + right. eapply H; [|exact Hsub]. apply elem_of_app. by left.
Qed.

(** [ast.walk] yields every node of the tree. *)
Lemma walk_complete (tree x : ast) : subnode x tree -> x ∈ walk tree.
Proof.
  intros Hsub. unfold walk. eapply walk_queue_reaches; [|exact Hsub]. left.
Qed.

Lemma check_node_reason (n : ast) (msg : string) :
  check_node n = Some msg -> security_reason msg.
Proof.
  unfold check_node, security_reason. destruct (node_class n) as [| |attr|id|cls].
  - intros [= <-]. by left.
  - intros [= <-]. by left.
  - destruct (String.prefix "__" attr); intros [= <-]. right. by left.
  - case_bool_decide as Hid; intros [= <-]. right. right. by exists id.
  - discriminate.
Qed.

Lemma check_nodes_reason (nodes : list ast) (msg : string) :
  check_nodes nodes = Some msg -> security_reason msg.
Proof.
  induction nodes as [|n rest IH]; simpl; [discriminate|].
  destruct (check_node n) as [m|] eqn:Hn; [|exact IH].
  intros [= <-]. by eapply check_node_reason.
Qed.

Lemma check_nodes_rejects (nodes : list ast) (n : ast) :
  n ∈ nodes -> is_Some (check_node n) -> is_Some (check_nodes nodes).
Proof.
  induction nodes as [|m rest IH]; intros Hin Hbad; [inversion Hin|].
  simpl. destruct (check_node m) as [reason|] eqn:Hm; [by eexists|].
  apply elem_of_cons in Hin as [-> | Hin]; [|by apply IH].
  rewrite Hm in Hbad. by destruct Hbad.
Qed.

Lemma check_node_import (n : ast) : is_import n -> check_node n = Some msg_import.
Proof. unfold check_node. by intros [-> | ->]. Qed.

Lemma check_node_dunder (n : ast) : is_dunder_access n -> check_node n = Some msg_dunder.
Proof. unfold check_node. intros (attr & -> & ->). reflexivity. Qed.

(** A tree with a node the loop body refuses is refused, with one of the
    reasons of the vettor. *)
Lemma vetting_refuses (tree n : ast) :
  subnode n tree -> is_Some (check_node n) ->
  exists reason, check_nodes (walk tree) = Some reason /\ security_reason reason.
Proof.
  intros Hsub Hbad.
  destruct (check_nodes_rejects (walk tree) n (walk_complete _ _ Hsub) Hbad)
    as [reason Hreason].
  exists reason. split; [exact Hreason|]. by eapply check_nodes_reason.
Qed.

(** ** The runner *)

Section Runner.

Context (py : Interp).

Abbreviation cstate := (cstate py).

(** [_limit_resources] always returns: a limit that cannot be set is
    passed over. *)
Lemma limit_resources_returns (mem_limit_mb : Z) (s : cstate) :
  _limit_resources py mem_limit_mb s =
    (Done tt, {| c_py := limited py mem_limit_mb (c_py s);
                 c_log := c_log s ++ limit_events mem_limit_mb;
                 c_queue := c_queue s |}).
Proof.
  unfold _limit_resources, limited, limit_events, setrlimit, try_except, bind,
    emit, lift, ret. simpl.
  destruct (py_setrlimit py (c_py s) RLIMIT_CPU 3 3) as [[e1|] p1]; simpl;
    destruct (py_setrlimit py p1 RLIMIT_AS _ _) as [[e2|] p2]; simpl;
    by rewrite <- app_assoc.
Qed.

(** The two [except] clauses of [_execute], case by case. *)
Lemma except_clauses_cases (e : exn) (s : cstate) :
  except_clauses py e s =
    match e with
    | SecurityError msg => put py (result_error msg) s
    | PyException (Exc kind msg) => put py (result_error (error_text kind msg)) s
    | PyException (Unprintable _ cause) => (Raise (PyException cause), s)
    end.
Proof. by destruct e as [msg|[kind msg|kind cause]]. Qed.

(** They put one bare error, or put nothing and let an exception out. *)
Lemma except_clauses_channel (e : exn) (s : cstate) :
  (exists msg, except_clauses py e s = put py (result_error msg) s) \/
  (exists cause, except_clauses py e s = (Raise cause, s)).
Proof.
  rewrite except_clauses_cases.
  destruct e as [msg|[kind msg|kind cause]]; [left | left | right]; by eexists.
Qed.

(** A refused submission: the child puts one error on the channel and has
    run nothing but the limits and the parser. *)
Lemma execute_refused (problem : Problem) (code : string) (mem_limit_mb : Z)
    (tree : ast) (reason : string) (s : cstate) :
  py_parse py code = ParseOk tree ->
  check_nodes (walk tree) = Some reason ->
  _execute py problem code mem_limit_mb s =
    (Done tt, {| c_py := limited py mem_limit_mb (c_py s);
                 c_log := c_log s ++ limit_events mem_limit_mb
                            ++ [EvParse code; EvPut (result_error reason)];
                 c_queue := c_queue s ++ [result_error reason] |}).
Proof.
  intros Hparse Hcheck.
  unfold _execute, bind at 1, time, try_except, bind at 1.
  rewrite limit_resources_returns.
  unfold bind, _ensure_safe, bind, emit, raise, except_clauses, put. simpl.
  rewrite Hparse, Hcheck. simpl.
  by rewrite <- !app_assoc.
Qed.

(** One turn of the loop, case by case on how the call and the scoring
    end. *)
Lemma run_test_cases (fn : pyobj) (idx : nat) (t : TestCase) (s : cstate) :
  let r := fst (invoke py fn (c_py s) t) in
  let s' := called fn t (snd (invoke py fn (c_py s) t)) s in
  run_test py fn idx t s =
    (match r with
     | Returns got =>
         match score py got (call_expected t) with
         | Returns ok => Done (scored_item idx t ok got)
         | Raises e => guarded idx t e
         | Aborts => Abort
         | Diverges => Diverge
         end
     | Raises e => guarded idx t e
     | Aborts => Abort
     | Diverges => Diverge
     end, s').
Proof.
  unfold run_test, call, invoke, called, try_except, formatted, bind, emit, lift,
    ret, raise, guarded, scored_item, failed_item.
  simpl. fold (call_args t) (call_kwargs t) (call_expected t).
  destruct (py_call py (c_py s) fn (call_args t) (call_kwargs t))
    as [[got|[k m|k c]| |] p']; simpl; try reflexivity.
  destruct (score py got (call_expected t)) as [ok|[k m|k c]| |]; reflexivity.
Qed.

(** A test that ends is judged. *)
Lemma run_test_judged (fn : pyobj) (idx : nat) (t : TestCase) (s : cstate) :
  tests_terminate py fn (c_py s) [t] = true ->
  exists o,
    judged py idx t (fst (invoke py fn (c_py s) t)) o /\
    run_test py fn idx t s = (Done o, called fn t (snd (invoke py fn (c_py s) t)) s).
Proof.
  intros Hends. rewrite run_test_cases. simpl in Hends.
  destruct (invoke py fn (c_py s) t) as [[got|[k m|k c]| |] p']; simpl in *;
    try discriminate.
  - destruct (score py got (call_expected t)) as [ok|[k m|k c]| |] eqn:Hscore;
      simpl in Hends; try discriminate; eexists; (split; [|reflexivity]).
    + by apply judged_scored.
    + by apply judged_unscored.
  - eexists; split; [|reflexivity]. apply judged_raised.
Qed.

(** No turn of the loop puts anything on the channel. *)
Lemma run_test_quiet (fn : pyobj) (idx : nat) (t : TestCase) (s : cstate) :
  c_queue (snd (run_test py fn idx t s)) = c_queue s.
Proof. by rewrite run_test_cases. Qed.

Lemma run_tests_quiet (fn : pyobj) (ts : list TestCase) :
  forall idx acc (s : cstate),
    c_queue (snd (run_tests py fn idx ts acc s)) = c_queue s.
Proof.
  induction ts as [|t rest IH]; intros idx acc s; simpl; [reflexivity|].
  unfold bind. pose proof (run_test_quiet fn idx t s) as Hq.
  destruct (run_test py fn idx t s) as [[o|e| |] s1]; simpl in *; try exact Hq.
  by rewrite IH.
Qed.

(** The loop over tests that all end: one judged outcome per test case,
    appended in order. *)
Lemma run_tests_judged (fn : pyobj) (ts : list TestCase) :
  forall idx acc (s : cstate),
    tests_terminate py fn (c_py s) ts = true ->
    exists outs s',
      run_tests py fn idx ts acc s = (Done (acc ++ outs), s') /\
      length outs = length ts /\
      forall i t, ts !! i = Some t ->
        exists o, outs !! i = Some o /\
          judged py (idx + i) t
            (fst (invoke py fn (state_before py fn (c_py s) ts i) t)) o.
Proof.
  induction ts as [|t rest IH]; intros idx acc s Hends.
  - exists [], s. simpl. rewrite app_nil_r. repeat split. intros i t Hi. inversion Hi.
  - assert (Hhead : tests_terminate py fn (c_py s) [t] = true).
    { simpl in *. destruct (invoke py fn (c_py s) t) as [r p'].
      apply andb_prop in Hends as [-> _]. reflexivity. }
    assert (Htail : tests_terminate py fn (snd (invoke py fn (c_py s) t)) rest = true).
    { simpl in Hends. destruct (invoke py fn (c_py s) t) as [r p'].
      apply andb_prop in Hends as [_ Hrest]. exact Hrest. }
    destruct (run_test_judged fn idx t s Hhead) as (o & Ho & Hrun).
    destruct (IH (S idx) (acc ++ [o]) (called fn t (snd (invoke py fn (c_py s) t)) s) Htail)
      as (outs & s' & Hrest & Hlen & Hnth).
    exists (o :: outs), s'. simpl. unfold bind. rewrite Hrun, Hrest.
    rewrite <- app_assoc. repeat split; [simpl; congruence|].
    intros [|i] t' Hi; simpl in *.
    + injection Hi as <-. exists o. rewrite Nat.add_0_r. by split.
    + destruct (Hnth i t' Hi) as (o' & Ho' & Hj). exists o'. split; [exact Ho'|].
      by rewrite Nat.add_succ_r.
Qed.

(** The tests before the [k]-th end and the [k]-th raises an exception that
    cannot be printed: the loop is left with the exception raised by the
    handler, the outcomes judged so far dropped. *)
Lemma run_tests_unprintable (fn : pyobj) (ts : list TestCase) :
  forall k idx acc (s : cstate) tk raised cause,
    ts !! k = Some tk ->
    tests_terminate py fn (c_py s) (take k ts) = true ->
    fst (invoke py fn (state_before py fn (c_py s) ts k) tk)
      = Raises (Unprintable raised cause) ->
    exists s', run_tests py fn idx ts acc s = (Raise (PyException cause), s').
Proof.
  induction ts as [|t rest IH]; intros k idx acc s tk raised cause Hk Hends Hraise;
    [inversion Hk|].
  destruct k as [|k]; simpl in *.
  - injection Hk as ->. unfold bind. rewrite run_test_cases. cbv zeta.
    rewrite Hraise. simpl. by eexists.
  - assert (Hhead : tests_terminate py fn (c_py s) [t] = true).
    { simpl. destruct (invoke py fn (c_py s) t) as [r p'].
      apply andb_prop in Hends as [-> _]. reflexivity. }
    assert (Htail : tests_terminate py fn (snd (invoke py fn (c_py s) t)) (take k rest) = true).
    { destruct (invoke py fn (c_py s) t) as [r p'].
      apply andb_prop in Hends as [_ Hrest]. exact Hrest. }
    destruct (run_test_judged fn idx t s Hhead) as (o & _ & Hrun).
    unfold bind. rewrite Hrun.
    apply (IH k (S idx) (acc ++ [o]) (called fn t (snd (invoke py fn (c_py s) t)) s)
              tk raised cause Hk Htail Hraise).
Qed.

Local Ltac same_logs := unfold put; simpl; rewrite <- ?app_assoc; simpl; reflexivity.

(** [_execute] as a decision tree over what the interpreter answers. *)
Lemma execute_cases (problem : Problem) (code : string) (mem_limit_mb : Z) (s : cstate) :
  _execute py problem code mem_limit_mb s =
    let s1 := logged (limit_events mem_limit_mb ++ [EvParse code])
                     (moved (limited py mem_limit_mb (c_py s)) s) in
    match py_parse py code with
    | ParseSyntaxError msg lineno => put py (result_error (msg_syntax msg lineno)) s1
    | ParseFault e => except_clauses py (PyException e) s1
    | ParseOk tree =>
        match check_nodes (walk tree) with
        | Some reason => put py (result_error reason) s1
        | None =>
            let r := py_exec py (c_py s1) SAFE_BUILTINS initial_ns code in
            let s2 := moved (snd r) (logged [EvExec code SAFE_BUILTINS initial_ns] s1) in
            match fst r with
            | Returns ns =>
                match ns !! function_name problem with
                | None => put py (result_error (undefined_msg problem)) s2
                | Some fn =>
                    match run_tests py fn 1 (tests problem) [] s2 with
                    | (Done outs, s3) =>
                        put py (result_ok outs
                                  (round4 (py_time py (c_py s3) - py_time py (c_py s)))) s3
                    | (Raise e, s3) => except_clauses py e s3
                    | (Abort, s3) => (Abort, s3)
                    | (Diverge, s3) => (Diverge, s3)
                    end
                end
            | Raises e => except_clauses py (PyException e) s2
            | Aborts => (Abort, s2)
            | Diverges => (Diverge, s2)
            end
        end
    end.
Proof.
  unfold _execute, bind at 1, time, try_except, bind at 1.
  rewrite limit_resources_returns.
  unfold _ensure_safe, bind, emit, raise, lift, ret, put, logged, moved. simpl.
  destruct (py_parse py code) as [tree|msg lineno|e]; simpl; try same_logs.
  destruct (check_nodes (walk tree)) as [reason|]; simpl; try same_logs.
  destruct (py_exec py (limited py mem_limit_mb (c_py s)) SAFE_BUILTINS initial_ns code)
    as [[ns|e| |] p]; simpl; try same_logs.
  destruct (ns !! function_name problem) as [fn|]; simpl; try same_logs.
  rewrite <- ?app_assoc. simpl.
  destruct (run_tests py fn 1 (tests problem) [] _) as [[outs|e| |] s3];
    same_logs.
Qed.

Lemma run_tests_length (fn : pyobj) (ts : list TestCase) :
  forall idx acc (s : cstate) outs s',
    run_tests py fn idx ts acc s = (Done outs, s') ->
    length outs = (length acc + length ts)%nat.
Proof.
  induction ts as [|t rest IH]; intros idx acc s outs s'; simpl.
  - unfold ret. intros [= <- _]. lia.
  - unfold bind. destruct (run_test py fn idx t s) as [[o|e| |] s1]; try discriminate.
    intros Hrest. apply IH in Hrest. rewrite length_app in Hrest. simpl in Hrest. lia.
Qed.

(** However the run goes, [_execute] returns having put exactly one item on
    the channel, or ends otherwise (the child is killed, hangs, or an
    exception leaves [_execute]) with nothing put. *)
Lemma execute_channel (problem : Problem) (code : string) (mem_limit_mb : Z)
    (s : cstate) (out : outcome unit) (s' : cstate) :
  _execute py problem code mem_limit_mb s = (out, s') ->
  (out = Done tt /\ exists r, c_queue s' = c_queue s ++ [r] /\ channel_item problem r) \/
  (out <> Done tt /\ c_queue s' = c_queue s).
Proof.
  rewrite execute_cases. cbv zeta.
  assert (Herr : forall msg (s0 : cstate), c_queue s0 = c_queue s ->
    put py (result_error msg) s0 = (out, s') ->
    (out = Done tt /\ exists r, c_queue s' = c_queue s ++ [r] /\ channel_item problem r) \/
    (out <> Done tt /\ c_queue s' = c_queue s)).
  { intros msg s0 Hq [= <- <-]. left. simpl. split; [reflexivity|].
    exists (result_error msg). rewrite Hq. split; [reflexivity|]. right. by eexists. }
  assert (Hexc : forall e (s0 : cstate), c_queue s0 = c_queue s ->
    except_clauses py e s0 = (out, s') ->
    (out = Done tt /\ exists r, c_queue s' = c_queue s ++ [r] /\ channel_item problem r) \/
    (out <> Done tt /\ c_queue s' = c_queue s)).
  { intros e s0 Hq.
    destruct (except_clauses_channel e s0) as [(msg & ->) | (cause & ->)].
    - by apply Herr.
    - intros [= <- <-]. right. split; [discriminate | exact Hq]. }
  destruct (py_parse py code) as [tree|msg lineno|e];
    try (by apply Herr); try (by apply Hexc).
  destruct (check_nodes (walk tree)) as [reason|]; try by apply Herr.
  destruct (py_exec py _ SAFE_BUILTINS initial_ns code) as [[ns|e| |] p];
    cbv beta iota delta [fst snd]; try (by apply Hexc).
  - destruct (ns !! function_name problem) as [fn|]; try by apply Herr.
    match goal with |- context [run_tests py fn 1 (tests problem) [] ?s2] =>
      pose proof (run_tests_quiet fn (tests problem) 1 [] s2) as Hq;
      pose proof (run_tests_length fn (tests problem) 1 [] s2) as Hlen;
      destruct (run_tests py fn 1 (tests problem) [] s2) as [[outs|e| |] s3]
    end; simpl in Hq.
    + intros [= <- <-]. left. simpl. split; [reflexivity|]. eexists. rewrite Hq.
      split; [reflexivity|].
      left. do 2 eexists. split; [reflexivity|]. by rewrite (Hlen outs s3 eq_refl).
    + by apply Hexc.
    + intros [= <- <-]. right. split; [discriminate | exact Hq].
    + intros [= <- <-]. right. split; [discriminate | exact Hq].
  - intros [= <- <-]. right. split; [discriminate | reflexivity].
  - intros [= <- <-]. right. split; [discriminate | reflexivity].
Qed.

(** A submission that reaches its tests, all of which end, is graded: one
    report on the channel, with one judged outcome per test case. *)
Lemma execute_graded (problem : Problem) (code : string) (mem_limit_mb : Z)
    (fn : pyobj) (p : pstate py) :
  reaches_tests py problem code mem_limit_mb fn p ->
  tests_terminate py fn p (tests problem) = true ->
  exists outs elapsed s',
    _execute py problem code mem_limit_mb (fresh py) = (Done tt, s') /\
    c_queue s' = [result_ok outs elapsed] /\
    length outs = length (tests problem) /\
    forall i t, tests problem !! i = Some t ->
      exists o, outs !! i = Some o /\
        judged py (S i) t (fst (invoke py fn (state_before py fn p (tests problem) i) t)) o.
Proof.
  intros (tree & ns & Hparse & Hcheck & Hexec & Hfn) Hends.
  rewrite execute_cases. cbv zeta. rewrite Hparse, Hcheck.
  simpl c_py. rewrite Hexec. cbv beta iota delta [fst snd]. rewrite Hfn.
  match goal with |- context [run_tests py fn 1 (tests problem) [] ?s2] =>
    destruct (run_tests_judged fn (tests problem) 1 [] s2 Hends)
      as (outs & s3 & Hrun & Hlen & Hnth);
    pose proof (run_tests_quiet fn (tests problem) 1 [] s2) as Hq
  end.
  rewrite Hrun in *. simpl in Hq. unfold put.
  exists outs. do 2 eexists. split; [reflexivity|]. simpl. rewrite Hq.
  repeat split; [exact Hlen|].
  intros i t Hi. destruct (Hnth i t Hi) as (o & Ho & Hj). exists o. by split.
Qed.

(** A submission that reaches its tests, the [k]-th of which raises an
    exception that cannot be printed while those before it end: the child
    drops the outcomes judged so far and reports the exception raised by
    the handler. *)
Lemma execute_handler_fault (problem : Problem) (code : string) (mem_limit_mb : Z)
    (fn : pyobj) (p : pstate py) (k : nat) (tk : TestCase) (raised kind msg : string) :
  reaches_tests py problem code mem_limit_mb fn p ->
  tests problem !! k = Some tk ->
  tests_terminate py fn p (take k (tests problem)) = true ->
  fst (invoke py fn (state_before py fn p (tests problem) k) tk)
    = Raises (Unprintable raised (Exc kind msg)) ->
  exists s',
    _execute py problem code mem_limit_mb (fresh py) = (Done tt, s') /\
    c_queue s' = [result_error (error_text kind msg)].
Proof.
  intros (tree & ns & Hparse & Hcheck & Hexec & Hfn) Hk Hends Hraise.
  rewrite execute_cases. cbv zeta. rewrite Hparse, Hcheck.
  simpl c_py. rewrite Hexec. cbv beta iota delta [fst snd]. rewrite Hfn.
  match goal with |- context [run_tests py fn 1 (tests problem) [] ?s2] =>
    destruct (run_tests_unprintable fn (tests problem) k 1 [] s2 tk raised (Exc kind msg)
                Hk Hends Hraise) as (s3 & Hrun);
    pose proof (run_tests_quiet fn (tests problem) 1 [] s2) as Hq
  end.
  rewrite Hrun in *. simpl in Hq. rewrite except_clauses_cases. unfold put.
  eexists. split; [reflexivity|]. simpl. by rewrite Hq.
Qed.

End Runner.

(** ** The supervisor *)

Section Supervisor.

Context (py : Interp).

Lemma exited_by_proper (proc : child py) (t u : Q) :
  (t == u)%Q -> exited_by py proc t = exited_by py proc u.
Proof.
  intros Htu. unfold exited_by. destruct (ch_end proc); try reflexivity;
    by rewrite Htu.
Qed.

Lemma exited_by_later (proc : child py) (t : Q) :
  exited_by py proc t = true ->
  exited_by py proc (Qmax 0 (py_wall py (c_py (ch_final proc)))) = true.
Proof.
  unfold exited_by. destruct (ch_end proc); try discriminate;
    intros [-> _]%andb_prop; apply Qle_bool_iff, Q.le_max_r.
Qed.

(** The child outlives the deadline: it is signalled, waited for a tenth of
    a second, and the channel is left alone. *)
Lemma supervisor_times_out (problem : Problem) (code : string)
    (time_limit : Q) (mem_limit_mb : Z) :
  exited_by py (Process py problem code mem_limit_mb) time_limit = false ->
  run_in_subprocess_trace py problem code time_limit mem_limit_mb =
    (result_tle,
     [SupStart; SupJoin time_limit; SupIsAlive true; SupTerminate; SupJoin (1 # 10)]).
Proof.
  intros Halive.
  unfold run_in_subprocess_trace, proc_is_alive, proc_join, proc_start,
    proc_terminate. simpl.
  rewrite (exited_by_proper _ (0 + time_limit) time_limit (Qplus_0_l _)).
  rewrite Halive. simpl.
  rewrite (exited_by_proper _ (0 + time_limit) time_limit (Qplus_0_l _)).
  rewrite Halive. reflexivity.
Qed.

(** The child is gone by the deadline: the parent takes the first item of
    the channel, or reports that there is none. *)
Lemma supervisor_collects (problem : Problem) (code : string)
    (time_limit : Q) (mem_limit_mb : Z) :
  let proc := Process py problem code mem_limit_mb in
  exited_by py proc time_limit = true ->
  run_in_subprocess_trace py problem code time_limit mem_limit_mb =
    (default result_no_result (head (to_send py proc)),
     [SupStart; SupJoin time_limit; SupIsAlive false;
      SupGetNowait (head (to_send py proc))]).
Proof.
  intros proc Hexit.
  unfold run_in_subprocess_trace, proc_is_alive, proc_join, proc_start,
    q_get_nowait. simpl. fold proc.
  rewrite (exited_by_proper _ (0 + time_limit) time_limit (Qplus_0_l _)).
  rewrite Hexit. simpl.
  rewrite (exited_by_later _ _ Hexit). simpl.
  destruct (head (to_send py proc)); reflexivity.
Qed.

(** A bare error goes through the channel as it is. *)
Lemma to_send_error (proc : child py) (msg : string) :
  c_queue (ch_final proc) = [result_error msg] ->
  to_send py proc = [result_error msg].
Proof. unfold to_send. by intros ->. Qed.

Lemma to_send_nothing (proc : child py) :
  c_queue (ch_final proc) = [] -> to_send py proc = [].
Proof. unfold to_send. by intros ->. Qed.

(** Pickling keeps the index, the verdict and the error text of an
    outcome. *)
Lemma pickled_fields (p : pstate py) (o o' : TestOutcome) :
  pickled py p o = Some o' ->
  o_index o' = o_index o /\ o_ok o' = o_ok o /\ o_error o' = o_error o.
Proof.
  unfold pickled. destruct (py_pickle py p o); [|discriminate].
  by intros [= <-].
Qed.

Lemma pickled_all (p : pstate py) (outs sent : list TestOutcome) :
  mapM (pickled py p) outs = Some sent ->
  length sent = length outs /\
  length (filter (fun o => o_ok o = true) sent)
    = length (filter (fun o => o_ok o = true) outs) /\
  forall i o, outs !! i = Some o ->
    exists o', sent !! i = Some o' /\ pickled py p o = Some o'.
Proof.
  rewrite mapM_Some. induction 1 as [|o o' outs sent Ho _ (IHlen & IHok & IHnth)].
  - repeat split. intros i o Hi. inversion Hi.
  - destruct (pickled_fields p o o' Ho) as (_ & Hok & _).
    split; [simpl; by rewrite IHlen|]. split.
    + rewrite !filter_cons, Hok. destruct (decide (o_ok o = true)); simpl; by rewrite IHok.
    + intros [|i] x Hi; simpl in *.
      * injection Hi as <-. by exists o'.
      * by apply IHnth.
Qed.

(** A report goes through with its outcomes pickled, or not at all. *)
Lemma carried_report (p : pstate py) (outs : list TestOutcome) (elapsed : Q) :
  carried py p (result_ok outs elapsed) =
    match mapM (pickled py p) outs with
    | Some sent => Some (result_ok sent elapsed)
    | None => None
    end.
Proof.
  unfold carried. simpl.
  destruct (mapM (pickled py p) outs) as [sent|] eqn:Hsent; [|reflexivity].
  destruct (pickled_all p outs sent Hsent) as (Hlen & Hok & _).
  unfold result_ok. by rewrite Hlen, Hok.
Qed.

(** An item is carried as an item of the same kind. *)
Lemma carried_item (problem : Problem) (p : pstate py) (r sent : GradeResult) :
  channel_item problem r -> carried py p r = Some sent -> channel_item problem sent.
Proof.
  intros [(outs & elapsed & -> & Hlen) | (msg & ->)].
  - rewrite carried_report.
    destruct (mapM (pickled py p) outs) as [outs'|] eqn:Hsent; [|discriminate].
    intros [= <-]. left. exists outs', elapsed. split; [reflexivity|].
    destruct (pickled_all p outs outs' Hsent) as (-> & _). exact Hlen.
  - intros [= <-]. right. by exists msg.
Qed.

Lemma to_send_one (proc : child py) (r : GradeResult) :
  c_queue (ch_final proc) = [r] ->
  to_send py proc = match carried py (c_py (ch_final proc)) r with
                    | Some sent => [sent]
                    | None => []
                    end.
Proof. unfold to_send. intros ->. simpl. by destruct (carried py _ r). Qed.

(** The child of [Process] is the run of [_execute] from a fresh state. *)
Lemma process_run (problem : Problem) (code : string) (mem_limit_mb : Z) :
  _execute py problem code mem_limit_mb (fresh py) =
    (ch_end (Process py problem code mem_limit_mb),
     ch_final (Process py problem code mem_limit_mb)).
Proof.
  unfold Process, fresh. by destruct (_execute py problem code mem_limit_mb _).
Qed.

End Supervisor.

(** ** The log of the child *)

Section Log.

Context (py : Interp).

Lemma run_test_log (fn : pyobj) (idx : nat) (t : TestCase) (s : cstate py) :
  c_log (snd (run_test py fn idx t s))
    = c_log s ++ [EvCall fn (call_args t) (call_kwargs t)].
Proof. by rewrite run_test_cases. Qed.

Lemma run_tests_log (fn : pyobj) (ts : list TestCase) :
  forall idx acc (s : cstate py),
    exists calls,
      c_log (snd (run_tests py fn idx ts acc s)) = c_log s ++ calls /\
      Forall exec_with_table calls.
Proof.
  induction ts as [|t rest IH]; intros idx acc s; simpl.
  - exists []. by rewrite app_nil_r.
  - unfold bind. pose proof (run_test_log fn idx t s) as Hs1.
    destruct (run_test py fn idx t s) as [[o|e| |] s1]; simpl in Hs1;
      try (eexists; split; [exact Hs1 | by repeat constructor]).
    destruct (IH (S idx) (acc ++ [o]) s1) as (calls & Hlog & Hcalls).
    exists (EvCall fn (call_args t) (call_kwargs t) :: calls).
    rewrite Hlog, Hs1, <- app_assoc. split; [reflexivity|]. by constructor.
Qed.

(** Whatever the run, the child calls [exec] at most with the table. *)
Lemma execute_log (problem : Problem) (code : string) (mem_limit_mb : Z) :
  Forall exec_with_table (c_log (ch_final (Process py problem code mem_limit_mb))).
Proof.
  pose proof (f_equal snd (process_run py problem code mem_limit_mb)) as Hrun.
  cbn [snd] in Hrun. rewrite <- Hrun. clear Hrun.
  rewrite execute_cases. cbv zeta.
  assert (Hlim : Forall exec_with_table (limit_events mem_limit_mb ++ [EvParse code]))
    by (by repeat constructor).
  assert (Hput : forall r (s : cstate py),
            Forall exec_with_table (c_log s) ->
            Forall exec_with_table (c_log (snd (put py r s)))).
  { intros r s Hs. simpl. apply Forall_app. split; [exact Hs|]. by repeat constructor. }
  assert (Hexc : forall e (s : cstate py),
            Forall exec_with_table (c_log s) ->
            Forall exec_with_table (c_log (snd (except_clauses py e s)))).
  { intros e s Hs.
    destruct (except_clauses_channel py e s) as [(msg & ->) | (cause & ->)];
      [by apply Hput | exact Hs]. }
  destruct (py_parse py code) as [tree|msg lineno|e];
    try (first [apply Hput | apply Hexc]; exact Hlim).
  destruct (check_nodes (walk tree)) as [reason|]; try (apply Hput; exact Hlim).
  assert (Hexec : Forall exec_with_table
            (limit_events mem_limit_mb ++ [EvParse code]
               ++ [EvExec code SAFE_BUILTINS initial_ns]))
    by (by repeat constructor).
  destruct (py_exec py _ SAFE_BUILTINS initial_ns code) as [[ns|e| |] p];
    cbv beta iota delta [fst snd]; try (first [apply Hexc | idtac]; exact Hexec).
  destruct (ns !! function_name problem) as [fn|]; try (apply Hput; exact Hexec).
  match goal with |- context [run_tests py fn 1 (tests problem) [] ?s2] =>
    destruct (run_tests_log fn (tests problem) 1 [] s2) as (calls & Hlog & Hcalls);
    assert (Hs3 : Forall exec_with_table
                    (c_log (snd (run_tests py fn 1 (tests problem) [] s2))))
      by (rewrite Hlog; apply Forall_app; split; [exact Hexec | exact Hcalls]);
    destruct (run_tests py fn 1 (tests problem) [] s2) as [[outs|e| |] s3]
  end; simpl in Hs3; first [by apply Hput | by apply Hexc | exact Hs3].
Qed.

Lemma calls_made_app (l1 l2 : list event) :
  calls_made (l1 ++ l2) = (calls_made l1 + calls_made l2)%nat.
Proof. unfold calls_made. by rewrite List.filter_app, length_app. Qed.

Lemma calls_made_call (log : list event) fn args kwargs :
  calls_made (log ++ [EvCall fn args kwargs]) = S (calls_made log).
Proof. rewrite calls_made_app. unfold calls_made at 2. simpl. lia. Qed.

(** When the first [k] tests end, the loop calls the test after them. *)
Lemma run_tests_calls (fn : pyobj) (ts : list TestCase) :
  forall k idx acc (s : cstate py),
    (k < length ts)%nat ->
    tests_terminate py fn (c_py s) (take k ts) = true ->
    (calls_made (c_log s) + S k <= calls_made (c_log (snd (run_tests py fn idx ts acc s))))%nat.
Proof.
  induction ts as [|t rest IH]; intros k idx acc s Hk Hends; simpl in Hk; [lia|].
  assert (Hs1 : forall p', calls_made (c_log (called fn t p' s)) = S (calls_made (c_log s))).
  { intros p'. simpl. by rewrite calls_made_call. }
  destruct k as [|k].
  - simpl. unfold bind. pose proof (run_test_log fn idx t s) as Hlog.
    destruct (run_test py fn idx t s) as [[o|e| |] s1]; simpl in Hlog; simpl;
      try (rewrite Hlog, calls_made_call; lia).
    destruct (run_tests_log fn rest (S idx) (acc ++ [o]) s1) as (calls & -> & _).
    rewrite Hlog, calls_made_app, calls_made_call. lia.
  - assert (Hhead : tests_terminate py fn (c_py s) [t] = true).
    { simpl in *. destruct (invoke py fn (c_py s) t) as [r p'].
      apply andb_prop in Hends as [-> _]. reflexivity. }
    assert (Htail : tests_terminate py fn (snd (invoke py fn (c_py s) t)) (take k rest) = true).
    { simpl in Hends. destruct (invoke py fn (c_py s) t) as [r p'].
      apply andb_prop in Hends as [_ Hrest]. exact Hrest. }
    destruct (run_test_judged py fn idx t s Hhead) as (o & _ & Hrun).
    simpl. unfold bind. rewrite Hrun.
    pose proof (IH k (S idx) (acc ++ [o]) (called fn t (snd (invoke py fn (c_py s) t)) s)
                  ltac:(lia) Htail) as Hrest.
    rewrite Hs1 in Hrest. lia.
Qed.

(** The same for the whole run of the child. *)
Lemma process_calls (problem : Problem) (code : string) (mem_limit_mb : Z)
    (fn : pyobj) (p : pstate py) (k : nat) :
  reaches_tests py problem code mem_limit_mb fn p ->
  (k < length (tests problem))%nat ->
  tests_terminate py fn p (take k (tests problem)) = true ->
  (S k <= calls_made (c_log (ch_final (Process py problem code mem_limit_mb))))%nat.
Proof.
  intros (tree & ns & Hparse & Hcheck & Hexec & Hfn) Hk Hends.
  pose proof (f_equal snd (process_run py problem code mem_limit_mb)) as Hrun.
  cbn [snd] in Hrun. rewrite <- Hrun. clear Hrun.
  rewrite execute_cases. cbv zeta. rewrite Hparse, Hcheck.
  simpl c_py. rewrite Hexec. cbv beta iota delta [fst snd]. rewrite Hfn.
  match goal with |- context [run_tests py fn 1 (tests problem) [] ?s2] =>
    pose proof (run_tests_calls fn (tests problem) k 1 [] s2 Hk Hends) as Hcalls;
    pose proof (run_tests_log fn (tests problem) 1 [] s2) as Hlog;
    destruct (run_tests py fn 1 (tests problem) [] s2) as [[outs|e| |] s3]
  end; simpl in Hcalls; try (simpl; lia).
  - unfold put. simpl. rewrite calls_made_app. lia.
  - destruct (except_clauses_channel py e s3) as [(msg & ->) | (cause & ->)].
    + unfold put. simpl. rewrite calls_made_app. lia.
    + simpl. lia.
Qed.

(** The tests before the [j]-th end, and the [j]-th raises: the tests up to
    and with the [j]-th end. *)
Lemma tests_terminate_raise (fn : pyobj) (ts : list TestCase) :
  forall p j tj kind msg,
    ts !! j = Some tj ->
    tests_terminate py fn p (take j ts) = true ->
    fst (invoke py fn (state_before py fn p ts j) tj) = Raises (Exc kind msg) ->
    tests_terminate py fn p (take (S j) ts) = true.
Proof.
  induction ts as [|t rest IH]; intros p j tj kind msg Hj Hends Hraise; [inversion Hj|].
  destruct j as [|j]; simpl in *.
  - injection Hj as ->. destruct (invoke py fn p tj) as [r p']. simpl in Hraise.
    rewrite Hraise. reflexivity.
  - destruct (invoke py fn p t) as [r p']. simpl in *.
    apply andb_prop in Hends as [-> Hrest]. simpl.
    by apply (IH p' j tj kind msg).
Qed.

End Log.

(** ** Refusals *)

Lemma refused_before_running (py : Interp) (problem : Problem) (code : string)
    (mem_limit_mb : Z) (tree n : ast) :
  py_parse py code = ParseOk tree ->
  subnode n tree ->
  is_Some (check_node n) ->
  exists reason,
    security_reason reason /\
    rejected_before_running py problem code mem_limit_mb reason.
Proof.
  intros Hparse Hsub Hbad.
  destruct (vetting_refuses tree n Hsub Hbad) as (reason & Hcheck & Hreason).
  exists reason. split; [exact Hreason|].
  pose proof (process_run py problem code mem_limit_mb) as Hrun.
  rewrite (execute_refused py problem code mem_limit_mb tree reason _ Hparse Hcheck)
    in Hrun.
  injection Hrun as Hend Hfinal.
  unfold rejected_before_running. cbv zeta. rewrite <- Hend, <- Hfinal.
  repeat split.
  - simpl. repeat constructor.
  - intros time_limit Hexit. unfold run_in_subprocess.
    rewrite supervisor_collects by exact Hexit.
    rewrite (to_send_error py _ reason); [reflexivity | by rewrite <- Hfinal].
Qed.

(** C2. A submission whose syntax tree holds an import statement, wherever
    in the tree, is refused: the child reports status "error" with one of
    the reasons of the vettor, neither the module body nor any test call is
    run, and the parent hands that report to the caller. *)
Theorem import_is_refused (py : Interp) (problem : Problem) (code : string)
    (mem_limit_mb : Z) (tree n : ast) :
  py_parse py code = ParseOk tree ->
  subnode n tree ->
  is_import n ->
  exists reason,
    security_reason reason /\
    g_status (result_error reason) = "error" /\
    g_error (result_error reason) = Some reason /\
    rejected_before_running py problem code mem_limit_mb reason.
Proof.
  intros Hparse Hsub Himport.
  destruct (refused_before_running py problem code mem_limit_mb tree n Hparse Hsub)
    as (reason & Hreason & Hrej).
  - rewrite (check_node_import n Himport). by eexists.
  - exists reason. split; [exact Hreason|]. do 2 (split; [reflexivity|]). exact Hrej.
Qed.

Lemma import_is_refused_witness :
  exists reason,
    security_reason reason /\
    g_status (result_error reason) = "error" /\
    g_error (result_error reason) = Some reason /\
    rejected_before_running (Samples.interp Samples.import_os) Samples.fib_problem
      (Samples.source Samples.import_os) 128 reason.
Proof.
  eapply (import_is_refused (Samples.interp Samples.import_os) Samples.fib_problem
            (Samples.source Samples.import_os) 128 _
            (Node KImport [Samples.leaf "alias"])).
  - reflexivity.
  - eapply sub_kid; [|apply sub_here]. simpl. apply list_elem_of_here.
  - left. reflexivity.
Defined.

(** C7. A submission with an attribute access whose attribute name begins
    with two underscores is refused with a security error before any of its
    code is run. *)
Theorem dunder_access_is_refused (py : Interp) (problem : Problem) (code : string)
    (mem_limit_mb : Z) (tree n : ast) :
  py_parse py code = ParseOk tree ->
  subnode n tree ->
  is_dunder_access n ->
  exists reason,
    security_reason reason /\
    g_status (result_error reason) = "error" /\
    rejected_before_running py problem code mem_limit_mb reason.
Proof.
  intros Hparse Hsub Hdunder.
  destruct (refused_before_running py problem code mem_limit_mb tree n Hparse Hsub)
    as (reason & Hreason & Hrej).
  - rewrite (check_node_dunder n Hdunder). by eexists.
  - exists reason. split; [exact Hreason|]. split; [reflexivity | exact Hrej].
Qed.

Lemma dunder_access_is_refused_witness :
  exists reason,
    security_reason reason /\
    g_status (result_error reason) = "error" /\
    rejected_before_running (Samples.interp Samples.dunder_class) Samples.fib_problem
      (Samples.source Samples.dunder_class) 128 reason.
Proof.
  eapply (dunder_access_is_refused (Samples.interp Samples.dunder_class)
            Samples.fib_problem (Samples.source Samples.dunder_class) 128 _
            (Samples.Attribute (Samples.Name "n") "__class__")).
  - reflexivity.
  - eapply sub_kid; [apply list_elem_of_here|].
    eapply sub_kid; [apply list_elem_of_further, list_elem_of_here|].
    eapply sub_kid; [apply list_elem_of_here|]. apply sub_here.
  - exists "__class__". split; reflexivity.
Defined.

(** ** What reaches the channel and the caller *)

(** The channel of a child that returned from [_execute] holds the one item
    it put; the channel of any other child is empty. *)
Lemma process_channel (py : Interp) (problem : Problem) (code : string)
    (mem_limit_mb : Z) :
  let proc := Process py problem code mem_limit_mb in
  (ch_end proc = Done tt /\
   exists r, c_queue (ch_final proc) = [r] /\ channel_item problem r) \/
  (ch_end proc <> Done tt /\ c_queue (ch_final proc) = []).
Proof.
  intros proc.
  pose proof (process_run py problem code mem_limit_mb) as Hrun. fold proc in Hrun.
  apply execute_channel in Hrun. simpl in Hrun.
  destruct Hrun as [(Hend & r & Hq & Hitem) | (Hend & Hq)].
  - left. split; [exact Hend|]. by exists r.
  - right. by split.
Qed.

(** The caller gets an item put by the child, the parent's own error for an
    empty channel, or the fixed result of a timeout. *)
Lemma run_in_subprocess_shape (py : Interp) (problem : Problem) (code : string)
    (time_limit : Q) (mem_limit_mb : Z) :
  let result := run_in_subprocess py problem code time_limit mem_limit_mb in
  channel_item problem result \/ result = result_tle.
Proof.
  intros result. subst result. unfold run_in_subprocess.
  destruct (exited_by py (Process py problem code mem_limit_mb) time_limit) eqn:Hexit.
  - rewrite (supervisor_collects py problem code time_limit mem_limit_mb Hexit).
    simpl. left.
    destruct (process_channel py problem code mem_limit_mb)
      as [(_ & r & Hq & Hitem) | (_ & Hq)].
    + rewrite (to_send_one py _ r Hq).
      destruct (carried py _ r) as [sent|] eqn:Hsent; simpl.
      * exact (carried_item py problem _ r sent Hitem Hsent).
      * right. by eexists.
    + rewrite (to_send_nothing py _ Hq). right. by eexists.
  - rewrite (supervisor_times_out py problem code time_limit mem_limit_mb Hexit).
    by right.
Qed.

Lemma bare_error_result (msg : string) : bare_error (result_error msg).
Proof. unfold bare_error. simpl. by repeat split. Qed.

(** ** Deadline and lost children *)

(** C3. When the child is still alive once the parent has waited
    [time_limit] seconds (2 by default), the parent sends it the
    termination signal, waits a tenth of a second, and returns status "tle"
    with the fixed message; it does not read the channel, whatever the
    child may have put on it. *)
Theorem deadline_gives_tle (py : Interp) (problem : Problem) (code : string)
    (time_limit : Q) (mem_limit_mb : Z) :
  exited_by py (Process py problem code mem_limit_mb) time_limit = false ->
  let '(result, trace) :=
    run_in_subprocess_trace py problem code time_limit mem_limit_mb in
  trace = [SupStart; SupJoin time_limit; SupIsAlive true; SupTerminate; SupJoin (1 # 10)] /\
  (forall item, SupGetNowait item ∉ trace) /\
  result = run_in_subprocess py problem code time_limit mem_limit_mb /\
  g_status result = "tle" /\
  g_error result = Some "Time Limit Exceeded" /\
  g_tests result = None /\
  default_time_limit = 2%Q.
Proof.
  intros Halive. unfold run_in_subprocess.
  rewrite (supervisor_times_out py problem code time_limit mem_limit_mb Halive).
  repeat split. intros item Hin.
  repeat (apply elem_of_cons in Hin as [Heq | Hin]; [discriminate Heq|]).
  inversion Hin.
Qed.

Lemma deadline_gives_tle_witness :
  let '(result, trace) :=
    run_in_subprocess_trace (Samples.interp Samples.spin_forever) Samples.fib_problem
      (Samples.source Samples.spin_forever) default_time_limit default_mem_limit_mb in
  trace = [SupStart; SupJoin default_time_limit; SupIsAlive true; SupTerminate;
           SupJoin (1 # 10)] /\
  (forall item, SupGetNowait item ∉ trace) /\
  result = run_in_subprocess (Samples.interp Samples.spin_forever) Samples.fib_problem
             (Samples.source Samples.spin_forever) default_time_limit default_mem_limit_mb /\
  g_status result = "tle" /\
  g_error result = Some "Time Limit Exceeded" /\
  g_tests result = None /\
  default_time_limit = 2%Q.
Proof.
  apply (deadline_gives_tle (Samples.interp Samples.spin_forever) Samples.fib_problem
           (Samples.source Samples.spin_forever) default_time_limit default_mem_limit_mb).
  reflexivity.
Defined.

(** C8. When the child has exited by the deadline and the channel is empty,
    the parent returns status "error" with the message "No result returned";
    its one read of the channel does not block. *)
Theorem lost_child_gives_error (py : Interp) (problem : Problem) (code : string)
    (time_limit : Q) (mem_limit_mb : Z) :
  let proc := Process py problem code mem_limit_mb in
  exited_by py proc time_limit = true ->
  c_queue (ch_final proc) = [] ->
  run_in_subprocess_trace py problem code time_limit mem_limit_mb =
    (result_error "No result returned",
     [SupStart; SupJoin time_limit; SupIsAlive false; SupGetNowait None]) /\
  g_status (run_in_subprocess py problem code time_limit mem_limit_mb) = "error" /\
  g_error (run_in_subprocess py problem code time_limit mem_limit_mb)
    = Some "No result returned".
Proof.
  intros proc Hexit Hempty. unfold run_in_subprocess.
  rewrite (supervisor_collects py problem code time_limit mem_limit_mb Hexit).
  rewrite (to_send_nothing py (Process py problem code mem_limit_mb) Hempty).
  by repeat split.
Qed.

Lemma lost_child_gives_error_witness :
  run_in_subprocess_trace (Samples.interp Samples.spin_killed) Samples.fib_problem
      (Samples.source Samples.spin_killed) 10 128 =
    (result_error "No result returned",
     [SupStart; SupJoin 10; SupIsAlive false; SupGetNowait None]) /\
  g_status (run_in_subprocess (Samples.interp Samples.spin_killed) Samples.fib_problem
              (Samples.source Samples.spin_killed) 10 128) = "error" /\
  g_error (run_in_subprocess (Samples.interp Samples.spin_killed) Samples.fib_problem
             (Samples.source Samples.spin_killed) 10 128) = Some "No result returned".
Proof.
  apply (lost_child_gives_error (Samples.interp Samples.spin_killed) Samples.fib_problem
           (Samples.source Samples.spin_killed) 10 128); reflexivity.
Defined.


(** ** Scoring *)

Section Scoring.

Context (py : Interp).

Lemma any_eq_spec (got : value) (alternatives : list value) :
  forallb (fun e => returns (py_eq py got e)) alternatives = true ->
  exists b, any_eq py got alternatives = Returns b /\
            (b = true <-> exists e, e ∈ alternatives /\ equals py got e).
Proof.
  induction alternatives as [|e rest IH]; simpl; intros Hret.
  - exists false. split; [reflexivity|]. split; [discriminate|].
    intros (e & He & _). inversion He.
  - apply andb_prop in Hret as [He Hrest].
    destruct (py_eq py got e) as [[|]|x| |] eqn:Heq; try discriminate.
    + exists true. split; [reflexivity|]. split; [|reflexivity].
      intros _. exists e. split; [left | exact Heq].
    + destruct (IH Hrest) as (b & Hb & Hiff). exists b. split; [exact Hb|].
      rewrite Hiff. split.
      * intros (e' & He' & Heq'). exists e'. split; [by right | exact Heq'].
      * intros (e' & He' & Heq'). apply elem_of_cons in He' as [-> | He'].
        -- unfold equals in Heq'. congruence.
        -- by exists e'.
Qed.

Lemma score_spec (got expected : value) :
  comparable py got expected = true ->
  exists b, score py got expected = Returns b /\
            (b = true <-> matches py got expected).
Proof.
  unfold comparable, score, matches.
  destruct (isinstance_list expected) as [alternatives|].
  - apply any_eq_spec.
  - unfold equals. destruct (py_eq py got expected) as [b|x| |]; try discriminate.
    intros _. exists b. split; [reflexivity|]. split; congruence.
Qed.

Lemma comparable_ends (got expected : value) :
  comparable py got expected = true -> ends (score py got expected) = true.
Proof.
  intros Hcmp. destruct (score_spec got expected Hcmp) as (b & -> & _). reflexivity.
Qed.

Lemma tests_run_terminate (fn : pyobj) (ts : list TestCase) :
  forall p, tests_run py fn p ts = true -> tests_terminate py fn p ts = true.
Proof.
  induction ts as [|t rest IH]; intros p; simpl; [reflexivity|].
  destruct (invoke py fn p t) as [[got|x| |] p']; simpl; try discriminate.
  - intros [Hcmp Hrest]%andb_prop. rewrite (comparable_ends _ _ Hcmp). simpl.
    by apply IH.
  - intros [-> Hrest]%andb_prop. simpl. by apply IH.
Qed.

(** What [tests_run] says of the [i]-th call. *)
Lemma tests_run_at (fn : pyobj) (ts : list TestCase) :
  forall p i t,
    tests_run py fn p ts = true -> ts !! i = Some t ->
    match fst (invoke py fn (state_before py fn p ts i) t) with
    | Returns got => comparable py got (call_expected t) = true
    | Raises e => printable e = true
    | _ => False
    end.
Proof.
  induction ts as [|t0 rest IH]; intros p i t Hrun Hi; [inversion Hi|].
  simpl in Hrun. destruct i as [|i]; simpl in *.
  - injection Hi as <-.
    destruct (invoke py fn p t0) as [[got|x| |] p']; simpl in *; try discriminate.
    + by apply andb_prop in Hrun as [-> _].
    + by apply andb_prop in Hrun as [-> _].
  - apply IH; [|exact Hi].
    destruct (invoke py fn p t0) as [r p']; simpl.
    by apply andb_prop in Hrun as [_ ->].
Qed.

Lemma judged_fields (idx : nat) (t : TestCase) (r : py_outcome value) (o : TestOutcome) :
  judged py idx t r o ->
  o_index o = idx /\ o_args o = call_args t /\ o_kwargs o = call_kwargs t /\
  o_expected o = call_expected t.
Proof. by intros []. Qed.

(** The verdict of a judged test whose returned value can be compared. *)
Lemma judged_ok_iff (idx : nat) (t : TestCase) (r : py_outcome value) (o : TestOutcome) :
  judged py idx t r o ->
  match r with
  | Returns got => comparable py got (call_expected t) = true
  | _ => True
  end ->
  (o_ok o = true <->
   exists got, r = Returns got /\ matches py got (call_expected t)).
Proof.
  intros [got ok Hscore | got kind msg Hscore | kind msg] Hcmp; simpl.
  - destruct (score_spec _ _ Hcmp) as (b & Hb & Hiff).
    assert (b = ok) as -> by congruence. rewrite Hiff. split.
    + intros Hm. by exists got.
    + by intros (got' & [= <-] & Hm).
  - destruct (score_spec _ _ Hcmp) as (b & Hb & _). congruence.
  - split; [discriminate|]. by intros (got & [=] & _).
Qed.

End Scoring.

(** ** Grading *)

(** The report of a submission that reaches its tests, all of which end. *)
Lemma process_graded (py : Interp) (problem : Problem) (code : string)
    (mem_limit_mb : Z) (fn : pyobj) (p : pstate py) :
  reaches_tests py problem code mem_limit_mb fn p ->
  tests_terminate py fn p (tests problem) = true ->
  let proc := Process py problem code mem_limit_mb in
  exists outs elapsed,
    ch_end proc = Done tt /\
    c_queue (ch_final proc) = [result_ok outs elapsed] /\
    (forall time_limit sent,
        exited_by py proc time_limit = true ->
        mapM (pickled py (c_py (ch_final proc))) outs = Some sent ->
        run_in_subprocess py problem code time_limit mem_limit_mb
          = result_ok sent elapsed) /\
    length outs = length (tests problem) /\
    forall i t, tests problem !! i = Some t ->
      exists o, outs !! i = Some o /\
        judged py (S i) t (fst (invoke py fn (state_before py fn p (tests problem) i) t)) o.
Proof.
  intros Hreach Hends proc.
  destruct (execute_graded py problem code mem_limit_mb fn p Hreach Hends)
    as (outs & elapsed & s' & Hrun & Hq & Hlen & Hnth).
  rewrite process_run in Hrun. fold proc in Hrun. injection Hrun as Hend <-.
  exists outs, elapsed. repeat split; try assumption.
  intros time_limit sent Hexit Hsent. unfold run_in_subprocess.
  rewrite (supervisor_collects py problem code time_limit mem_limit_mb Hexit).
  fold proc. rewrite (to_send_one py proc _ Hq), carried_report, Hsent. reflexivity.
Qed.

(** [isinstance(expected, list)] holds of the lists and of nothing else. *)
Lemma matches_agrees (py : Interp) (got expected : value) :
  matches py got expected <-> agrees py got expected.
Proof. unfold matches, agrees. by destruct expected. Qed.

(** C1. A submission that defines the function of the problem and whose
    tests all run (each call returns a value that can be compared, or
    raises) is graded "ok": the child puts one report, with one outcome per
    declared test case, in the declared order and numbered from 1; an
    outcome is [ok] exactly when the call returned a value equal to the
    expected one, or, when the expected value is a list, equal to one of its
    items; and the summary counts the test cases and the outcomes that are
    [ok].  When the report can be pickled and the child is gone by the
    deadline, the caller gets that report as unpickled: status "ok", the
    same summary, and outcome by outcome the same index and the same
    verdict. *)
Theorem graded_in_declared_order (py : Interp) (problem : Problem) (code : string)
    (mem_limit_mb : Z) (fn : pyobj) (p : pstate py) :
  reaches_tests py problem code mem_limit_mb fn p ->
  tests_run py fn p (tests problem) = true ->
  let proc := Process py problem code mem_limit_mb in
  exists outs elapsed,
    c_queue (ch_final proc) = [result_ok outs elapsed] /\
    g_status (result_ok outs elapsed) = "ok" /\
    g_tests (result_ok outs elapsed) = Some outs /\
    length outs = length (tests problem) /\
    (forall i t, tests problem !! i = Some t ->
       exists o, outs !! i = Some o /\
         o_index o = S i /\
         (o_ok o = true <->
          exists got,
            fst (invoke py fn (state_before py fn p (tests problem) i) t) = Returns got /\
            agrees py got (call_expected t))) /\
    g_summary (result_ok outs elapsed) =
      Some {| total := length (tests problem);
              passed := length (filter (fun o => o_ok o = true) outs) |} /\
    (forall time_limit sent,
        exited_by py proc time_limit = true ->
        carried py (c_py (ch_final proc)) (result_ok outs elapsed) = Some sent ->
        run_in_subprocess py problem code time_limit mem_limit_mb = sent /\
        g_status sent = "ok" /\
        g_summary sent = g_summary (result_ok outs elapsed) /\
        exists outs',
          g_tests sent = Some outs' /\
          length outs' = length (tests problem) /\
          forall i o, outs !! i = Some o ->
            exists o', outs' !! i = Some o' /\
                       o_index o' = o_index o /\ o_ok o' = o_ok o).
Proof.
  intros Hreach Hrun proc.
  destruct (process_graded py problem code mem_limit_mb fn p Hreach
              (tests_run_terminate py fn _ _ Hrun))
    as (outs & elapsed & _ & Hq & Hsup & Hlen & Hnth).
  exists outs, elapsed.
  split; [exact Hq|]. split; [reflexivity|]. split; [reflexivity|].
  split; [exact Hlen|]. split; [|split].
  - intros i t Hi. destruct (Hnth i t Hi) as (o & Ho & Hj). exists o.
    destruct (judged_fields py _ _ _ _ Hj) as (Hidx & _).
    split; [exact Ho|]. split; [exact Hidx|].
    assert (Hcmp : match fst (invoke py fn (state_before py fn p (tests problem) i) t) with
                   | Returns got => comparable py got (call_expected t) = true
                   | _ => True
                   end).
    { pose proof (tests_run_at py fn _ _ _ _ Hrun Hi) as Hat.
      by destruct (fst (invoke py fn _ t)). }
    rewrite (judged_ok_iff py _ _ _ _ Hj Hcmp).
    split; intros (got & Hgot & Hm); exists got; (split; [exact Hgot|]);
      by apply matches_agrees.
  - simpl. by rewrite Hlen.
  - intros time_limit sent Hexit. rewrite carried_report.
    destruct (mapM (pickled py (c_py (ch_final proc))) outs) as [outs'|] eqn:Hsent;
      [|discriminate].
    intros [= <-].
    destruct (pickled_all py _ outs outs' Hsent) as (Hlen' & Hok & Hnth').
    split; [exact (Hsup time_limit outs' Hexit Hsent)|]. split; [reflexivity|].
    split; [simpl; by rewrite Hlen', Hok|].
    exists outs'. split; [reflexivity|]. split; [by rewrite Hlen'|].
    intros i o Ho. destruct (Hnth' i o Ho) as (o' & Ho' & Hp). exists o'.
    destruct (pickled_fields py _ o o' Hp) as (Hidx & Hk & _). by repeat split.
Qed.

Lemma graded_in_declared_order_witness :
  run_in_subprocess (Samples.interp Samples.two_sum_template) Samples.two_sum_problem
    (Samples.source Samples.two_sum_template) 2 128 = MoreSamples.two_sum_report /\
  g_status MoreSamples.two_sum_report = "ok" /\
  g_summary MoreSamples.two_sum_report = Some {| total := 3; passed := 3 |}.
Proof.
  destruct (graded_in_declared_order (Samples.interp Samples.two_sum_template)
              Samples.two_sum_problem (Samples.source Samples.two_sum_template) 128
              (UserObj 0) 0%nat)
    as (outs & elapsed & Hq & _ & _ & _ & _ & _ & Hsup).
  - eexists _, _. repeat split; reflexivity.
  - reflexivity.
  - assert (Hput : c_queue (ch_final (Process (Samples.interp Samples.two_sum_template)
                      Samples.two_sum_problem (Samples.source Samples.two_sum_template) 128))
                   = [MoreSamples.two_sum_report]) by (vm_compute; reflexivity).
    rewrite Hput in Hq. unfold result_ok, MoreSamples.two_sum_report in Hq.
    injection Hq as <- <-.
    destruct (Hsup 2%Q MoreSamples.two_sum_report) as (Hres & _).
    + reflexivity.
    + vm_compute. reflexivity.
    + split; [exact Hres|]. split; reflexivity.
Defined.

(** C6. A function that raises, on a test call, an exception that cannot be
    printed takes the whole report with it.  The submission below is right
    for 0 and fails everywhere else on an assertion whose message is a list
    nested too deep to print: its first test passes, its second raises,
    the text of the exception cannot be built in the handler of the guard,
    the loop is left, the third and the fourth test are never called, and
    the caller gets a bare error, with no outcome at all, not even that of
    the test that had passed. *)
Theorem unprintable_exception_drops_the_report :
  let py := Samples.interp Samples.fib_deep_assert in
  let code := Samples.source Samples.fib_deep_assert in
  let proc := Process py Samples.fib_problem code 128 in
  length (tests Samples.fib_problem) = 4%nat /\
  fst (invoke py (UserObj 0) (state_before py (UserObj 0) 0%nat (tests Samples.fib_problem) 0)
         (Samples.test [VInt 0] (VInt 0))) = Returns (VInt 0) /\
  fst (invoke py (UserObj 0) (state_before py (UserObj 0) 0%nat (tests Samples.fib_problem) 1)
         (Samples.test [VInt 1] (VInt 1)))
    = Raises (Unprintable "AssertionError"
                (Exc "RecursionError"
                   "maximum recursion depth exceeded while getting the repr of an object")) /\
  calls_made (c_log (ch_final proc)) = 2%nat /\
  c_queue (ch_final proc) =
    [result_error
       "ERROR: RecursionError: maximum recursion depth exceeded while getting the repr of an object"] /\
  run_in_subprocess py Samples.fib_problem code 2 128 =
    result_error
      "ERROR: RecursionError: maximum recursion depth exceeded while getting the repr of an object" /\
  g_status (run_in_subprocess py Samples.fib_problem code 2 128) = "error" /\
  g_tests (run_in_subprocess py Samples.fib_problem code 2 128) = None.
Proof. vm_compute. by repeat split. Qed.

(** X26. When the function raises, on a test call, an exception that can be
    printed, the loop is not cut short: the test case after it is called
    next.  The fault stays in the outcome of the raising test ([ok] false,
    [got] null, [error] the text "ERROR: kind: message"); when the tests all
    run, the report keeps status "ok" with one outcome per test case, and
    every other test case is numbered and scored on its own call. *)
Theorem printable_exception_is_isolated (py : Interp) (problem : Problem) (code : string)
    (mem_limit_mb : Z) (fn : pyobj) (p : pstate py)
    (j : nat) (tj : TestCase) (kind msg : string) :
  reaches_tests py problem code mem_limit_mb fn p ->
  tests problem !! j = Some tj ->
  tests_terminate py fn p (take j (tests problem)) = true ->
  fst (invoke py fn (state_before py fn p (tests problem) j) tj) = Raises (Exc kind msg) ->
  let proc := Process py problem code mem_limit_mb in
  ((S j < length (tests problem))%nat ->
   (S (S j) <= calls_made (c_log (ch_final proc)))%nat) /\
  (tests_run py fn p (tests problem) = true ->
   exists outs elapsed,
     c_queue (ch_final proc) = [result_ok outs elapsed] /\
     g_status (result_ok outs elapsed) = "ok" /\
     length outs = length (tests problem) /\
     (exists o, outs !! j = Some o /\
        o_index o = S j /\ o_ok o = false /\ o_got o = VNone /\
        o_error o = Some ("ERROR: " ++ kind ++ ": " ++ msg)%string) /\
     (forall i t, i <> j -> tests problem !! i = Some t ->
        exists o, outs !! i = Some o /\
          o_index o = S i /\
          (o_ok o = true <->
           exists got,
             fst (invoke py fn (state_before py fn p (tests problem) i) t) = Returns got /\
             agrees py got (call_expected t)))).
Proof.
  intros Hreach Hj Hbefore Hraise proc. split.
  - intros Hnext. apply (process_calls py problem code mem_limit_mb fn p (S j) Hreach Hnext).
    by apply (tests_terminate_raise py fn _ p j tj kind msg).
  - intros Hrun.
    destruct (process_graded py problem code mem_limit_mb fn p Hreach
                (tests_run_terminate py fn _ _ Hrun))
      as (outs & elapsed & _ & Hq & _ & Hlen & Hnth).
    exists outs, elapsed.
    split; [exact Hq|]. split; [reflexivity|]. split; [exact Hlen|]. split.
    + destruct (Hnth j tj Hj) as (o & Ho & Hjudged). exists o.
      split; [exact Ho|]. rewrite Hraise in Hjudged.
      inversion Hjudged; subst. by repeat split.
    + intros i t _ Hi. destruct (Hnth i t Hi) as (o & Ho & Hjudged). exists o.
      destruct (judged_fields py _ _ _ _ Hjudged) as (Hidx & _).
      split; [exact Ho|]. split; [exact Hidx|].
      assert (Hcmp : match fst (invoke py fn (state_before py fn p (tests problem) i) t) with
                     | Returns got => comparable py got (call_expected t) = true
                     | _ => True
                     end).
      { pose proof (tests_run_at py fn _ _ _ _ Hrun Hi) as Hat.
        by destruct (fst (invoke py fn _ t)). }
      rewrite (judged_ok_iff py _ _ _ _ Hjudged Hcmp).
      split; intros (got & Hgot & Hm); exists got; (split; [exact Hgot|]);
        by apply matches_agrees.
Qed.

Lemma printable_exception_is_isolated_witness :
  (3 <= calls_made (c_log (ch_final (Process (Samples.interp Samples.fib_div_zero)
                                       Samples.fib_problem
                                       (Samples.source Samples.fib_div_zero) 128))))%nat /\
  exists outs elapsed,
    c_queue (ch_final (Process (Samples.interp Samples.fib_div_zero) Samples.fib_problem
                         (Samples.source Samples.fib_div_zero) 128))
      = [result_ok outs elapsed] /\
    length outs = 4%nat /\
    exists o, outs !! 1%nat = Some o /\ o_ok o = false /\
      o_error o = Some "ERROR: ZeroDivisionError: integer division or modulo by zero".
Proof.
  destruct (printable_exception_is_isolated (Samples.interp Samples.fib_div_zero)
              Samples.fib_problem (Samples.source Samples.fib_div_zero) 128
              (UserObj 0) 0%nat 1%nat (Samples.test [VInt 1] (VInt 1))
              "ZeroDivisionError" "integer division or modulo by zero")
    as (Hcalls & Hreport).
  - eexists _, _. repeat split; reflexivity.
  - reflexivity.
  - reflexivity.
  - reflexivity.
  - split; [apply Hcalls; simpl; lia|].
    destruct (Hreport eq_refl)
      as (outs & elapsed & Hq & _ & Hlen & (o & Ho & _ & Hok & _ & Herr) & _).
    exists outs, elapsed. split; [exact Hq|]. split; [exact Hlen|].
    exists o. by repeat split.
Defined.

(** C9. A test case whose expected value is a list is always scored against
    the items of that list: the outcome is [ok] exactly when the call
    returned a value equal to one of the items.  A returned value equal to
    the list as a whole, and to none of its items, is scored false. *)
Theorem list_expected_is_alternatives (py : Interp) (problem : Problem) (code : string)
    (mem_limit_mb : Z) (fn : pyobj) (p : pstate py)
    (i : nat) (t : TestCase) (alternatives : list value) :
  reaches_tests py problem code mem_limit_mb fn p ->
  tests_run py fn p (tests problem) = true ->
  tests problem !! i = Some t ->
  call_expected t = VList alternatives ->
  let proc := Process py problem code mem_limit_mb in
  let r := fst (invoke py fn (state_before py fn p (tests problem) i) t) in
  exists outs elapsed o,
    c_queue (ch_final proc) = [result_ok outs elapsed] /\
    outs !! i = Some o /\
    (o_ok o = true <->
     exists got, r = Returns got /\ exists e, e ∈ alternatives /\ equals py got e) /\
    (forall got,
        r = Returns got ->
        equals py got (VList alternatives) ->
        (forall e, e ∈ alternatives -> ~ equals py got e) ->
        o_ok o = false).
Proof.
  intros Hreach Hrun Hi Hexp proc r.
  destruct (process_graded py problem code mem_limit_mb fn p Hreach
              (tests_run_terminate py fn _ _ Hrun))
    as (outs & elapsed & _ & Hq & _ & _ & Hnth).
  destruct (Hnth i t Hi) as (o & Ho & Hj).
  assert (Hiff : o_ok o = true <->
                 exists got, r = Returns got /\ exists e, e ∈ alternatives /\ equals py got e).
  { pose proof (tests_run_at py fn _ _ _ _ Hrun Hi) as Hat. fold r in Hat, Hj.
    assert (Hcmp : match r with
                   | Returns got => comparable py got (call_expected t) = true
                   | _ => True
                   end) by (by destruct r).
    rewrite (judged_ok_iff py _ _ _ _ Hj Hcmp).
    unfold matches. rewrite Hexp. reflexivity. }
  exists outs, elapsed, o. repeat split; try assumption; try apply Hiff.
  intros got Hgot _ Hnone. destruct (o_ok o) eqn:Hok; [|reflexivity].
  destruct Hiff as [Hfwd _].
  destruct (Hfwd eq_refl) as (got' & Hgot' & e & He & Heq).
  assert (got' = got) as -> by congruence. by destruct (Hnone e He).
Qed.

Lemma list_expected_is_alternatives_witness :
  let whole := VList [Samples.ints [0; 1]%Z; Samples.ints [1; 0]%Z] in
  equals (Samples.interp Samples.two_sum_whole) whole whole /\
  exists outs elapsed o,
    c_queue (ch_final (Process (Samples.interp Samples.two_sum_whole)
                         Samples.two_sum_problem
                         (Samples.source Samples.two_sum_whole) 128))
      = [result_ok outs elapsed] /\
    outs !! 0%nat = Some o /\ o_ok o = false.
Proof.
  split; [reflexivity|].
  destruct (list_expected_is_alternatives (Samples.interp Samples.two_sum_whole)
              Samples.two_sum_problem (Samples.source Samples.two_sum_whole) 128
              (UserObj 0) 0%nat 0%nat
              (Samples.test [Samples.ints [2; 7; 11; 15]%Z; VInt 9]
                 (VList [Samples.ints [0; 1]%Z; Samples.ints [1; 0]%Z]))
              [Samples.ints [0; 1]%Z; Samples.ints [1; 0]%Z])
    as (outs & elapsed & o & Hq & Ho & _ & Hwhole).
  - eexists _, _. repeat split; reflexivity.
  - reflexivity.
  - reflexivity.
  - reflexivity.
  - exists outs, elapsed, o. split; [exact Hq|]. split; [exact Ho|].
    apply (Hwhole (VList [Samples.ints [0; 1]%Z; Samples.ints [1; 0]%Z])).
    + reflexivity.
    + reflexivity.
    + intros e He Heq.
      apply elem_of_cons in He as [-> | He]; [discriminate Heq|].
      apply elem_of_cons in He as [-> | He]; [discriminate Heq|].
      inversion He.
Defined.

(** ** Failures of a run *)

Lemma top_level_fault_reported (py : Interp) (problem : Problem) (code : string)
    (mem_limit_mb : Z) (msg : string) :
  top_level_fault py problem code mem_limit_mb msg ->
  let proc := Process py problem code mem_limit_mb in
  ch_end proc = Done tt /\ c_queue (ch_final proc) = [result_error msg].
Proof.
  intros Hfault proc.
  pose proof (process_run py problem code mem_limit_mb) as Hrun. fold proc in Hrun.
  destruct Hfault as [m lineno Hparse | tree reason Hparse Hcheck | kind m Hparse
                     | tree kind m p Hparse Hcheck Hexec
                     | tree ns p Hparse Hcheck Hexec Hfn
                     | fn p k tk raised kind m Hreach Hk Hends Hraise].
  1-5: rewrite execute_cases in Hrun; cbv zeta in Hrun; simpl c_py in Hrun;
       rewrite Hparse in Hrun; try rewrite Hcheck in Hrun; try rewrite Hexec in Hrun;
       cbv beta iota delta [fst snd] in Hrun; try rewrite Hfn in Hrun;
       rewrite ?except_clauses_cases in Hrun;
       injection Hrun as <- <-; by split.
  destruct (execute_handler_fault py problem code mem_limit_mb fn p k tk raised kind m
              Hreach Hk Hends Hraise) as (s' & Hrun' & Hq).
  rewrite Hrun' in Hrun. injection Hrun as <- <-. by split.
Qed.

(** C10. A run that fails at the top level of the child (a syntax error, a
    refusal by the vettor, a module that raises or does not define the
    function, an exception raised by the handler of a test call after
    earlier tests were judged) puts on the channel a result with status
    "error" and an error text only.  No item on the channel and no result
    handed to the caller carries a partial list of outcomes: one that is not
    the full report of all the test cases has no outcomes, no elapsed time
    and no summary, also when the child was lost after some tests had been
    judged. *)
Theorem failure_is_a_bare_error (py : Interp) (problem : Problem) (code : string)
    (mem_limit_mb : Z) :
  let proc := Process py problem code mem_limit_mb in
  (forall msg,
      top_level_fault py problem code mem_limit_mb msg ->
      ch_end proc = Done tt /\
      c_queue (ch_final proc) = [result_error msg] /\
      bare_error (result_error msg)) /\
  (forall r,
      r ∈ c_queue (ch_final proc) ->
      bare_error r \/
      (g_status r = "ok" /\
       exists outs, g_tests r = Some outs /\ length outs = length (tests problem))) /\
  (forall time_limit,
      let result := run_in_subprocess py problem code time_limit mem_limit_mb in
      (g_status result = "ok" /\
       exists outs, g_tests result = Some outs /\ length outs = length (tests problem)) \/
      (g_status result <> "ok" /\ is_Some (g_error result) /\
       g_tests result = None /\ g_elapsed result = None /\ g_summary result = None)).
Proof.
  intros proc. split; [|split].
  - intros msg Hfault.
    destruct (top_level_fault_reported py problem code mem_limit_mb msg Hfault)
      as [Hend Hq].
    repeat split; try assumption; by eexists.
  - intros r Hr.
    destruct (process_channel py problem code mem_limit_mb)
      as [(_ & r0 & Hq & Hitem) | (_ & Hq)]; fold proc in Hq; rewrite Hq in Hr.
    + apply list_elem_of_singleton in Hr as ->.
      destruct Hitem as [(outs & elapsed & -> & Hlen) | (msg & ->)].
      * right. split; [reflexivity|]. by exists outs.
      * left. apply bare_error_result.
    + inversion Hr.
  - intros time_limit result.
    destruct (run_in_subprocess_shape py problem code time_limit mem_limit_mb)
      as [[(outs & elapsed & Hres & Hlen) | (msg & Hres)] | Hres];
      fold result in Hres; rewrite Hres.
    + left. split; [reflexivity|]. by exists outs.
    + right. simpl. repeat split; [discriminate | by eexists].
    + right. simpl. repeat split; [discriminate | by eexists].
Qed.

(** A child killed in its second test, the first judged: the channel stays
    empty and the caller gets the bare "No result returned". *)
Example killed_after_one_test :
  let py := Samples.interp Samples.fib_then_killed in
  let proc := Process py Samples.fib_problem (Samples.source Samples.fib_then_killed) 128 in
  ch_end proc = Abort /\
  length (filter (fun ev => runs_submitted_code ev = true) (c_log (ch_final proc))) = 3%nat /\
  c_queue (ch_final proc) = [] /\
  run_in_subprocess py Samples.fib_problem (Samples.source Samples.fib_then_killed) 10 128
    = result_error "No result returned".
Proof. repeat split. Qed.

(** A [fib] right on the first test case and raising, on the second, an
    assertion error that cannot be printed: the first outcome is dropped
    and the caller gets the error of the handler alone. *)
Example unprintable_after_one_test :
  let py := Samples.interp Samples.fib_deep_assert in
  let code := Samples.source Samples.fib_deep_assert in
  top_level_fault py Samples.fib_problem code 128
    "ERROR: RecursionError: maximum recursion depth exceeded while getting the repr of an object" /\
  calls_made (c_log (ch_final (Process py Samples.fib_problem code 128))) = 2%nat /\
  run_in_subprocess py Samples.fib_problem code 2 128 =
    result_error
      "ERROR: RecursionError: maximum recursion depth exceeded while getting the repr of an object".
Proof.
  repeat split.
  apply (fault_handler (Samples.interp Samples.fib_deep_assert) Samples.fib_problem _ 128
           (UserObj 0) 0%nat 1%nat (Samples.test [VInt 1] (VInt 1)) "AssertionError"
           "RecursionError"
           "maximum recursion depth exceeded while getting the repr of an object").
  - eexists _, _. repeat split; reflexivity.
  - reflexivity.
  - reflexivity.
  - reflexivity.
Qed.

(** ** The execution namespace *)

Lemma SAFE_BUILTINS_NoDup : NoDup (SAFE_BUILTINS_items.*1).
Proof. apply (bool_decide_unpack _). vm_compute. reflexivity. Qed.

(** C5, as it is written: the table binds no name that imports, does input
    or output, resolves attributes or reaches the internals.  It does not
    hold: [print] is in the table. *)
Lemma table_binds_print : ~ excludes_capable_names SAFE_BUILTINS.
Proof.
  intros Hnone.
  specialize (Hnone "print" WritesOutput).
  assert (Hin : ("print", WritesOutput) ∈ capable_builtins).
  { unfold capable_builtins. do 6 apply list_elem_of_further. apply list_elem_of_here. }
  specialize (Hnone Hin). vm_compute in Hnone. discriminate Hnone.
Qed.

(** The two built-ins that resolve attributes by name are in the table as
    well. *)
Example table_binds_attribute_resolvers :
  SAFE_BUILTINS !! "getattr" = Some (HostBuiltin "getattr") /\
  SAFE_BUILTINS !! "hasattr" = Some (HostBuiltin "hasattr").
Proof. split; reflexivity. Qed.

Local Ltac unbound_or_excepted Hin Hnot :=
  repeat (apply elem_of_cons in Hin as [Hin | Hin];
          [ injection Hin as -> _;
            first [ reflexivity
                  | exfalso; apply Hnot;
                    first [ apply list_elem_of_here
                          | apply list_elem_of_further, list_elem_of_here
                          | do 2 apply list_elem_of_further; apply list_elem_of_here ] ]
          | ]);
  inversion Hin.

(** C5, amended.  The module body is only ever executed with the globals
    [{"__builtins__": SAFE_BUILTINS}]; the table binds its 45 names, each to
    the built-in of the host of that name, and nothing else; none of
    [__import__], [eval], [exec], [open], nor any other capable built-in
    save [print], [getattr] and [hasattr], is bound; [print] is bound. *)
Theorem namespace_is_the_table :
  (forall py problem code mem_limit_mb,
      Forall exec_with_table (c_log (ch_final (Process py problem code mem_limit_mb)))) /\
  initial_ns = {[ "__builtins__" := BuiltinsDict ]} /\
  (forall name obj,
      SAFE_BUILTINS !! name = Some obj <-> (name, obj) ∈ SAFE_BUILTINS_items) /\
  (forall name obj, SAFE_BUILTINS !! name = Some obj -> obj = HostBuiltin name) /\
  length SAFE_BUILTINS_items = 45%nat /\
  (forall name, name ∈ denied_names -> SAFE_BUILTINS !! name = None) /\
  (forall name cap,
      (name, cap) ∈ capable_builtins ->
      name ∉ ["print"; "getattr"; "hasattr"] ->
      SAFE_BUILTINS !! name = None) /\
  SAFE_BUILTINS !! "print" = Some (HostBuiltin "print").
Proof.
  assert (Hitems : forall name obj,
             SAFE_BUILTINS !! name = Some obj <-> (name, obj) ∈ SAFE_BUILTINS_items).
  { intros name obj. unfold SAFE_BUILTINS. symmetry.
    apply elem_of_list_to_map, SAFE_BUILTINS_NoDup. }
  repeat split.
  - intros py problem code mem_limit_mb. apply execute_log.
  - apply Hitems.
  - apply Hitems.
  - intros name obj Hin%Hitems. unfold SAFE_BUILTINS_items, host in Hin.
    repeat (apply elem_of_cons in Hin as [Hin | Hin]; [by injection Hin as -> ->|]).
    inversion Hin.
  - intros name Hin. unfold denied_names in Hin.
    repeat (apply elem_of_cons in Hin as [-> | Hin]; [reflexivity|]).
    inversion Hin.
  - intros name cap Hin Hnot. unfold capable_builtins in Hin.
    unbound_or_excepted Hin Hnot.
Qed.

(** * Further properties of the grader *)

(** ** The vettor, in full *)

Lemma walk_queue_sound (todo : list ast) :
  forall x, x ∈ walk_queue todo -> exists r, r ∈ todo /\ subnode x r.
Proof.
  funelim (walk_queue todo); intros x Hx.
  - inversion Hx.
  - apply elem_of_cons in Hx as [-> | Hx].
    + exists node. split; [left | apply sub_here].
    + destruct (H x Hx) as (r & Hr & Hsub).
      apply elem_of_app in Hr as [Hr | Hr].
      * exists r. split; [by right | exact Hsub].
      * exists node. split; [left|]. by eapply sub_kid.
Qed.

(** [ast.walk] yields nodes of the tree only. *)
Lemma walk_sound (tree x : ast) : x ∈ walk tree -> subnode x tree.
Proof.
  intros Hx. destruct (walk_queue_sound [tree] x Hx) as (r & Hr & Hsub).
  by apply list_elem_of_singleton in Hr as ->.
Qed.

Lemma check_nodes_none (nodes : list ast) :
  check_nodes nodes = None <-> forall n, n ∈ nodes -> check_node n = None.
Proof.
  induction nodes as [|m rest IH]; simpl.
  - split; [|reflexivity]. intros _ n Hn. inversion Hn.
  - destruct (check_node m) as [reason|] eqn:Hm.
    + split; [discriminate|]. intros Hall.
      rewrite (Hall m) in Hm; [discriminate | left].
    + rewrite IH. split.
      * intros Hall n [-> | Hn]%elem_of_cons; [exact Hm | by apply Hall].
      * intros Hall n Hn. apply Hall. by right.
Qed.

Lemma check_node_none (n : ast) :
  check_node n = None <->
  ~ is_import n /\ ~ is_dunder_access n /\ ~ is_denied_name n.
Proof.
  unfold check_node, is_import, is_dunder_access, is_denied_name.
  destruct (node_class n) as [| |attr|id|cls].
  - split; [discriminate|]. intros (Hi & _). destruct Hi. by left.
  - split; [discriminate|]. intros (Hi & _). destruct Hi. by right.
  - destruct (String.prefix "__" attr) eqn:Hpre.
    + split; [discriminate|]. intros (_ & Hd & _). destruct Hd. by exists attr.
    + split; [|reflexivity]. intros _. repeat split.
      * intros [|]; discriminate.
      * intros (a & [= <-] & Ha). congruence.
      * intros (i & [=] & _).
  - case_bool_decide as Hid.
    + split; [discriminate|]. intros (_ & _ & Hn). destruct Hn. by exists id.
    + split; [|reflexivity]. intros _. repeat split.
      * intros [|]; discriminate.
      * intros (a & [=] & _).
      * intros (i & [= <-] & Hi). contradiction.
  - split; [|reflexivity]. intros _. repeat split.
    + intros [|]; discriminate.
    + intros (a & [=] & _).
    + intros (i & [=] & _).
Qed.

Lemma check_walk_clean (tree : ast) :
  check_nodes (walk tree) = None <-> clean tree.
Proof.
  rewrite check_nodes_none. unfold clean. split.
  - intros Hall n Hsub. apply check_node_none, Hall. by apply walk_complete.
  - intros Hclean n Hn. apply check_node_none, Hclean. by apply walk_sound.
Qed.

(** X1. [_ensure_safe] lets a source through exactly when no node of its
    tree is an import, an attribute access whose name starts with two
    underscores, or one of the four denied names; nothing else in the tree
    (string constants, calls, attributes with one underscore) is looked
    at. *)
Theorem vettor_accepts_exactly_clean_trees (py : Interp) (code : string)
    (tree : ast) (s : cstate py) :
  py_parse py code = ParseOk tree ->
  (fst (_ensure_safe py code s) = Done tt <-> clean tree).
Proof.
  intros Hparse. rewrite <- check_walk_clean.
  unfold _ensure_safe, bind, emit, raise, ret. simpl. rewrite Hparse.
  destruct (check_nodes (walk tree)) as [reason|]; simpl; split;
    try discriminate; reflexivity.
Qed.

(** A submission that reads [__class__] through [getattr] and a string is
    let through. *)
Lemma vettor_accepts_exactly_clean_trees_witness :
  let prog := MoreSamples.getattr_by_name in
  fst (_ensure_safe (Samples.interp prog) (Samples.source prog)
         (fresh (Samples.interp prog))) = Done tt /\
  forall tree, Samples.parsed prog = ParseOk tree -> clean tree.
Proof.
  intros prog. split; [reflexivity|].
  intros tree [= <-].
  apply (vettor_accepts_exactly_clean_trees (Samples.interp prog) (Samples.source prog)
           _ (fresh (Samples.interp prog))); reflexivity.
Defined.

(** X2. A submission that names [__import__], [eval], [exec] or [open],
    anywhere in its tree, is refused with a security error before any of its
    code is run. *)
Theorem denied_name_is_refused (py : Interp) (problem : Problem) (code : string)
    (mem_limit_mb : Z) (tree n : ast) :
  py_parse py code = ParseOk tree ->
  subnode n tree ->
  is_denied_name n ->
  exists reason,
    security_reason reason /\
    rejected_before_running py problem code mem_limit_mb reason.
Proof.
  intros Hparse Hsub (id & Hclass & Hid).
  apply (refused_before_running py problem code mem_limit_mb tree n Hparse Hsub).
  unfold check_node. rewrite Hclass. rewrite bool_decide_eq_true_2 by exact Hid.
  by eexists.
Qed.

Lemma denied_name_is_refused_witness :
  exists reason,
    security_reason reason /\
    rejected_before_running (Samples.interp MoreSamples.calls_eval) Samples.fib_problem
      (Samples.source MoreSamples.calls_eval) 128 reason.
Proof.
  eapply (denied_name_is_refused (Samples.interp MoreSamples.calls_eval)
            Samples.fib_problem (Samples.source MoreSamples.calls_eval) 128 _
            (Samples.Name "eval")).
  - reflexivity.
  - eapply sub_kid; [apply list_elem_of_here|].
    eapply sub_kid; [apply list_elem_of_further, list_elem_of_here|].
    eapply sub_kid; [apply list_elem_of_here|].
    eapply sub_kid; [apply list_elem_of_here|]. apply sub_here.
  - exists "eval". split; [reflexivity|]. apply list_elem_of_further, list_elem_of_here.
Defined.

Lemma walk_queue_preorder (todo : list ast) :
  walk_queue todo ≡ₚ flat_map preorder todo.
Proof.
  funelim (walk_queue todo); [reflexivity|].
  rewrite H. rewrite flat_map_app. simpl. destruct node as [k kids]. simpl.
  constructor. apply Permutation_app_comm.
Qed.

(** X3. [ast.walk] yields every node of the tree exactly once: its output
    is a rearrangement of the nodes listed parents first, and it starts with
    the root. *)
Theorem walk_lists_each_node_once (tree : ast) :
  walk tree ≡ₚ preorder tree /\ head (walk tree) = Some tree.
Proof.
  split.
  - unfold walk. rewrite walk_queue_preorder. simpl. by rewrite app_nil_r.
  - unfold walk. by simp walk_queue.
Qed.

(** ** Failures before the tests *)

Section BeforeTests.

Context (py : Interp).

(** A run that puts an error straight after the parser has run nothing of
    the submission. *)
Lemma put_after_parse (problem : Problem) (code : string) (mem_limit_mb : Z)
    (msg : string) :
  _execute py problem code mem_limit_mb (fresh py) =
    put py (result_error msg)
      (logged (limit_events mem_limit_mb ++ [EvParse code])
         (moved (limited py mem_limit_mb (c_py (fresh py))) (fresh py))) ->
  rejected_before_running py problem code mem_limit_mb msg.
Proof.
  intros Hexec. pose proof (process_run py problem code mem_limit_mb) as Hrun.
  rewrite Hexec in Hrun. injection Hrun as Hend Hfinal.
  unfold rejected_before_running. cbv zeta. rewrite <- Hend, <- Hfinal.
  repeat split.
  - simpl. repeat constructor.
  - intros time_limit Hexit. unfold run_in_subprocess.
    rewrite supervisor_collects by exact Hexit.
    rewrite (to_send_error py _ msg); [reflexivity | by rewrite <- Hfinal].
Qed.

End BeforeTests.

(** X4. A source that does not parse is reported with status "error" and the
    text "SyntaxError: <msg> (line <n>)" made of the message and line of the
    parser; none of it is run. *)
Theorem syntax_error_is_reported (py : Interp) (problem : Problem) (code : string)
    (mem_limit_mb : Z) (msg : string) (lineno : nat) :
  py_parse py code = ParseSyntaxError msg lineno ->
  rejected_before_running py problem code mem_limit_mb
    ("SyntaxError: " ++ msg ++ " (line " ++ pretty lineno ++ ")")%string.
Proof.
  intros Hparse. apply put_after_parse.
  rewrite execute_cases. cbv zeta. by rewrite Hparse.
Qed.

Lemma syntax_error_is_reported_witness :
  rejected_before_running (Samples.interp Samples.fib_template) Samples.fib_problem
    "def fib(n) return n" 128 "SyntaxError: invalid syntax (line 1)".
Proof.
  apply (syntax_error_is_reported (Samples.interp Samples.fib_template)
           Samples.fib_problem "def fib(n) return n" 128 "invalid syntax" 1).
  reflexivity.
Defined.

(** X5. A module that runs to its end without defining the function of the
    problem is reported with status "error" and the text "Function '<name>'
    is not defined": its body has been executed, with the table for
    built-ins, and no test case is called. *)
Theorem undefined_function_is_reported (py : Interp) (problem : Problem)
    (code : string) (mem_limit_mb : Z) (tree : ast) (ns : gmap string pyobj)
    (p : pstate py) :
  py_parse py code = ParseOk tree ->
  check_nodes (walk tree) = None ->
  py_exec py (limited py mem_limit_mb (py_start py)) SAFE_BUILTINS initial_ns code
    = (Returns ns, p) ->
  ns !! function_name problem = None ->
  let proc := Process py problem code mem_limit_mb in
  let report :=
    result_error ("Function '" ++ function_name problem ++ "' is not defined") in
  ch_end proc = Done tt /\
  c_queue (ch_final proc) = [report] /\
  c_log (ch_final proc) =
    limit_events mem_limit_mb
      ++ [EvParse code; EvExec code SAFE_BUILTINS initial_ns; EvPut report] /\
  forall time_limit,
    exited_by py proc time_limit = true ->
    run_in_subprocess py problem code time_limit mem_limit_mb = report.
Proof.
  intros Hparse Hcheck Hexec Hfn proc report.
  pose proof (process_run py problem code mem_limit_mb) as Hrun. fold proc in Hrun.
  rewrite execute_cases in Hrun. cbv zeta in Hrun. simpl c_py in Hrun.
  rewrite Hparse, Hcheck, Hexec in Hrun. cbv beta iota delta [fst snd] in Hrun.
  rewrite Hfn in Hrun. injection Hrun as Hend Hfinal.
  rewrite <- Hend, <- Hfinal. repeat split.
  intros time_limit Hexit. unfold run_in_subprocess.
  rewrite (supervisor_collects py problem code time_limit mem_limit_mb Hexit).
  fold proc.
  rewrite (to_send_error py proc ("Function '" ++ function_name problem ++ "' is not defined"));
    [reflexivity | by rewrite <- Hfinal].
Qed.

Lemma undefined_function_is_reported_witness :
  run_in_subprocess (Samples.interp Samples.no_function) Samples.fib_problem
    (Samples.source Samples.no_function) 2 128
    = result_error "Function 'fib' is not defined".
Proof.
  eapply (undefined_function_is_reported (Samples.interp Samples.no_function)
            Samples.fib_problem (Samples.source Samples.no_function) 128);
    reflexivity.
Defined.

(** ** The order of what the child does *)

Section Order.

Context (py : Interp).

(** The loop logs calls only, at most one per test case. *)
Lemma run_tests_calls_only (fn : pyobj) (ts : list TestCase) :
  forall idx acc (s : cstate py),
    exists calls,
      c_log (snd (run_tests py fn idx ts acc s)) = c_log s ++ calls /\
      Forall (fun ev => is_call ev = true) calls /\
      (length calls <= length ts)%nat.
Proof.
  induction ts as [|t rest IH]; intros idx acc s; simpl.
  - exists []. rewrite app_nil_r. split; [reflexivity|]. split; [constructor | simpl; lia].
  - unfold bind. pose proof (run_test_log py fn idx t s) as Hs1.
    destruct (run_test py fn idx t s) as [[o|e| |] s1]; simpl in Hs1;
      try (eexists; split; [exact Hs1 | split; [by repeat constructor | simpl; lia]]).
    destruct (IH (S idx) (acc ++ [o]) s1) as (calls & Hlog & Hcalls & Hlen).
    exists (EvCall fn (call_args t) (call_kwargs t) :: calls).
    rewrite Hlog, Hs1, <- app_assoc. split; [reflexivity|].
    split; [by constructor | simpl; lia].
Qed.

End Order.

Local Ltac logs_eq := simpl; rewrite <- ?app_assoc; simpl; reflexivity.

(** X6. Whatever the submission and whatever [setrlimit] answers, the child
    works in one order: it asks for the CPU limit (3 seconds) and the
    address-space limit ([mem_limit_mb] MiB), parses the source, then at
    most executes the module body once, then calls the function at most once
    per test case, then puts at most one result.  Nothing of the submission
    runs before both limits have been asked for and the parser is
    through. *)
Theorem child_log_shape (py : Interp) (problem : Problem) (code : string)
    (mem_limit_mb : Z) :
  exists body puts,
    c_log (ch_final (Process py problem code mem_limit_mb)) =
      [ EvSetrlimit RLIMIT_CPU 3 3;
        EvSetrlimit RLIMIT_AS (mem_limit_mb * 1024 * 1024) (mem_limit_mb * 1024 * 1024);
        EvParse code ] ++ body ++ puts /\
    (body = [] \/
     exists calls,
       body = EvExec code SAFE_BUILTINS initial_ns :: calls /\
       Forall (fun ev => is_call ev = true) calls /\
       (length calls <= length (tests problem))%nat) /\
    (puts = [] \/ exists r, puts = [EvPut r]).
Proof.
  pose proof (f_equal snd (process_run py problem code mem_limit_mb)) as Hrun.
  cbn [snd] in Hrun. rewrite <- Hrun. clear Hrun.
  rewrite execute_cases. cbv zeta.
  assert (Hexc : forall e (s : cstate py) body,
            c_log s = limit_events mem_limit_mb ++ [EvParse code] ++ body ->
            exists puts,
              c_log (snd (except_clauses py e s))
                = limit_events mem_limit_mb ++ [EvParse code] ++ body ++ puts /\
              (puts = [] \/ exists r, puts = [EvPut r])).
  { intros e s body Hs.
    destruct (except_clauses_channel py e s) as [(msg & ->) | (cause & ->)].
    - exists [EvPut (result_error msg)]. simpl. rewrite Hs.
      split; [logs_eq | right; by eexists].
    - exists []. simpl. rewrite Hs, app_nil_r. split; [reflexivity | by left]. }
  destruct (py_parse py code) as [tree|msg lineno|e].
  2: { exists [], [EvPut (result_error (msg_syntax msg lineno))].
       split; [reflexivity|]. split; [by left | right; by eexists]. }
  2: { destruct (Hexc (PyException e)
                   (logged (limit_events mem_limit_mb ++ [EvParse code])
                      (moved (limited py mem_limit_mb (c_py (fresh py))) (fresh py))) [])
         as (puts & Hlog & Hputs); [reflexivity|].
       exists [], puts. split; [exact Hlog|]. split; [by left | exact Hputs]. }
  destruct (check_nodes (walk tree)) as [reason|].
  { exists [], [EvPut (result_error reason)].
    split; [reflexivity|]. split; [by left | right; by eexists]. }
  set (exec_ev := EvExec code SAFE_BUILTINS initial_ns).
  assert (Hbody : forall calls,
            Forall (fun ev => is_call ev = true) calls ->
            (length calls <= length (tests problem))%nat ->
            exec_ev :: calls = [] \/
            exists calls0, exec_ev :: calls = exec_ev :: calls0 /\
              Forall (fun ev => is_call ev = true) calls0 /\
              (length calls0 <= length (tests problem))%nat).
  { intros calls Hc Hl. right. by exists calls. }
  destruct (py_exec py _ SAFE_BUILTINS initial_ns code) as [[ns|e| |] p];
    cbv beta iota delta [fst snd].
  - destruct (ns !! function_name problem) as [fn|].
    + match goal with |- context [run_tests py fn 1 (tests problem) [] ?s2] =>
        destruct (run_tests_calls_only py fn (tests problem) 1 [] s2)
          as (calls & Hlog & Hcalls & Hlen);
        destruct (run_tests py fn 1 (tests problem) [] s2) as [[outs|e| |] s3]
      end; simpl in Hlog.
      * eexists (exec_ev :: calls), [EvPut _]. unfold put. simpl. rewrite Hlog.
        split; [logs_eq|]. split; [by apply Hbody | right; by eexists].
      * destruct (Hexc e s3 (exec_ev :: calls)) as (puts & Hlog' & Hputs).
        { rewrite Hlog. logs_eq. }
        exists (exec_ev :: calls), puts. split; [exact Hlog'|]. split; [by apply Hbody | exact Hputs].
      * exists (exec_ev :: calls), []. simpl. rewrite Hlog, app_nil_r.
        split; [logs_eq|]. split; [by apply Hbody | by left].
      * exists (exec_ev :: calls), []. simpl. rewrite Hlog, app_nil_r.
        split; [logs_eq|]. split; [by apply Hbody | by left].
    + exists [exec_ev], [EvPut (result_error (undefined_msg problem))].
      split; [reflexivity|]. split; [apply Hbody; [constructor | simpl; lia] | right; by eexists].
  - destruct (Hexc (PyException e)
                (moved p (logged [exec_ev]
                   (logged (limit_events mem_limit_mb ++ [EvParse code])
                      (moved (limited py mem_limit_mb (c_py (fresh py))) (fresh py)))))
                [exec_ev]) as (puts & Hlog & Hputs); [reflexivity|].
    exists [exec_ev], puts. split; [exact Hlog|].
    split; [apply Hbody; [constructor | simpl; lia] | exact Hputs].
  - exists [exec_ev], []. split; [reflexivity|].
    split; [apply Hbody; [constructor | simpl; lia] | by left].
  - exists [exec_ev], []. split; [reflexivity|].
    split; [apply Hbody; [constructor | simpl; lia] | by left].
Qed.

(** ** Reports *)

Lemma filter_ok_length (outs : list TestOutcome) :
  (length (filter (fun o => o_ok o = true) outs) <= length outs)%nat /\
  (length (filter (fun o => o_ok o = true) outs) = length outs <->
   Forall (fun o => o_ok o = true) outs).
Proof.
  induction outs as [|o rest [IHle IHiff]]; simpl.
  - split; [lia|]. split; [constructor | reflexivity].
  - rewrite filter_cons. destruct (decide (o_ok o = true)) as [Hok | Hno]; simpl.
    + split; [lia|]. split.
      * intros [= Hlen]. constructor; [exact Hok | by apply IHiff].
      * intros Hall. inversion Hall; subst. f_equal. by apply IHiff.
    + split; [lia|]. split; [lia|].
      intros Hall. inversion Hall; subst. contradiction.
Qed.

(** X7. In every report the child puts, [total] is the number of test cases
    of the problem and of outcomes listed, [passed] is at most [total], and
    [passed] equals [total] exactly when every outcome is [ok]. *)
Theorem summary_counts (py : Interp) (problem : Problem) (code : string)
    (mem_limit_mb : Z) (r : GradeResult) (sm : Summary) :
  r ∈ c_queue (ch_final (Process py problem code mem_limit_mb)) ->
  g_summary r = Some sm ->
  exists outs,
    g_tests r = Some outs /\
    total sm = length outs /\
    total sm = length (tests problem) /\
    (passed sm <= total sm)%nat /\
    (passed sm = total sm <-> Forall (fun o => o_ok o = true) outs).
Proof.
  intros Hr Hsm.
  destruct (process_channel py problem code mem_limit_mb)
    as [(_ & r0 & Hq & Hitem) | (_ & Hq)]; rewrite Hq in Hr; [|inversion Hr].
  apply list_elem_of_singleton in Hr as ->.
  destruct Hitem as [(outs & elapsed & -> & Hlen) | (msg & ->)]; [|discriminate].
  simpl in Hsm. injection Hsm as <-. simpl.
  exists outs. destruct (filter_ok_length outs) as [Hle Hiff].
  repeat split; try assumption; apply Hiff.
Qed.

Lemma summary_counts_witness :
  exists outs,
    g_tests MoreSamples.fib_div_zero_report = Some outs /\ length outs = 4%nat.
Proof.
  destruct (summary_counts (Samples.interp Samples.fib_div_zero) Samples.fib_problem
              (Samples.source Samples.fib_div_zero) 128
              MoreSamples.fib_div_zero_report {| total := 4; passed := 3 |})
    as (outs & Ht & Hle & _).
  - assert (Hq : c_queue (ch_final (Process (Samples.interp Samples.fib_div_zero)
                     Samples.fib_problem (Samples.source Samples.fib_div_zero) 128))
                 = [MoreSamples.fib_div_zero_report]) by (vm_compute; reflexivity).
    rewrite Hq. left.
  - reflexivity.
  - exists outs. split; [exact Ht | by rewrite <- Hle].
Defined.

(** X8. A problem without test cases, given a submission that defines the
    function, is reported "ok" with no outcome and the summary 0 of 0; the
    function is not called. *)
Theorem no_tests_is_ok (py : Interp) (problem : Problem) (code : string)
    (mem_limit_mb : Z) (fn : pyobj) (p : pstate py) :
  reaches_tests py problem code mem_limit_mb fn p ->
  tests problem = [] ->
  let proc := Process py problem code mem_limit_mb in
  exists elapsed,
    c_queue (ch_final proc) = [result_ok [] elapsed] /\
    g_summary (result_ok [] elapsed) = Some {| total := 0; passed := 0 |} /\
    calls_made (c_log (ch_final proc)) = 0%nat.
Proof.
  intros Hreach Hnone proc.
  assert (Hends : tests_terminate py fn p (tests problem) = true) by (by rewrite Hnone).
  destruct (process_graded py problem code mem_limit_mb fn p Hreach Hends)
    as (outs & elapsed & _ & Hq & _ & Hlen & _).
  rewrite Hnone in Hlen. destruct outs; [|discriminate].
  exists elapsed. split; [exact Hq|]. split; [reflexivity|].
  destruct (child_log_shape py problem code mem_limit_mb)
    as (body & puts & Hlog & Hbody & Hputs).
  fold proc in Hlog. rewrite Hlog, Hnone in *.
  rewrite !calls_made_app.
  destruct Hbody as [-> | (calls & -> & _ & Hl)];
    destruct Hputs as [-> | (r & ->)]; try reflexivity;
    destruct calls; simpl in Hl; try lia; reflexivity.
Qed.

Lemma no_tests_is_ok_witness :
  exists elapsed,
    c_queue (ch_final (Process (Samples.interp Samples.fib_template)
                         MoreSamples.no_tests_problem
                         (Samples.source Samples.fib_template) 128))
      = [result_ok [] elapsed].
Proof.
  destruct (no_tests_is_ok (Samples.interp Samples.fib_template)
              MoreSamples.no_tests_problem (Samples.source Samples.fib_template) 128
              (UserObj 0) 0%nat) as (elapsed & Hq & _).
  - eexists _, _. repeat split; reflexivity.
  - reflexivity.
  - by exists elapsed.
Defined.

(** ** Scoring, at its edges *)

(** X9. A test case that names no [args], no [kwargs] and no [expected] is
    called without arguments and compared with [None]: its outcome lists
    empty arguments and [None] as expected, and is [ok] exactly when the
    call returns a value equal to [None]. *)
Theorem missing_keys_default (py : Interp) (problem : Problem) (code : string)
    (mem_limit_mb : Z) (fn : pyobj) (p : pstate py) (i : nat) :
  reaches_tests py problem code mem_limit_mb fn p ->
  tests_run py fn p (tests problem) = true ->
  tests problem !! i = Some {| tc_args := None; tc_kwargs := None; tc_expected := None |} ->
  let proc := Process py problem code mem_limit_mb in
  let r := fst (py_call py (state_before py fn p (tests problem) i) fn [] []) in
  exists outs elapsed o,
    c_queue (ch_final proc) = [result_ok outs elapsed] /\
    outs !! i = Some o /\
    o_args o = [] /\ o_kwargs o = [] /\ o_expected o = VNone /\
    (o_ok o = true <-> exists got, r = Returns got /\ py_eq py got VNone = Returns true).
Proof.
  intros Hreach Hrun Hi proc r.
  destruct (process_graded py problem code mem_limit_mb fn p Hreach
              (tests_run_terminate py fn _ _ Hrun))
    as (outs & elapsed & _ & Hq & _ & _ & Hnth).
  destruct (Hnth i _ Hi) as (o & Ho & Hj).
  destruct (judged_fields py _ _ _ _ Hj) as (_ & Hargs & Hkw & Hexp).
  exists outs, elapsed, o. repeat split; try assumption.
  - intros Hok. apply (judged_ok_iff py _ _ _ _ Hj) in Hok; [exact Hok|].
    pose proof (tests_run_at py fn _ _ _ _ Hrun Hi) as Hat.
    by destruct (fst (invoke py fn _ _)).
  - intros Hgot. apply (judged_ok_iff py _ _ _ _ Hj); [|exact Hgot].
    pose proof (tests_run_at py fn _ _ _ _ Hrun Hi) as Hat.
    by destruct (fst (invoke py fn _ _)).
Qed.

Lemma missing_keys_default_witness :
  exists outs elapsed o,
    c_queue (ch_final (Process (Samples.interp MoreSamples.returns_none)
                         MoreSamples.bare_tests_problem
                         (Samples.source MoreSamples.returns_none) 128))
      = [result_ok outs elapsed] /\
    outs !! 0%nat = Some o /\ o_args o = [] /\ o_expected o = VNone /\ o_ok o = true.
Proof.
  destruct (missing_keys_default (Samples.interp MoreSamples.returns_none)
              MoreSamples.bare_tests_problem (Samples.source MoreSamples.returns_none) 128
              (UserObj 0) 0%nat 0%nat)
    as (outs & elapsed & o & Hq & Ho & Hargs & _ & Hexp & Hok).
  - eexists _, _. repeat split; reflexivity.
  - reflexivity.
  - reflexivity.
  - exists outs, elapsed, o. repeat split; try assumption.
    apply Hok. exists VNone. split; reflexivity.
Defined.

(** X10. A test case whose expected value is the empty list can never pass:
    whatever the call returns or raises, its outcome is not [ok]. *)
Theorem empty_list_expected_never_ok (py : Interp) (problem : Problem) (code : string)
    (mem_limit_mb : Z) (fn : pyobj) (p : pstate py) (i : nat) (t : TestCase) :
  reaches_tests py problem code mem_limit_mb fn p ->
  tests_terminate py fn p (tests problem) = true ->
  tests problem !! i = Some t ->
  tc_expected t = Some (VList []) ->
  let proc := Process py problem code mem_limit_mb in
  exists outs elapsed o,
    c_queue (ch_final proc) = [result_ok outs elapsed] /\
    outs !! i = Some o /\
    o_ok o = false.
Proof.
  intros Hreach Hends Hi Hexp proc.
  destruct (process_graded py problem code mem_limit_mb fn p Hreach Hends)
    as (outs & elapsed & _ & Hq & _ & _ & Hnth).
  destruct (Hnth i t Hi) as (o & Ho & Hj).
  exists outs, elapsed, o. repeat split; try assumption.
  destruct Hj as [got ok Hscore | got kind msg Hscore | kind msg]; try reflexivity.
  unfold call_expected in Hscore. rewrite Hexp in Hscore. simpl in Hscore.
  by injection Hscore as <-.
Qed.

Lemma empty_list_expected_never_ok_witness :
  exists outs elapsed o,
    c_queue (ch_final (Process (Samples.interp Samples.two_sum_template)
                         MoreSamples.expects_empty_list
                         (Samples.source Samples.two_sum_template) 128))
      = [result_ok outs elapsed] /\
    outs !! 0%nat = Some o /\ o_got o = VList [] /\ o_ok o = false.
Proof.
  destruct (empty_list_expected_never_ok (Samples.interp Samples.two_sum_template)
              MoreSamples.expects_empty_list (Samples.source Samples.two_sum_template) 128
              (UserObj 0) 0%nat 0%nat
              (Samples.test [Samples.ints [1; 2]%Z; VInt 9] (VList [])))
    as (outs & elapsed & o & Hq & Ho & Hok).
  - eexists _, _. repeat split; reflexivity.
  - reflexivity.
  - reflexivity.
  - reflexivity.
  - exists outs, elapsed, o. repeat split; try assumption.
    assert (Hq' : c_queue (ch_final (Process (Samples.interp Samples.two_sum_template)
                     MoreSamples.expects_empty_list
                     (Samples.source Samples.two_sum_template) 128))
                  = [result_ok [scored_item 1 (Samples.test [Samples.ints [1; 2]%Z; VInt 9]
                                                 (VList [])) false (VList [])] (0 # 10000)])
      by (vm_compute; reflexivity).
    rewrite Hq' in Hq. injection Hq as <- _. by injection Ho as <-.
Defined.

(** X11. The comparison with a list of alternatives stops at the first
    alternative the value equals: what the comparisons after it would do
    (raise, never return) does not matter.  It also stops at the first
    comparison that raises, even if a later alternative is equal. *)
Theorem any_stops_at_first (py : Interp) (got : value)
    (before : list value) (e : value) (after : list value) :
  (forall x, x ∈ before -> py_eq py got x = Returns false) ->
  (py_eq py got e = Returns true ->
   score py got (VList (before ++ e :: after)) = Returns true) /\
  (forall exc, py_eq py got e = Raises exc ->
   score py got (VList (before ++ e :: after)) = Raises exc).
Proof.
  intros Hbefore. unfold score. cbn [isinstance_list].
  induction before as [|x rest IH]; cbn [app any_eq].
  - split; [intros -> | intros exc ->]; reflexivity.
  - rewrite (Hbefore x) by left. apply IH. intros y Hy. apply Hbefore. by right.
Qed.

Lemma any_stops_at_first_witness :
  score (Samples.interp Samples.two_sum_template) (Samples.ints [1; 0]%Z)
    (VList ([Samples.ints [0; 1]%Z] ++ Samples.ints [1; 0]%Z :: [VOther 3])) = Returns true.
Proof.
  apply (any_stops_at_first (Samples.interp Samples.two_sum_template)
           (Samples.ints [1; 0]%Z) [Samples.ints [0; 1]%Z] (Samples.ints [1; 0]%Z)
           [VOther 3]).
  - intros x Hx. apply list_elem_of_singleton in Hx. by rewrite Hx.
  - reflexivity.
Defined.

(** ** A call that does not come back *)

Section Lost.

Context (py : Interp).

(** The loop over tests whose [k]-th call kills the child or never returns,
    those before it having ended: the loop stops there, after [k + 1]
    calls. *)
Lemma run_tests_lost (fn : pyobj) (ts : list TestCase) :
  forall k idx acc (s : cstate py) tk,
    ts !! k = Some tk ->
    tests_terminate py fn (c_py s) (take k ts) = true ->
    let r := fst (invoke py fn (state_before py fn (c_py s) ts k) tk) in
    let run := run_tests py fn idx ts acc s in
    (r = Aborts \/ r = Diverges) ->
    (r = Aborts -> fst run = Abort) /\
    (r = Diverges -> fst run = Diverge) /\
    calls_made (c_log (snd run)) = (calls_made (c_log s) + S k)%nat.
Proof.
  induction ts as [|t rest IH]; intros k idx acc s tk Hk Hends; [inversion Hk|].
  destruct k as [|k]; simpl in *.
  - injection Hk as ->. intros Hlost. unfold bind. rewrite run_test_cases. cbv zeta.
    destruct Hlost as [-> | ->]; simpl; rewrite calls_made_call;
      (repeat split; [try reflexivity; discriminate ..|lia]).
  - assert (Hhead : tests_terminate py fn (c_py s) [t] = true).
    { simpl. destruct (invoke py fn (c_py s) t) as [r p'].
      apply andb_prop in Hends as [-> _]. reflexivity. }
    assert (Htail : tests_terminate py fn (snd (invoke py fn (c_py s) t)) (take k rest) = true).
    { destruct (invoke py fn (c_py s) t) as [r p'].
      apply andb_prop in Hends as [_ Hrest]. exact Hrest. }
    destruct (run_test_judged py fn idx t s Hhead) as (o & _ & Hrun).
    unfold bind. rewrite Hrun. intros Hlost.
    destruct (IH k (S idx) (acc ++ [o]) (called fn t (snd (invoke py fn (c_py s) t)) s)
                tk Hk Htail Hlost) as (Ha & Hd & Hc).
    repeat split; [exact Ha | exact Hd |].
    rewrite Hc. simpl. rewrite calls_made_call. lia.
Qed.

(** The same for the whole run of the child: nothing is put on the
    channel. *)
Lemma process_lost (problem : Problem) (code : string) (mem_limit_mb : Z)
    (fn : pyobj) (p : pstate py) (k : nat) (tk : TestCase) :
  reaches_tests py problem code mem_limit_mb fn p ->
  tests problem !! k = Some tk ->
  tests_terminate py fn p (take k (tests problem)) = true ->
  let r := fst (invoke py fn (state_before py fn p (tests problem) k) tk) in
  let proc := Process py problem code mem_limit_mb in
  (r = Aborts \/ r = Diverges) ->
  (r = Aborts -> ch_end proc = Abort) /\
  (r = Diverges -> ch_end proc = Diverge) /\
  c_queue (ch_final proc) = [] /\
  calls_made (c_log (ch_final proc)) = S k.
Proof.
  intros (tree & ns & Hparse & Hcheck & Hexec & Hfn) Hk Hends r proc Hlost.
  pose proof (process_run py problem code mem_limit_mb) as Hrun.
  fold proc in Hrun. revert Hrun.
  rewrite execute_cases. cbv zeta. rewrite Hparse, Hcheck.
  simpl c_py. rewrite Hexec. cbv beta iota delta [fst snd]. rewrite Hfn.
  match goal with |- context [run_tests py fn 1 (tests problem) [] ?s2] =>
    destruct (run_tests_lost fn (tests problem) k 1 [] s2 tk Hk Hends Hlost)
      as (Ha & Hd & Hc);
    pose proof (run_tests_quiet py fn (tests problem) 1 [] s2) as Hq
  end.
  fold r in Ha, Hd.
  destruct (run_tests py fn 1 (tests problem) [] _) as [[outs|e| |] s3];
    simpl in Ha, Hd, Hc, Hq;
    try (destruct Hlost as [Hr | Hr]; [specialize (Ha Hr) | specialize (Hd Hr)];
         discriminate).
  - intros [= <- <-]. repeat split; try assumption.
    destruct Hlost as [Hr | Hr]; [|specialize (Hd Hr); discriminate].
    intros Hr'. rewrite Hr in Hr'. discriminate.
  - intros [= <- <-]. repeat split; try assumption.
    destruct Hlost as [Hr | Hr]; [specialize (Ha Hr); discriminate|].
    intros Hr'. rewrite Hr in Hr'. discriminate.
Qed.

End Lost.

(** X12. A call that kills the child (the CPU limit, a signal, a crash of
    the interpreter), after the tests before it ended: the child makes no
    further call and puts nothing on the channel, the outcomes already
    judged are lost, and a caller whose deadline the exit meets gets the
    bare "No result returned". *)
Theorem killed_call_loses_report (py : Interp) (problem : Problem) (code : string)
    (time_limit : Q) (mem_limit_mb : Z) (fn : pyobj) (p : pstate py)
    (k : nat) (tk : TestCase) :
  reaches_tests py problem code mem_limit_mb fn p ->
  tests problem !! k = Some tk ->
  tests_terminate py fn p (take k (tests problem)) = true ->
  fst (invoke py fn (state_before py fn p (tests problem) k) tk) = Aborts ->
  let proc := Process py problem code mem_limit_mb in
  ch_end proc = Abort /\
  c_queue (ch_final proc) = [] /\
  calls_made (c_log (ch_final proc)) = S k /\
  (exited_by py proc time_limit = true ->
   run_in_subprocess py problem code time_limit mem_limit_mb
     = result_error "No result returned").
Proof.
  intros Hreach Hk Hends Hkill proc.
  destruct (process_lost py problem code mem_limit_mb fn p k tk Hreach Hk Hends
              (or_introl Hkill)) as (Ha & _ & Hq & Hc).
  repeat split; [by apply Ha | exact Hq | exact Hc |].
  intros Hexit. unfold run_in_subprocess.
  rewrite (supervisor_collects py problem code time_limit mem_limit_mb Hexit).
  by rewrite (to_send_nothing py _ Hq).
Qed.

Lemma killed_call_loses_report_witness :
  let py := Samples.interp Samples.fib_then_killed in
  let code := Samples.source Samples.fib_then_killed in
  calls_made (c_log (ch_final (Process py Samples.fib_problem code 128))) = 2%nat /\
  run_in_subprocess py Samples.fib_problem code 10 128 = result_error "No result returned".
Proof.
  destruct (killed_call_loses_report (Samples.interp Samples.fib_then_killed)
              Samples.fib_problem (Samples.source Samples.fib_then_killed) 10 128
              (UserObj 0) 0%nat 1%nat (Samples.test [VInt 1] (VInt 1)))
    as (_ & _ & Hc & Hres).
  - eexists _, _. repeat split; reflexivity.
  - reflexivity.
  - reflexivity.
  - reflexivity.
  - split; [exact Hc | apply Hres; reflexivity].
Defined.

(** X13. A call that never returns, after the tests before it ended: the
    child never exits and puts nothing on the channel, so whatever the time
    limit the caller gets "Time Limit Exceeded", and the outcomes already
    judged are lost. *)
Theorem hanging_call_is_tle (py : Interp) (problem : Problem) (code : string)
    (time_limit : Q) (mem_limit_mb : Z) (fn : pyobj) (p : pstate py)
    (k : nat) (tk : TestCase) :
  reaches_tests py problem code mem_limit_mb fn p ->
  tests problem !! k = Some tk ->
  tests_terminate py fn p (take k (tests problem)) = true ->
  fst (invoke py fn (state_before py fn p (tests problem) k) tk) = Diverges ->
  let proc := Process py problem code mem_limit_mb in
  c_queue (ch_final proc) = [] /\
  calls_made (c_log (ch_final proc)) = S k /\
  run_in_subprocess py problem code time_limit mem_limit_mb = result_tle.
Proof.
  intros Hreach Hk Hends Hhang proc.
  destruct (process_lost py problem code mem_limit_mb fn p k tk Hreach Hk Hends
              (or_intror Hhang)) as (_ & Hd & Hq & Hc).
  repeat split; [exact Hq | exact Hc |].
  unfold run_in_subprocess. rewrite supervisor_times_out; [reflexivity|].
  unfold exited_by. by rewrite (Hd Hhang).
Qed.

Lemma hanging_call_is_tle_witness :
  run_in_subprocess (Samples.interp Samples.spin_forever) Samples.fib_problem
    (Samples.source Samples.spin_forever) 1000000 128 = result_tle.
Proof.
  apply (hanging_call_is_tle (Samples.interp Samples.spin_forever) Samples.fib_problem
           (Samples.source Samples.spin_forever) 1000000 128 (UserObj 0) 0%nat 0%nat
           (Samples.test [VInt 0] (VInt 0))).
  - eexists _, _. repeat split; reflexivity.
  - reflexivity.
  - reflexivity.
  - reflexivity.
Defined.

(** ** What the status tells the caller *)

Section Status.

Context (py : Interp).

Lemma exited_by_mono (proc : child py) (t t' : Q) :
  (t <= t')%Q -> exited_by py proc t = true -> exited_by py proc t' = true.
Proof.
  unfold exited_by. intros Hle.
  destruct (ch_end proc); try discriminate;
    intros [-> Hw]%andb_prop; apply Qle_bool_iff in Hw;
    apply Qle_bool_iff; exact (Qle_trans _ _ _ Hw Hle).
Qed.

(** What the parent collects from a child gone by the deadline is an item
    the child put, as carried, or the parent's own error. *)
Lemma collected_item (problem : Problem) (code : string) (time_limit : Q)
    (mem_limit_mb : Z) :
  exited_by py (Process py problem code mem_limit_mb) time_limit = true ->
  channel_item problem (run_in_subprocess py problem code time_limit mem_limit_mb).
Proof.
  intros Hexit. unfold run_in_subprocess.
  rewrite (supervisor_collects py problem code time_limit mem_limit_mb Hexit).
  cbn [fst].
  destruct (process_channel py problem code mem_limit_mb)
    as [(_ & r & Hq & Hitem) | (_ & Hq)].
  - rewrite (to_send_one py _ r Hq).
    destruct (carried py _ r) as [sent|] eqn:Hsent; simpl.
    + exact (carried_item py problem _ r sent Hitem Hsent).
    + right. by eexists.
  - rewrite (to_send_nothing py _ Hq). right. by eexists.
Qed.

Lemma carried_status (p : pstate py) (r sent : GradeResult) :
  carried py p r = Some sent -> g_status sent = g_status r.
Proof.
  unfold carried. destruct (g_tests r) as [outs|]; [|by intros [= <-]].
  destruct (mapM (pickled py p) outs); [|discriminate]. by intros [= <-].
Qed.

(** A result of status "ok" was put by the child, and the child was gone by
    the deadline. *)
Lemma ok_was_put (problem : Problem) (code : string) (time_limit : Q)
    (mem_limit_mb : Z) :
  let proc := Process py problem code mem_limit_mb in
  g_status (run_in_subprocess py problem code time_limit mem_limit_mb) = "ok" ->
  exited_by py proc time_limit = true /\
  exists r, c_queue (ch_final proc) = [r] /\ g_status r = "ok".
Proof.
  intros proc. unfold run_in_subprocess.
  destruct (exited_by py proc time_limit) eqn:Hexit;
    [|rewrite (supervisor_times_out py problem code time_limit mem_limit_mb Hexit);
      discriminate].
  rewrite (supervisor_collects py problem code time_limit mem_limit_mb Hexit).
  cbn [fst]. fold proc.
  destruct (process_channel py problem code mem_limit_mb)
    as [(_ & r & Hq & _) | (_ & Hq)]; fold proc in Hq.
  - rewrite (to_send_one py _ r Hq).
    destruct (carried py _ r) as [sent|] eqn:Hsent; simpl; [|discriminate].
    intros Hok. split; [reflexivity|]. exists r. split; [exact Hq|].
    by rewrite <- (carried_status _ _ _ Hsent).
  - rewrite (to_send_nothing py _ Hq). discriminate.
Qed.

Lemma channel_item_status (problem : Problem) (r : GradeResult) :
  channel_item problem r -> g_status r = "ok" \/ g_status r = "error".
Proof. intros [(outs & elapsed & -> & _) | (msg & ->)]; [by left | by right]. Qed.

(** A loop that returns has made one call per test case. *)
Lemma run_tests_done_calls (fn : pyobj) (ts : list TestCase) :
  forall idx acc (s : cstate py) outs s',
    run_tests py fn idx ts acc s = (Done outs, s') ->
    calls_made (c_log s') = (calls_made (c_log s) + length ts)%nat.
Proof.
  induction ts as [|t rest IH]; intros idx acc s outs s'; simpl.
  - unfold ret. intros [= _ <-]. lia.
  - unfold bind. pose proof (run_test_log py fn idx t s) as Hlog.
    destruct (run_test py fn idx t s) as [[o|e| |] s1]; try discriminate.
    intros Hrest. apply IH in Hrest. simpl in Hlog.
    rewrite Hrest, Hlog, calls_made_call. lia.
Qed.

End Status.

(** X14. The status is "tle" exactly when the child is still running at the
    deadline: nothing the child puts on the channel can carry that status,
    and a child gone by the deadline never yields it. *)
Theorem tle_exactly_at_deadline (py : Interp) (problem : Problem) (code : string)
    (time_limit : Q) (mem_limit_mb : Z) :
  g_status (run_in_subprocess py problem code time_limit mem_limit_mb) = "tle" <->
  exited_by py (Process py problem code mem_limit_mb) time_limit = false.
Proof.
  destruct (exited_by py (Process py problem code mem_limit_mb) time_limit) eqn:Hexit.
  - split; [|discriminate].
    destruct (channel_item_status _ _
                (collected_item py problem code time_limit mem_limit_mb Hexit))
      as [-> | ->]; discriminate.
  - unfold run_in_subprocess.
    rewrite (supervisor_times_out py problem code time_limit mem_limit_mb Hexit).
    by split.
Qed.

(** X15. Once the child is gone by the deadline, a longer time limit changes
    nothing of what the caller gets. *)
Theorem longer_limit_same_result (py : Interp) (problem : Problem) (code : string)
    (time_limit longer : Q) (mem_limit_mb : Z) :
  exited_by py (Process py problem code mem_limit_mb) time_limit = true ->
  (time_limit <= longer)%Q ->
  run_in_subprocess py problem code longer mem_limit_mb
    = run_in_subprocess py problem code time_limit mem_limit_mb.
Proof.
  intros Hexit Hle. unfold run_in_subprocess.
  rewrite (supervisor_collects py problem code time_limit mem_limit_mb Hexit).
  rewrite (supervisor_collects py problem code longer mem_limit_mb
             (exited_by_mono py _ _ _ Hle Hexit)).
  reflexivity.
Qed.

Lemma longer_limit_same_result_witness :
  run_in_subprocess (Samples.interp Samples.fib_template) Samples.fib_problem
    (Samples.source Samples.fib_template) 30 128
  = run_in_subprocess (Samples.interp Samples.fib_template) Samples.fib_problem
      (Samples.source Samples.fib_template) 2 128.
Proof.
  apply (longer_limit_same_result (Samples.interp Samples.fib_template) Samples.fib_problem
           (Samples.source Samples.fib_template) 2 30 128).
  - reflexivity.
  - discriminate.
Defined.

(** X16. Status "ok" is earned by a whole run only: the source parsed and
    passed the vettor, its module body ran to its end and defines the
    function of the problem, the function was called once per test case, the
    child returned from [_execute] and was gone by the deadline. *)
Theorem ok_needs_a_full_run (py : Interp) (problem : Problem) (code : string)
    (time_limit : Q) (mem_limit_mb : Z) :
  let proc := Process py problem code mem_limit_mb in
  g_status (run_in_subprocess py problem code time_limit mem_limit_mb) = "ok" ->
  exited_by py proc time_limit = true /\
  ch_end proc = Done tt /\
  (exists tree, py_parse py code = ParseOk tree /\ clean tree) /\
  (exists fn p, reaches_tests py problem code mem_limit_mb fn p) /\
  calls_made (c_log (ch_final proc)) = length (tests problem).
Proof.
  intros proc Hok.
  destruct (ok_was_put py problem code time_limit mem_limit_mb Hok)
    as (Hexit & r & Hr & Hs).
  fold proc in Hexit, Hr. split; [exact Hexit|]. revert Hr.
  pose proof (process_run py problem code mem_limit_mb) as Hrun. fold proc in Hrun.
  revert Hrun. rewrite execute_cases. cbv zeta.
  destruct (py_parse py code) as [tree|msg lineno|e] eqn:Hparse.
  - destruct (check_nodes (walk tree)) as [reason|] eqn:Hcheck.
    { intros [= <- <-]. simpl. intros [= <-]. discriminate Hs. }
    simpl c_py.
    destruct (py_exec py (limited py mem_limit_mb (py_start py)) SAFE_BUILTINS initial_ns code)
      as [[ns|e| |] p] eqn:Hexec; cbv beta iota delta [fst snd].
    + destruct (ns !! function_name problem) as [fn|] eqn:Hfn.
      * match goal with |- context [run_tests py fn 1 (tests problem) [] ?s2] =>
          pose proof (run_tests_done_calls py fn (tests problem) 1 [] s2) as Hcalls;
          pose proof (run_tests_quiet py fn (tests problem) 1 [] s2) as Hq;
          destruct (run_tests py fn 1 (tests problem) [] s2) as [[outs|e| |] s3]
        end; simpl in Hq.
        -- intros [= <- <-] _. specialize (Hcalls outs s3 eq_refl).
           repeat split; try reflexivity.
           ++ exists tree. split; [reflexivity | by apply check_walk_clean].
           ++ exists fn, p, tree, ns. by repeat split.
           ++ simpl. rewrite calls_made_app, Hcalls. simpl. unfold calls_made. simpl. lia.
        -- destruct (except_clauses_channel py e s3) as [(msg & ->) | (cause & ->)];
             intros [= <- <-]; simpl; rewrite Hq; simpl; intros [= <-]; discriminate Hs.
        -- intros [= <- <-]. rewrite Hq. discriminate.
        -- intros [= <- <-]. rewrite Hq. discriminate.
      * intros [= <- <-]. simpl. intros [= <-]. discriminate Hs.
    + match goal with |- context [except_clauses py ?x ?s2] =>
        destruct (except_clauses_channel py x s2) as [(msg & ->) | (cause & ->)]
      end; intros [= <- <-]; simpl; intros [= <-]; discriminate Hs.
    + intros [= <- <-]. discriminate.
    + intros [= <- <-]. discriminate.
  - intros [= <- <-]. simpl. intros [= <-]. discriminate Hs.
  - match goal with |- context [except_clauses py ?x ?s2] =>
      destruct (except_clauses_channel py x s2) as [(msg & ->) | (cause & ->)]
    end; intros [= <- <-]; simpl; intros [= <-]; discriminate Hs.
Qed.

Lemma ok_needs_a_full_run_witness :
  calls_made (c_log (ch_final (Process (Samples.interp Samples.fib_div_zero)
                                 Samples.fib_problem
                                 (Samples.source Samples.fib_div_zero) 128)))
    = length (tests Samples.fib_problem).
Proof.
  apply (ok_needs_a_full_run (Samples.interp Samples.fib_div_zero) Samples.fib_problem
           (Samples.source Samples.fib_div_zero) 2 128).
  reflexivity.
Defined.

(** * The problem bank *)

Section Bank.

Import Problems.

Lemma string_leb_trans (a b c : string) :
  String.leb a b = true -> String.leb b c = true -> String.leb a c = true.
Proof.
  unfold String.leb. intros Hab Hbc.
  destruct (String.compare a b) eqn:Eab; try discriminate;
    destruct (String.compare b c) eqn:Ebc; try discriminate.
  - apply String.compare_eq_iff in Eab as ->. by rewrite Ebc.
  - apply String.compare_eq_iff in Eab as ->. by rewrite Ebc.
  - apply String.compare_eq_iff in Ebc as <-. by rewrite Eab.
  - assert (H : String_as_OT.lt a c).
    { pose proof String_as_OT.lt_strorder as [_ Ht]. by apply (Ht a b c). }
    unfold String_as_OT.lt in H. change (String.compare a c = Lt) in H. by rewrite H.
Qed.

Lemma string_ltb_leb (a b : string) : String.ltb a b = true -> String.leb a b = true.
Proof. unfold String.ltb, String.leb. by destruct (String.compare a b). Qed.

Lemma string_not_ltb (a b : string) : String.ltb a b = false -> String.leb b a = true.
Proof.
  unfold String.ltb, String.leb. rewrite (String.compare_antisym a b).
  by destruct (String.compare b a).
Qed.

Lemma string_leb_ne (a b : string) :
  String.leb a b = true -> a <> b -> String.ltb a b = true.
Proof.
  unfold String.ltb, String.leb. destruct (String.compare a b) eqn:E; try done.
  apply String.compare_eq_iff in E. done.
Qed.

Lemma string_ltb_irrefl (a : string) : String.ltb a a = false.
Proof.
  unfold String.ltb. pose proof (String.compare_antisym a a) as H.
  by destruct (String.compare a a).
Qed.

(** *** The dict *)

Lemma dict_get_set (k k' : string) (v : problem_dict) (d : bank) :
  dict_get k' (dict_set k v d) = if String.eqb k k' then Some v else dict_get k' d.
Proof.
  induction d as [|[k0 v0] rest IH]; simpl.
  - reflexivity.
  - destruct (String.eqb k0 k) eqn:E0; simpl.
    + apply String.eqb_eq in E0 as ->. by destruct (String.eqb k k').
    + rewrite IH. destruct (String.eqb k0 k') eqn:E1; [|reflexivity].
      apply String.eqb_eq in E1 as ->. by rewrite String.eqb_sym, E0.
Qed.

Lemma dict_set_keys (k : string) (v : problem_dict) (d : bank) :
  d.*1 ⊆ (dict_set k v d).*1 /\
  (forall k', k' ∈ (dict_set k v d).*1 -> k' = k \/ k' ∈ d.*1) /\
  (NoDup d.*1 -> NoDup (dict_set k v d).*1) /\
  (forall k' v', (k', v') ∈ dict_set k v d -> (k' = k /\ v' = v) \/ (k', v') ∈ d).
Proof.
  induction d as [|[k0 v0] rest (IHsub & IHin & IHnodup & IHval)]; simpl.
  - repeat split.
    + intros x Hx. inversion Hx.
    + intros k' Hk'. apply list_elem_of_singleton in Hk'. by left.
    + intros _. apply NoDup_singleton.
    + intros k' v' H. apply list_elem_of_singleton in H as [= -> ->]. by left.
  - destruct (String.eqb k0 k) eqn:E0; simpl.
    + apply String.eqb_eq in E0 as ->. repeat split.
      * done.
      * intros k' Hk'. by right.
      * done.
      * intros k' v' H. apply elem_of_cons in H as [[= -> ->] | H]; [by left|].
        right. by right.
    + repeat split.
      * intros x Hx. apply elem_of_cons in Hx as [-> | Hx]; [left | right; by apply IHsub].
      * intros k' Hk'. apply elem_of_cons in Hk' as [-> | Hk'].
        -- right. left.
        -- destruct (IHin k' Hk') as [-> | H]; [by left | right; by right].
      * intros Hnd. apply NoDup_cons in Hnd as [Hnotin Hnd].
        apply NoDup_cons. split; [|by apply IHnodup].
        intros Hin. destruct (IHin k0 Hin) as [-> | H]; [|done].
        by rewrite String.eqb_refl in E0.
      * intros k' v' H. apply elem_of_cons in H as [[= -> ->] | H].
        -- right. left.
        -- destruct (IHval k' v' H) as [? | ?]; [by left | right; by right].
Qed.

Lemma dict_get_elem (d : bank) (k : string) (v : problem_dict) :
  NoDup d.*1 -> (dict_get k d = Some v <-> (k, v) ∈ d).
Proof.
  induction d as [|[k0 v0] rest IH]; simpl; intros Hnd.
  - split; [discriminate | intros H; inversion H].
  - apply NoDup_cons in Hnd as [Hnotin Hnd].
    destruct (String.eqb k0 k) eqn:E0.
    + apply String.eqb_eq in E0 as ->. split.
      * intros [= ->]. left.
      * intros H. apply elem_of_cons in H as [[= ->] | H]; [reflexivity|].
        exfalso. apply Hnotin. apply (list_elem_of_fmap_2 fst) in H. exact H.
    + rewrite (IH Hnd). split.
      * intros H. by right.
      * intros H. apply elem_of_cons in H as [[= -> ->] | H]; [|exact H].
        by rewrite String.eqb_refl in E0.
Qed.

(** A bank made by [_add_problem] has distinct keys, each the id of its
    problem. *)
Lemma built_keys (d : bank) :
  built d -> NoDup d.*1 /\ forall k p, (k, p) ∈ d -> k = p_id p.
Proof.
  induction 1 as [|p d _ [IHnd IHid]].
  - split; [constructor | intros k p H; inversion H].
  - unfold _add_problem.
    destruct (dict_set_keys (p_id p) p d) as (_ & _ & Hnd & Hval).
    split; [by apply Hnd|].
    intros k q H. destruct (Hval k q H) as [[-> ->] | H']; [reflexivity | by apply IHid].
Qed.

(** *** The sort *)

Lemma insert_by_id_perm (x : listing) (l : list listing) :
  insert_by_id x l ≡ₚ x :: l.
Proof.
  induction l as [|y rest IH]; simpl; [reflexivity|].
  destruct (String.ltb (l_id y) (l_id x)); [|reflexivity].
  rewrite IH. apply Permutation_swap.
Qed.

Lemma sort_by_id_perm (l : list listing) : sort_by_id l ≡ₚ l.
Proof.
  induction l as [|x rest IH]; simpl; [reflexivity|].
  rewrite insert_by_id_perm. by rewrite IH.
Qed.

Lemma insert_by_id_sorted (x : listing) (l : list listing) :
  StronglySorted id_le l -> StronglySorted id_le (insert_by_id x l).
Proof.
  induction 1 as [|y rest Hsorted IH Hall]; simpl.
  - repeat constructor.
  - destruct (String.ltb (l_id y) (l_id x)) eqn:E.
    + constructor; [exact IH|].
      rewrite insert_by_id_perm. constructor; [|exact Hall].
      by apply string_ltb_leb.
    + apply string_not_ltb in E.
      constructor; [by constructor|].
      constructor; [exact E|].
      eapply Forall_impl; [exact Hall|]. intros z Hz.
      exact (string_leb_trans _ _ _ E Hz).
Qed.

Lemma sort_by_id_sorted (l : list listing) : StronglySorted id_le (sort_by_id l).
Proof.
  induction l as [|x rest IH]; simpl; [constructor | by apply insert_by_id_sorted].
Qed.

Lemma sorted_strictly (l : list listing) :
  StronglySorted id_le l -> NoDup (l_id <$> l) -> StronglySorted id_lt l.
Proof.
  induction 1 as [|x rest Hsorted IH Hall]; simpl; intros Hnd; [constructor|].
  apply NoDup_cons in Hnd as [Hnotin Hnd].
  constructor; [by apply IH|].
  apply Forall_forall. intros y Hy.
  apply string_leb_ne; [by apply (proj1 (Forall_forall _ _) Hall)|].
  intros Heq. apply Hnotin. rewrite Heq. by apply list_elem_of_fmap_2.
Qed.

Lemma listing_ids (d : bank) :
  l_id <$> ((fun '(pid, p) => project pid p) <$> d) = d.*1.
Proof.
  induction d as [|[k v] rest IH]; [reflexivity|].
  rewrite !fmap_cons. simpl. f_equal. exact IH.
Qed.

Lemma listing_members (d : bank) (item : listing) :
  built d ->
  (item ∈ list_problems d <->
   exists p, get_problem d (l_id item) = Some p /\ item = project (p_id p) p).
Proof.
  intros Hbuilt. destruct (built_keys d Hbuilt) as [Hnd Hid].
  unfold list_problems, get_problem. cbv zeta. rewrite sort_by_id_perm. split.
  - intros Hin. apply list_elem_of_fmap in Hin as ([k p] & -> & Hin).
    exists p. simpl. split; [by apply dict_get_elem|].
    by rewrite (Hid k p Hin).
  - intros (p & Hget & ->). simpl in Hget. apply dict_get_elem in Hget; [|exact Hnd].
    apply list_elem_of_fmap. by exists (p_id p, p).
Qed.

End Bank.

(** X17. A problem added to the bank is the one fetched under its id,
    whatever was there before; every other id fetches what it fetched
    before; and the bank grows by one entry exactly when the id is new. *)
Theorem added_problem_is_fetched (p : Problems.problem_dict) (d : Problems.bank) :
  Problems.get_problem (Problems._add_problem p d) (Problems.p_id p) = Some p /\
  (forall pid, pid <> Problems.p_id p ->
     Problems.get_problem (Problems._add_problem p d) pid = Problems.get_problem d pid) /\
  length (Problems._add_problem p d)
    = match Problems.get_problem d (Problems.p_id p) with
      | Some _ => length d
      | None => S (length d)
      end.
Proof.
  unfold Problems.get_problem, Problems._add_problem. repeat split.
  - by rewrite dict_get_set, String.eqb_refl.
  - intros pid Hne. rewrite dict_get_set.
    destruct (String.eqb (Problems.p_id p) pid) eqn:E; [|reflexivity].
    apply String.eqb_eq in E. congruence.
  - induction d as [|[k v] rest IH]; simpl; [reflexivity|].
    destruct (String.eqb k (Problems.p_id p)); simpl; [reflexivity|].
    rewrite IH. by destruct (Problems.dict_get (Problems.p_id p) rest).
Qed.

(** X18. The listing of a bank made by [_add_problem]: its ids go strictly
    upwards, so no id is listed twice; a problem is listed exactly when
    [get_problem] fetches one under its id, and the entry shows the id,
    title, description, function name, signature and template of that very
    problem. *)
Theorem listing_is_sorted_and_complete (d : Problems.bank) :
  built d ->
  StronglySorted id_lt (Problems.list_problems d) /\
  length (Problems.list_problems d) = length d /\
  forall item,
    item ∈ Problems.list_problems d <->
    exists p, Problems.get_problem d (Problems.l_id item) = Some p /\
              item = Problems.project (Problems.p_id p) p.
Proof.
  intros Hbuilt. repeat split.
  - apply sorted_strictly; [apply sort_by_id_sorted|].
    unfold Problems.list_problems. cbv zeta. rewrite sort_by_id_perm, listing_ids.
    by apply built_keys.
  - unfold Problems.list_problems. cbv zeta.
    by rewrite sort_by_id_perm, length_fmap.
  - by apply listing_members.
  - by apply listing_members.
Qed.

Lemma listing_is_sorted_and_complete_witness :
  Problems.l_id <$> Problems.list_problems Problems.PROBLEMS
    = ["fibonacci"; "is_palindrome"; "two_sum"] /\
  StronglySorted id_lt (Problems.list_problems Problems.PROBLEMS).
Proof.
  split; [reflexivity|].
  apply (listing_is_sorted_and_complete Problems.PROBLEMS).
  repeat constructor.
Defined.

(** X19. The listing does not depend on the order in which the problems
    were added: two banks that fetch the same problem under every id are
    listed alike. *)
Theorem listing_ignores_insertion_order (d d' : Problems.bank) :
  built d -> built d' ->
  (forall pid, Problems.get_problem d pid = Problems.get_problem d' pid) ->
  Problems.list_problems d = Problems.list_problems d'.
Proof.
  intros Hd Hd' Hsame.
  assert (Hmem : forall item, item ∈ Problems.list_problems d <->
                              item ∈ Problems.list_problems d').
  { intros item. rewrite (listing_members d item Hd), (listing_members d' item Hd').
    by rewrite Hsame. }
  assert (Hnd : forall b, built b -> NoDup (Problems.list_problems b)).
  { intros b Hb. apply (NoDup_fmap_1 Problems.l_id).
    unfold Problems.list_problems. cbv zeta. rewrite sort_by_id_perm, listing_ids.
    by apply built_keys. }
  apply (StronglySorted_unique_strong id_le).
  - intros x y Hx Hy Hxy Hyx.
    pose proof (String.leb_antisym _ _ Hxy Hyx) as Hid.
    apply (listing_members d x Hd) in Hx as (p & Hp & ->).
    apply (listing_members d' y Hd') in Hy as (q & Hq & ->).
    simpl in Hid, Hp, Hq. rewrite Hsame, Hid, Hq in Hp. by injection Hp as ->.
  - apply sort_by_id_sorted.
  - apply sort_by_id_sorted.
  - apply NoDup_Permutation; [by apply Hnd | by apply Hnd | exact Hmem].
Qed.

Lemma listing_ignores_insertion_order_witness :
  Problems.list_problems Problems.PROBLEMS
  = Problems.list_problems
      (Problems._add_problem Problems.fibonacci
         (Problems._add_problem Problems.two_sum
            (Problems._add_problem Problems.is_palindrome []))).
Proof.
  apply listing_ignores_insertion_order.
  - repeat constructor.
  - repeat constructor.
  - intros pid. unfold Problems.get_problem, Problems.PROBLEMS, Problems._add_problem.
    rewrite !dict_get_set.
    destruct (String.eqb (Problems.p_id Problems.is_palindrome) pid) eqn:E1;
      destruct (String.eqb (Problems.p_id Problems.fibonacci) pid) eqn:E2;
      destruct (String.eqb (Problems.p_id Problems.two_sum) pid) eqn:E3; try reflexivity;
      apply String.eqb_eq in E1; subst pid; vm_compute in E2, E3; discriminate.
Defined.

(** * The web application *)

Section Application.

Context (py : Interp) (web : App.Web) (cfg : App.config) (PROBLEMS : Problems.bank).

(** [do_login] lets in whom the policy admits, and changes nothing for
    anyone else. *)
Lemma do_login_cases (form : option string) (st : App.state) :
  let student_id := App.strip web (default EmptyString form) in
  (admitted web cfg student_id /\
   App.do_login web cfg form st =
     (App.Redirect "index" [],
      {| App.session := <["student_id" := student_id]> (App.session st);
         App.graded := App.graded st |})) \/
  (~ admitted web cfg student_id /\
   App.do_login web cfg form st = (App.Redirect "login" [("error", "Invalid ID")], st)).
Proof.
  unfold admitted, App.do_login. cbv zeta.
  destruct (bool_decide (default ∅ (App.ALLOWED_IDS cfg) ≠ ∅)).
  - case_bool_decide; simpl; [left | right]; by split.
  - destruct (App.ID_PATTERN cfg) as [pat|].
    + case_bool_decide as Hpat.
      * destruct (App.re_match web pat _) eqn:Hmatch; simpl; [left | right].
        -- split; [by exists pat | reflexivity].
        -- split; [|reflexivity]. intros (pat' & [= <-] & _ & Hm). congruence.
      * simpl. right. split; [|reflexivity]. intros (pat' & [= <-] & Hne & _). done.
    + simpl. right. split; [|reflexivity]. by intros (pat' & [=] & _).
Qed.

(** What a request can do to the session ... *)
Lemma serve_session (req : App.request) (st : App.state) :
  let st' := snd (App.serve py web cfg PROBLEMS req st) in
  App.session st' = App.session st \/
  App.session st' = ∅ \/
  exists form,
    req = App.POST_login form /\
    admitted web cfg (App.strip web (default EmptyString form)) /\
    App.session st' =
      <["student_id" := App.strip web (default EmptyString form)]> (App.session st).
Proof.
  destruct req as [error|form| | |body]; simpl.
  - by left.
  - destruct (do_login_cases form st) as [[Hadm ->] | [_ ->]]; simpl.
    + right. right. by exists form.
    + by left.
  - right. by left.
  - unfold App.index, App.login_required.
    destruct (App.session st !! "student_id"); by left.
  - unfold App.api_run, App.login_required.
    destruct (App.session st !! "student_id"); [|by left].
    destruct body as [[ | | | | |payload| ]|]; try by left.
    destruct (App.payload_get "problem_id" payload) as [[ | | |pid| | | ]|]; try by left.
    destruct (App.payload_get "code" payload) as [[ | | |code| | | ]|]; try by left.
    destruct (Problems.get_problem PROBLEMS pid); [|by left].
    destruct (App.jsonify_raises web _); by left.
Qed.

(** ... and to the log of gradings. *)
Lemma serve_graded (req : App.request) (st : App.state) :
  let st' := snd (App.serve py web cfg PROBLEMS req st) in
  App.graded st' = App.graded st \/
  (logged_in st /\
   exists body problem code,
     req = App.POST_api_run body /\
     well_formed_body PROBLEMS body problem code /\
     App.graded st' = App.graded st ++
       [{| App.gr_problem := problem; App.gr_code := code;
           App.gr_time_limit := 2; App.gr_mem_limit_mb := 128 |}]).
Proof.
  destruct req as [error|form| | |body]; simpl; try by left.
  - destruct (do_login_cases form st) as [[_ ->] | [_ ->]]; by left.
  - unfold App.index, App.login_required.
    destruct (App.session st !! "student_id"); by left.
  - unfold App.api_run, App.login_required, logged_in.
    destruct (App.session st !! "student_id") as [sid|]; [|by left].
    destruct body as [[ | | | | |payload| ]|]; try by left.
    destruct (App.payload_get "problem_id" payload) as [[ | | |pid| | | ]|] eqn:Hpid;
      try by left.
    destruct (App.payload_get "code" payload) as [[ | | |code| | | ]|] eqn:Hcode;
      try by left.
    destruct (Problems.get_problem PROBLEMS pid) as [problem|] eqn:Hget; [|by left].
    right. split; [by eexists|].
    exists (Some (VDict payload)), problem, code.
    split; [reflexivity|]. split; [by exists payload, pid|].
    by destruct (App.jsonify_raises web _).
Qed.

Lemma serve_all_cons (req : App.request) (rest : list App.request) (st : App.state) :
  snd (App.serve_all py web cfg PROBLEMS (req :: rest) st)
    = snd (App.serve_all py web cfg PROBLEMS rest
             (snd (App.serve py web cfg PROBLEMS req st))).
Proof.
  simpl. destruct (App.serve py web cfg PROBLEMS req st) as [resp st1]. simpl.
  by destruct (App.serve_all py web cfg PROBLEMS rest st1).
Qed.

Lemma serve_all_session (reqs : list App.request) :
  forall st,
    (forall sid, App.session st !! "student_id" = Some sid -> admitted web cfg sid) ->
    forall sid,
      App.session (snd (App.serve_all py web cfg PROBLEMS reqs st)) !! "student_id" = Some sid ->
      admitted web cfg sid.
Proof.
  induction reqs as [|req rest IH]; intros st Hinv; [exact Hinv|].
  rewrite serve_all_cons. apply IH. intros sid.
  destruct (serve_session req st) as [-> | [-> | (form & _ & Hadm & ->)]].
  - apply Hinv.
  - by rewrite lookup_empty.
  - rewrite lookup_insert_eq. by intros [= <-].
Qed.

Lemma serve_all_graded (Q : Prop) (reqs : list App.request) :
  forall st,
    (logged_in st -> Q) ->
    (forall form, App.POST_login form ∈ reqs ->
                  admitted web cfg (App.strip web (default EmptyString form)) -> Q) ->
    let st' := snd (App.serve_all py web cfg PROBLEMS reqs st) in
    (logged_in st' -> Q) /\
    forall g, g ∈ App.graded st' ->
      g ∈ App.graded st \/
      (Q /\ App.gr_time_limit g = 2%Q /\ App.gr_mem_limit_mb g = 128%Z /\
       exists pid, Problems.get_problem PROBLEMS pid = Some (App.gr_problem g)).
Proof.
  induction reqs as [|req rest IH]; intros st Hst Hreqs.
  - simpl. split; [exact Hst | by left].
  - cbv zeta. rewrite serve_all_cons.
    set (st1 := snd (App.serve py web cfg PROBLEMS req st)).
    assert (Hst1 : logged_in st1 -> Q).
    { unfold logged_in, st1.
      destruct (serve_session req st) as [-> | [-> | (form & -> & Hadm & _)]].
      - exact Hst.
      - rewrite lookup_empty. by intros [? ?].
      - intros _. apply (Hreqs form); [left | exact Hadm]. }
    destruct (IH st1 Hst1) as [Hend Hgraded].
    { intros form Hin. apply Hreqs. by right. }
    split; [exact Hend|].
    intros g Hg. destruct (Hgraded g Hg) as [Hg1 | ?]; [|by right].
    unfold st1 in Hg1.
    destruct (serve_graded req st)
      as [Heq | (Hin & body & problem & code & _ & (payload & pid & _ & _ & _ & Hget) & Heq)];
      rewrite Heq in Hg1; [by left|].
    apply elem_of_app in Hg1 as [? | Hg1]; [by left|].
    apply list_elem_of_singleton in Hg1 as ->. right. simpl.
    split; [by apply Hst|]. repeat split. by exists pid.
Qed.

End Application.

(** X20. With a whitelist that is not empty, the whitelist alone decides:
    the id sent, stripped, is let in exactly when it is on the list, whether
    or not it fits the pattern.  An id let in is stored, stripped, in the
    session; a refusal leaves the session as it was. *)
Theorem whitelist_overrides_pattern (web : App.Web) (cfg : App.config)
    (ids : gset string) (form : option string) (st : App.state) :
  App.ALLOWED_IDS cfg = Some ids ->
  ids <> ∅ ->
  let student_id := App.strip web (default EmptyString form) in
  (student_id ∈ ids ->
   App.do_login web cfg form st =
     (App.Redirect "index" [],
      {| App.session := <["student_id" := student_id]> (App.session st);
         App.graded := App.graded st |})) /\
  (student_id ∉ ids ->
   App.do_login web cfg form st = (App.Redirect "login" [("error", "Invalid ID")], st)).
Proof.
  intros Hids Hne student_id.
  assert (Hadm : admitted web cfg student_id <-> student_id ∈ ids).
  { unfold admitted. rewrite Hids. simpl. by rewrite bool_decide_eq_true_2. }
  destruct (do_login_cases web cfg form st) as [[Ha ->] | [Ha ->]]; fold student_id in Ha;
    rewrite Hadm in Ha; split; intros Hin; done.
Qed.

Lemma whitelist_overrides_pattern_witness :
  App.do_login App.sample_web
    {| App.ALLOWED_IDS := Some {["teacher"]}; App.ID_PATTERN := Some "^\d{5,10}$" |}
    (Some "  teacher ") App.new_client
  = (App.Redirect "index" [], App.signed_in "teacher") /\
  App.do_login App.sample_web
    {| App.ALLOWED_IDS := Some {["teacher"]}; App.ID_PATTERN := Some "^\d{5,10}$" |}
    (Some "65001") App.new_client
  = (App.Redirect "login" [("error", "Invalid ID")], App.new_client).
Proof.
  destruct (whitelist_overrides_pattern App.sample_web
              {| App.ALLOWED_IDS := Some {["teacher"]}; App.ID_PATTERN := Some "^\d{5,10}$" |}
              {["teacher"]} (Some "  teacher ") App.new_client) as [Hin _];
    [reflexivity | by apply non_empty_singleton_L |].
  destruct (whitelist_overrides_pattern App.sample_web
              {| App.ALLOWED_IDS := Some {["teacher"]}; App.ID_PATTERN := Some "^\d{5,10}$" |}
              {["teacher"]} (Some "65001") App.new_client) as [_ Hout];
    [reflexivity | by apply non_empty_singleton_L |].
  split.
  - rewrite Hin; [reflexivity|]. by apply elem_of_singleton.
  - apply Hout. rewrite elem_of_singleton. discriminate.
Defined.

(** X21. Whatever a client sends, and in whatever order, the id its session
    holds is one the login policy admits. *)
Theorem session_id_is_admitted (py : Interp) (web : App.Web) (cfg : App.config)
    (PROBLEMS : Problems.bank) (reqs : list App.request) (student_id : string) :
  App.session (snd (App.serve_all py web cfg PROBLEMS reqs App.new_client)) !! "student_id"
    = Some student_id ->
  admitted web cfg student_id.
Proof.
  apply serve_all_session. intros sid. simpl. by rewrite lookup_empty.
Qed.

Lemma session_id_is_admitted_witness :
  admitted App.sample_web App.create_app_config "65002".
Proof.
  apply (session_id_is_admitted (Samples.interp Samples.fib_template) App.sample_web
           App.create_app_config Problems.PROBLEMS
           [App.POST_login (Some "12345"); App.POST_login (Some " 65002");
            App.GET_index; App.POST_login None]).
  vm_compute. reflexivity.
Defined.

(** X22. Every call of the grader the application makes for a client is
    made with a problem of the bank, a time limit of 2 seconds and a memory
    limit of 128 MiB, and after a login of that client which the policy
    admitted. *)
Theorem grading_needs_an_admitted_login (py : Interp) (web : App.Web) (cfg : App.config)
    (PROBLEMS : Problems.bank) (reqs : list App.request) (g : App.grading) :
  g ∈ App.graded (snd (App.serve_all py web cfg PROBLEMS reqs App.new_client)) ->
  App.gr_time_limit g = 2%Q /\
  App.gr_mem_limit_mb g = 128%Z /\
  (exists pid, Problems.get_problem PROBLEMS pid = Some (App.gr_problem g)) /\
  exists form,
    App.POST_login form ∈ reqs /\
    admitted web cfg (App.strip web (default EmptyString form)).
Proof.
  intros Hg.
  destruct (serve_all_graded py web cfg PROBLEMS
              (exists form, App.POST_login form ∈ reqs /\
                 admitted web cfg (App.strip web (default EmptyString form)))
              reqs App.new_client) as [_ Hgraded].
  - unfold logged_in. simpl. rewrite lookup_empty. by intros [? ?].
  - intros form Hin Hadm. by exists form.
  - destruct (Hgraded g Hg) as [Hnone | (HQ & Ht & Hm & Hp)]; [inversion Hnone|].
    by repeat split.
Qed.

Lemma grading_needs_an_admitted_login_witness :
  exists form,
    App.POST_login form ∈
      [App.POST_api_run (App.submission (Samples.source Samples.fib_template)); App.POST_login (Some "65003");
       App.POST_api_run (App.submission (Samples.source Samples.fib_template))] /\
    admitted App.sample_web App.create_app_config
      (App.strip App.sample_web (default EmptyString form)).
Proof.
  eapply (grading_needs_an_admitted_login (Samples.interp Samples.fib_template)
            App.sample_web App.create_app_config Problems.PROBLEMS
            [App.POST_api_run (App.submission (Samples.source Samples.fib_template));
             App.POST_login (Some "65003");
             App.POST_api_run (App.submission (Samples.source Samples.fib_template))]
            {| App.gr_problem := Problems.fibonacci; App.gr_code := Samples.source Samples.fib_template;
               App.gr_time_limit := 2; App.gr_mem_limit_mb := 128 |}).
  vm_compute. left.
Defined.

(** X23. A JSON answer of [api_run] is the result of the grader: the client
    was logged in, the body was a JSON object naming, as strings, a problem
    of the bank and a source, and the answer is what [run_in_subprocess]
    returned for that problem and source under 2 seconds and 128 MiB, with a
    status of "ok", "error" or "tle".  The session is left as it was. *)
Theorem api_run_reports_the_grader (py : Interp) (web : App.Web)
    (PROBLEMS : Problems.bank) (body : option value) (st st' : App.state)
    (result : GradeResult) :
  App.api_run py web PROBLEMS body st = (App.Jsonify result, st') ->
  logged_in st /\
  App.session st' = App.session st /\
  (g_status result = "ok" \/ g_status result = "error" \/ g_status result = "tle") /\
  exists problem code,
    well_formed_body PROBLEMS body problem code /\
    result = run_in_subprocess py (Problems.as_problem problem) code 2 128 /\
    App.graded st' = App.graded st ++
      [{| App.gr_problem := problem; App.gr_code := code;
          App.gr_time_limit := 2; App.gr_mem_limit_mb := 128 |}].
Proof.
  unfold App.api_run, App.login_required, logged_in.
  destruct (App.session st !! "student_id") as [sid|]; [|discriminate].
  destruct body as [[ | | | | |payload| ]|]; try discriminate.
  destruct (App.payload_get "problem_id" payload) as [[ | | |pid| | | ]|] eqn:Hpid;
    try discriminate.
  destruct (App.payload_get "code" payload) as [[ | | |code| | | ]|] eqn:Hcode;
    try discriminate.
  destruct (Problems.get_problem PROBLEMS pid) as [problem|] eqn:Hget; [|discriminate].
  destruct (App.jsonify_raises web _); [discriminate|].
  intros [= <- <-]. split; [by eexists|]. split; [reflexivity|]. split.
  - destruct (run_in_subprocess_shape py (Problems.as_problem problem) code 2 128)
      as [Hitem | ->]; [|by right; right].
    destruct (channel_item_status _ _ Hitem) as [-> | ->]; [by left | by right; left].
  - exists problem, code. split; [by exists payload, pid|]. by split.
Qed.

Lemma api_run_reports_the_grader_witness :
  g_status (run_in_subprocess (Samples.interp Samples.fib_template)
              (Problems.as_problem Problems.fibonacci)
              (Samples.source Samples.fib_template) 2 128) = "ok" /\
  logged_in (App.signed_in "65001").
Proof.
  split; [reflexivity|].
  eapply (api_run_reports_the_grader (Samples.interp Samples.fib_template) App.sample_web
            Problems.PROBLEMS (App.submission (Samples.source Samples.fib_template))
            (App.signed_in "65001")
            {| App.session := {["student_id" := "65001"]};
               App.graded := [{| App.gr_problem := Problems.fibonacci;
                                 App.gr_code := Samples.source Samples.fib_template;
                                 App.gr_time_limit := 2; App.gr_mem_limit_mb := 128 |}] |}
            (run_in_subprocess (Samples.interp Samples.fib_template)
               (Problems.as_problem Problems.fibonacci)
               (Samples.source Samples.fib_template) 2 128)).
  vm_compute. reflexivity.
Defined.



(** A set returned by the submission: the grader runs and reports, and the
    view fails to answer. *)
Example set_result_is_unhandled :
  App.api_run (Samples.interp App.returns_a_set) App.sample_web Problems.PROBLEMS
    (App.submission (Samples.source App.returns_a_set)) (App.signed_in "65001")
  = (App.Unhandled "TypeError",
     {| App.session := {["student_id" := "65001"]};
        App.graded := [{| App.gr_problem := Problems.fibonacci;
                          App.gr_code := Samples.source App.returns_a_set;
                          App.gr_time_limit := 2; App.gr_mem_limit_mb := 128 |}] |}).
Proof. vm_compute. reflexivity. Qed.

(** X25. A client that is not logged in gets nothing from the index nor
    from [api_run] but a redirection to the login page, naming the path to
    come back to; nothing is graded.  After [logout] every client is such a
    client, whatever its session held. *)
Theorem logout_ends_the_session (py : Interp) (web : App.Web) (cfg : App.config)
    (PROBLEMS : Problems.bank) (st : App.state) (body : option value) :
  let st' := snd (App.serve py web cfg PROBLEMS App.GET_logout st) in
  ~ logged_in st' /\
  App.graded st' = App.graded st /\
  App.serve py web cfg PROBLEMS App.GET_index st'
    = (App.Redirect "login" [("next", "/")], st') /\
  App.serve py web cfg PROBLEMS (App.POST_api_run body) st'
    = (App.Redirect "login" [("next", "/api/run")], st').
Proof.
  simpl. repeat split.
  unfold logged_in. simpl. rewrite lookup_empty. by intros [? ?].
Qed.

(** * The channel between child and parent *)

Section Channel.

Context (py : Interp).

Lemma flushed_nothing (proc : child py) :
  to_send py proc = [] -> flushed py proc = true.
Proof. unfold flushed. by intros ->. Qed.

End Channel.

(** X27. What cannot be pickled never arrives.  When an outcome of the
    report the child has put holds an object that cannot be pickled, the
    report is dropped on its way: the parent, once the child is gone, finds
    the channel empty and hands the caller the bare "No result returned",
    whatever the verdicts were. *)
Theorem unpicklable_report_is_lost (py : Interp) (problem : Problem) (code : string)
    (time_limit : Q) (mem_limit_mb : Z) (outs : list TestOutcome) (elapsed : Q)
    (o : TestOutcome) :
  let proc := Process py problem code mem_limit_mb in
  c_queue (ch_final proc) = [result_ok outs elapsed] ->
  o ∈ outs ->
  py_pickle py (c_py (ch_final proc)) o = None ->
  Qle_bool (py_wall py (c_py (ch_final proc))) time_limit = true ->
  to_send py proc = [] /\
  exited_by py proc time_limit = true /\
  run_in_subprocess py problem code time_limit mem_limit_mb
    = result_error "No result returned".
Proof.
  intros proc Hq Ho Hpickle Hwall. subst proc.
  set (proc := Process py problem code mem_limit_mb) in *.
  assert (Hsend : to_send py proc = []).
  { rewrite (to_send_one py proc _ Hq), carried_report.
    destruct (mapM (pickled py (c_py (ch_final proc))) outs) as [sent|] eqn:Hsent;
      [|reflexivity].
    assert (Hall : is_Some (mapM (pickled py (c_py (ch_final proc))) outs)) by by eexists.
    apply mapM_is_Some in Hall. rewrite Forall_forall in Hall.
    destruct (Hall o Ho) as [o' Ho']. unfold pickled in Ho'.
    by rewrite Hpickle in Ho'. }
  assert (Hexit : exited_by py proc time_limit = true).
  { unfold exited_by. rewrite (flushed_nothing py proc Hsend), Hwall.
    destruct (process_channel py problem code mem_limit_mb)
      as [(Hend & _) | (_ & Hnone)].
    - fold proc in Hend. by rewrite Hend.
    - fold proc in Hnone. by rewrite Hnone in Hq. }
  repeat split; [exact Hsend | exact Hexit |].
  unfold run_in_subprocess.
  rewrite (supervisor_collects py problem code time_limit mem_limit_mb Hexit).
  fold proc. by rewrite Hsend.
Qed.

Lemma unpicklable_report_is_lost_witness :
  let py := MoreSamples.with_channel (Samples.interp MoreSamples.returns_generator)
              MoreSamples.no_generators (fun _ => true) in
  run_in_subprocess py Samples.fib_problem (Samples.source MoreSamples.returns_generator) 2 128
    = result_error "No result returned".
Proof.
  eapply (unpicklable_report_is_lost
            (MoreSamples.with_channel (Samples.interp MoreSamples.returns_generator)
               MoreSamples.no_generators (fun _ => true))
            Samples.fib_problem (Samples.source MoreSamples.returns_generator) 2 128
            [scored_item 1 (Samples.test [VInt 0] (VInt 0)) false (VOther 0);
             scored_item 2 (Samples.test [VInt 1] (VInt 1)) false (VOther 1);
             scored_item 3 (Samples.test [VInt 7] (VInt 13)) false (VOther 2);
             scored_item 4 (Samples.test [VInt 10] (VInt 55)) false (VOther 3)]
            (0 # 10000)
            (scored_item 1 (Samples.test [VInt 0] (VInt 0)) false (VOther 0))).
  - vm_compute. reflexivity.
  - left.
  - reflexivity.
  - reflexivity.
Defined.

(** X28. What the pipe does not take whole keeps the child alive.  When an
    item the child has put, report or bare error, is larger once pickled
    than the pipe can hold, the child cannot exit before the parent reads,
    and the parent does not read before the child is gone: whatever the
    time limit, the caller gets "Time Limit Exceeded", however fast the
    submission was. *)
Theorem oversized_item_is_tle (py : Interp) (problem : Problem) (code : string)
    (time_limit : Q) (mem_limit_mb : Z) (r sent : GradeResult) :
  let proc := Process py problem code mem_limit_mb in
  r ∈ c_queue (ch_final proc) ->
  carried py (c_py (ch_final proc)) r = Some sent ->
  py_fits py sent = false ->
  exited_by py proc time_limit = false /\
  run_in_subprocess py problem code time_limit mem_limit_mb = result_tle.
Proof.
  intros proc Hr Hsent Hfits.
  assert (Hexit : exited_by py proc time_limit = false).
  { unfold exited_by. destruct (ch_end proc); try reflexivity;
      apply andb_false_intro1; unfold flushed; apply not_true_is_false;
      rewrite forallb_forall; intros Hall;
      (assert (Hin : In sent (to_send py proc));
       [apply list_elem_of_In, list_elem_of_omap; by exists r|]);
      specialize (Hall sent Hin); congruence. }
  split; [exact Hexit|].
  unfold run_in_subprocess.
  by rewrite (supervisor_times_out py problem code time_limit mem_limit_mb Hexit).
Qed.

Lemma oversized_item_is_tle_witness :
  let py := MoreSamples.with_channel (Samples.interp MoreSamples.returns_long_list)
              (fun _ o => Some (MoreSamples.as_they_are o)) MoreSamples.pipe_64k in
  let code := Samples.source MoreSamples.returns_long_list in
  ch_end (Process py MoreSamples.fib_of_zero code 128) = Done tt /\
  run_in_subprocess py MoreSamples.fib_of_zero code 1000 128 = result_tle.
Proof.
  split; [vm_compute; reflexivity|].
  eapply (oversized_item_is_tle
            (MoreSamples.with_channel (Samples.interp MoreSamples.returns_long_list)
               (fun _ o => Some (MoreSamples.as_they_are o)) MoreSamples.pipe_64k)
            MoreSamples.fib_of_zero (Samples.source MoreSamples.returns_long_list) 1000 128
            (result_ok
               [scored_item 1 (Samples.test [VInt 0] (VInt 0)) false
                  (VList (repeat (VList (repeat (VInt 0) 200)) 200))]
               (0 # 10000))).
  - vm_compute. left.
  - vm_compute. reflexivity.
  - vm_compute. reflexivity.
Defined.

(** A submission that empties the list it is given: each test is called
    with the list of its test case and scored on what the call returned,
    and the report the caller gets shows the lists as the submission left
    them. *)
Example mutated_arguments_show_in_the_report :
  let py := MoreSamples.with_channel (Samples.interp MoreSamples.two_sum_clears)
              MoreSamples.first_list_cleared (fun _ => true) in
  let code := Samples.source MoreSamples.two_sum_clears in
  let result := run_in_subprocess py Samples.two_sum_problem code 2 128 in
  g_status result = "ok" /\
  map o_args <$> g_tests result
    = Some [[VList []; VInt 9]; [VList []; VInt 6]; [VList []; VInt 6]] /\
  map o_ok <$> g_tests result = Some [true; false; true] /\
  EvCall (UserObj 0) [Samples.ints [3; 2; 4]%Z; VInt 6] []
    ∈ c_log (ch_final (Process py Samples.two_sum_problem code 128)).
Proof.
  vm_compute. split; [reflexivity|]. split; [reflexivity|]. split; [reflexivity|].
  do 5 right. left.
Qed.
